(** * py_moex: candle retrieval from the MOEX ISS service

    A shallow embedding of [py_moex.py] and the properties of its
    window planning, row normalisation, lookups and error handling.

    Python values are modelled by an inductive type of JSON-like objects,
    [datetime] by a record of its seven fields with the arithmetic of the
    standard library (through proleptic Gregorian ordinals), exceptions by
    an error monad over an explicit world (requests sent, lines printed,
    files written), and the HTTP service by an oracle function. *)

From Stdlib Require Import ZArith Lia Bool String Ascii List.
From Stdlib Require Import Floats.PrimFloat Floats.SpecFloat Floats.FloatOps.
From stdpp Require Import base option list gmap strings.

Local Open Scope string_scope.
Local Open Scope list_scope.
Local Open Scope Z_scope.

Set Warnings "-register-all".

(** Division and remainder by constants are handed to [lia]. *)
Ltac Zify.zify_post_hook ::= Z.to_euclidean_division_equations.

(** ** The proleptic Gregorian calendar of [datetime] *)

Module Calendar.

Definition MINYEAR : Z := 1.
Definition MAXYEAR : Z := 9999.

(** [_DAYS_IN_MONTH], with the placeholder at index 0. *)
Definition DAYS_IN_MONTH : list Z :=
  [-1; 31; 28; 31; 30; 31; 30; 31; 31; 30; 31; 30; 31].

(** [_DAYS_BEFORE_MONTH], with the placeholder at index 0. *)
Definition DAYS_BEFORE_MONTH : list Z :=
  [-1; 0; 31; 59; 90; 120; 151; 181; 212; 243; 273; 304; 334].

Definition tbl (t : list Z) (i : Z) : Z := default 0 (t !! Z.to_nat i).

Definition is_leap (year : Z) : bool :=
  (year mod 4 =? 0) && (negb (year mod 100 =? 0) || (year mod 400 =? 0)).

Definition days_before_year (year : Z) : Z :=
  let y := year - 1 in
  y * 365 + y / 4 - y / 100 + y / 400.

Definition days_in_month (year month : Z) : Z :=
  if (month =? 2) && is_leap year then 29 else tbl DAYS_IN_MONTH month.

Definition days_before_month (year month : Z) : Z :=
  tbl DAYS_BEFORE_MONTH month
  + (if (2 <? month) && is_leap year then 1 else 0).

Definition ymd2ord (year month day : Z) : Z :=
  days_before_year year + days_before_month year month + day.

Definition DI400Y : Z := Eval cbv in days_before_year 401.
Definition DI100Y : Z := Eval cbv in days_before_year 101.
Definition DI4Y : Z := Eval cbv in days_before_year 5.

Definition MAXORDINAL : Z := Eval cbv in ymd2ord 9999 12 31.

(** The tail of [_ord2ymd]: month and day from the day [n] of the year
    (counted from 0) and the leap flag. *)
Definition month_day (leapyear : bool) (n : Z) : Z * Z :=
  let month := Z.shiftr (n + 50) 5 in
  let preceding :=
    tbl DAYS_BEFORE_MONTH month
    + (if (2 <? month) && leapyear then 1 else 0) in
  if n <? preceding then
    let month := month - 1 in
    let preceding :=
      preceding
      - (tbl DAYS_IN_MONTH month
         + (if (month =? 2) && leapyear then 1 else 0)) in
    (month, n - preceding + 1)
  else (month, n - preceding + 1).

Definition ord2ymd (n : Z) : Z * Z * Z :=
  let n := n - 1 in
  let n400 := n / DI400Y in
  let n := n mod DI400Y in
  let year := n400 * 400 + 1 in
  let n100 := n / DI100Y in
  let n := n mod DI100Y in
  let n4 := n / DI4Y in
  let n := n mod DI4Y in
  let n1 := n / 365 in
  let n := n mod 365 in
  let year := year + n100 * 100 + n4 * 4 + n1 in
  if (n1 =? 4) || (n100 =? 4) then (year - 1, 12, 31)
  else
    let leapyear := (n1 =? 3) && (negb (n4 =? 24) || (n100 =? 3)) in
    let '(month, day) := month_day leapyear n in
    (year, month, day).

Definition valid_date (year month day : Z) : bool :=
  (MINYEAR <=? year) && (year <=? MAXYEAR)
  && (1 <=? month) && (month <=? 12)
  && (1 <=? day) && (day <=? days_in_month year month).

(** Length of a year, days in a month and days before a month as
    functions of the leap flag alone. *)
Definition leap_of (b c e : Z) : bool :=
  (e =? 3) && (negb (c =? 24) || (b =? 3)).

Definition year_len (leap : bool) : Z := if leap then 366 else 365.

Definition dim_l (leap : bool) (m : Z) : Z :=
  if (m =? 2) && leap then 29 else tbl DAYS_IN_MONTH m.

Definition dbm_l (leap : bool) (m : Z) : Z :=
  tbl DAYS_BEFORE_MONTH m + (if (2 <? m) && leap then 1 else 0).

End Calendar.

Import Calendar.

(** ** Exceptions and results *)

(** The exception classes the program raises or meets.  [RequestException]
    and its subclasses come from the HTTP library; [RequestsJSONDecodeError]
    is the library's own decode error, a subclass of both
    [RequestException] and [ValueError]; [JSONDecodeError] is the decode
    error of the [json] module, a subclass of [ValueError] only.  All are
    subclasses of [Exception]; asynchronous interrupts are not modelled. *)
Inductive exn : Type :=
| ValueError | TypeError | RuntimeError | IndexError | KeyError
| AttributeError | OverflowError | OSError
| RequestException | ConnectionError | Timeout | HTTPError
| RequestsJSONDecodeError | JSONDecodeError.

Definition is_RequestException (e : exn) : bool :=
  match e with
  | RequestException | ConnectionError | Timeout | HTTPError
  | RequestsJSONDecodeError => true
  | _ => false
  end.

Definition is_ValueError (e : exn) : bool :=
  match e with
  | ValueError | RequestsJSONDecodeError | JSONDecodeError => true
  | _ => false
  end.

(** The outcome of running a piece of the program: a value, an exception
    that propagates, or a loop that used up its fuel. *)
Inductive result (A : Type) : Type :=
| Done (a : A)
| Raised (e : exn)
| OutOfFuel.
Arguments Done {A} a.
Arguments Raised {A} e.
Arguments OutOfFuel {A}.

Definition rbind {A B} (r : result A) (k : A -> result B) : result B :=
  match r with
  | Done a => k a
  | Raised e => Raised e
  | OutOfFuel => OutOfFuel
  end.

(** ** [datetime] and [timedelta] *)

(** A naive [datetime]: its seven fields. *)
Record datetime : Type := mk_datetime {
  year : Z; month : Z; day : Z;
  hour : Z; minute : Z; second : Z; microsecond : Z
}.

(** The range checks of the [datetime] constructor. *)
Definition valid_datetime (d : datetime) : bool :=
  valid_date (year d) (month d) (day d)
  && (0 <=? hour d) && (hour d <? 24)
  && (0 <=? minute d) && (minute d <? 60)
  && (0 <=? second d) && (second d <? 60)
  && (0 <=? microsecond d) && (microsecond d <? 1000000).

(** A [timedelta], normalised as Python keeps it:
    [0 <= seconds < 86400] and [0 <= microseconds < 1000000]. *)
Record timedelta : Type := mk_timedelta {
  days : Z; seconds : Z; microseconds : Z
}.

(** [timedelta(days, seconds, microseconds, minutes=, hours=)] on integers. *)
Definition timedelta_new (d s us m h : Z) : timedelta :=
  let total := (d * 86400 + h * 3600 + m * 60 + s) * 1000000 + us in
  {| days := total / 86400000000;
     seconds := total mod 86400000000 / 1000000;
     microseconds := total mod 1000000 |}.

Definition timedelta_add (a b : timedelta) : timedelta :=
  timedelta_new (days a + days b) (seconds a + seconds b)
                (microseconds a + microseconds b) 0 0.

Definition timedelta_neg (a : timedelta) : timedelta :=
  timedelta_new (- days a) (- seconds a) (- microseconds a) 0 0.

Definition toordinal (d : datetime) : Z := ymd2ord (year d) (month d) (day d).

(** The tail of [datetime.__add__]: the datetime at a normalised distance
    from the origin of the ordinals, with the range check that raises
    [OverflowError]. *)
Definition datetime_of_delta (delta : timedelta) : result datetime :=
  let hour := seconds delta / 3600 in
  let rem := seconds delta mod 3600 in
  let minute := rem / 60 in
  let second := rem mod 60 in
  if (0 <? days delta) && (days delta <=? MAXORDINAL) then
    let '(y, m, dd) := ord2ymd (days delta) in
    Done (mk_datetime y m dd hour minute second (microseconds delta))
  else Raised OverflowError.

(** [datetime.__add__]: through the ordinal of the date. *)
Definition datetime_add (d : datetime) (t : timedelta) : result datetime :=
  datetime_of_delta
    (timedelta_add
       (timedelta_new (toordinal d) (second d) (microsecond d)
                      (minute d) (hour d)) t).

(** [datetime.__sub__] with a [timedelta]: [self + -other]. *)
Definition datetime_sub (d : datetime) (t : timedelta) : result datetime :=
  datetime_add d (timedelta_neg t).

(** [d.replace(hour=h, minute=m, second=s)]: builds a new [datetime],
    with the constructor's range checks. *)
Definition at_hms (d : datetime) (h m s : Z) : datetime :=
  mk_datetime (year d) (month d) (day d) h m s (microsecond d).

Definition replace_hms (d : datetime) (h m s : Z) : result datetime :=
  let d' := at_hms d h m s in
  if valid_datetime d' then Done d' else Raised ValueError.

(** Comparison of naive datetimes: field by field. *)
Definition lex (c1 c2 : comparison) : comparison :=
  match c1 with Eq => c2 | _ => c1 end.

Definition datetime_cmp (a b : datetime) : comparison :=
  lex (year a ?= year b)
  (lex (month a ?= month b)
  (lex (day a ?= day b)
  (lex (hour a ?= hour b)
  (lex (minute a ?= minute b)
  (lex (second a ?= second b)
       (microsecond a ?= microsecond b)))))).

Definition datetime_le (a b : datetime) : bool :=
  match datetime_cmp a b with Gt => false | _ => true end.

Definition datetime_gt (a b : datetime) : bool :=
  match datetime_cmp a b with Gt => true | _ => false end.

(** The length of a [timedelta] and the position of a [datetime] on the
    time line, both in microseconds. *)
Definition td_total (t : timedelta) : Z :=
  (days t * 86400 + seconds t) * 1000000 + microseconds t.

Definition stamp (d : datetime) : Z :=
  (toordinal d * 86400 + hour d * 3600 + minute d * 60 + second d) * 1000000
  + microsecond d.

(** Decimal rendering with a fixed width, as [strftime] pads its fields. *)
Definition digit (n : Z) : ascii := ascii_of_nat (48 + Z.to_nat (n mod 10)).

Fixpoint zero_padded (width : nat) (n : Z) : string :=
  match width with
  | O => ""
  | S w => zero_padded w (n / 10) +:+ String (digit n) ""
  end.

(** [strftime] for the directives the program uses. *)
Fixpoint strftime (fmt : string) (d : datetime) : string :=
  match fmt with
  | "" => ""
  | String "%" (String c rest) =>
      (if Ascii.eqb c "Y" then zero_padded 4 (year d)
       else if Ascii.eqb c "y" then zero_padded 2 (year d mod 100)
       else if Ascii.eqb c "m" then zero_padded 2 (month d)
       else if Ascii.eqb c "d" then zero_padded 2 (day d)
       else if Ascii.eqb c "H" then zero_padded 2 (hour d)
       else if Ascii.eqb c "M" then zero_padded 2 (minute d)
       else if Ascii.eqb c "S" then zero_padded 2 (second d)
       else String "%" (String c ""))
      +:+ strftime rest d
  | String c rest => String c (strftime rest d)
  end.

(** ** Python values *)

(** The objects a decoded JSON body is made of.  A dictionary is kept as
    its list of entries in order; a lookup takes the first entry under the
    key. *)
Inductive pyval : Type :=
| VNone
| VBool (b : bool)
| VInt (z : Z)
| VFloat (f : float)
| VStr (s : string)
| VList (l : list pyval)
| VDict (kvs : list (string * pyval)).

(** Truth value of an object ([if x:], [not x], [all]). *)
Definition truthy (v : pyval) : bool :=
  match v with
  | VNone => false
  | VBool b => b
  | VInt z => negb (z =? 0)
  | VFloat f => negb (PrimFloat.eqb f 0)
  | VStr s => negb (String.eqb s "")
  | VList l => match l with [] => false | _ => true end
  | VDict kvs => match kvs with [] => false | _ => true end
  end.

Fixpoint assoc (k : string) (kvs : list (string * pyval)) : option pyval :=
  match kvs with
  | [] => None
  | (k', v) :: rest => if String.eqb k k' then Some v else assoc k rest
  end.

Definition dict_keys (kvs : list (string * pyval)) : list string :=
  remove_dups (map fst kvs).

Definition chars (s : string) : list pyval :=
  map (fun c => VStr (String c "")) (list_ascii_of_string s).

(** Indexing a sequence of length [length l] by a Python integer:
    negative indices count from the end. *)
Definition index_seq {A} (l : list A) (i : Z) : result A :=
  let n := Z.of_nat (length l) in
  let j := if i <? 0 then i + n else i in
  if (0 <=? j) && (j <? n) then
    match l !! Z.to_nat j with
    | Some x => Done x
    | None => Raised IndexError
    end
  else Raised IndexError.

(** [v[i]] for an integer [i].  The keys of a decoded JSON object are
    strings, so an integer key is never present. *)
Definition getitem_int (v : pyval) (i : Z) : result pyval :=
  match v with
  | VList l => index_seq l i
  | VStr s => index_seq (chars s) i
  | VDict _ => Raised KeyError
  | _ => Raised TypeError
  end.

(** [v[k]] for a string [k]. *)
Definition getitem_str (v : pyval) (k : string) : result pyval :=
  match v with
  | VDict kvs =>
      match assoc k kvs with
      | Some x => Done x
      | None => Raised KeyError
      end
  | _ => Raised TypeError
  end.

(** [v.get(k, dflt)]: only dictionaries have the method. *)
Definition dict_get (v : pyval) (k : string) (dflt : pyval) : result pyval :=
  match v with
  | VDict kvs => Done (default dflt (assoc k kvs))
  | _ => Raised AttributeError
  end.

Fixpoint contains_sub (needle s : string) : bool :=
  String.prefix needle s
  || match s with
     | "" => false
     | String _ rest => contains_sub needle rest
     end.

Definition is_str (k : string) (v : pyval) : bool :=
  match v with VStr s => String.eqb s k | _ => false end.

(** [k in v] for a string [k]: a key of a dictionary, an element of a
    list, a substring of a string. *)
Definition contains (k : string) (v : pyval) : result bool :=
  match v with
  | VDict kvs => Done (existsb (String.eqb k) (map fst kvs))
  | VList l => Done (existsb (is_str k) l)
  | VStr s => Done (contains_sub k s)
  | _ => Raised TypeError
  end.

(** The elements a [for] loop or a comprehension runs over. *)
Definition iterate (v : pyval) : result (list pyval) :=
  match v with
  | VList l => Done l
  | VStr s => Done (chars s)
  | VDict kvs => Done (map VStr (dict_keys kvs))
  | _ => Raised TypeError
  end.

Definition py_len (v : pyval) : result Z :=
  match v with
  | VList l => Done (Z.of_nat (length l))
  | VStr s => Done (Z.of_nat (String.length s))
  | VDict kvs => Done (Z.of_nat (length (dict_keys kvs)))
  | _ => Raised TypeError
  end.

(** Whitespace for [str.split()], on the ASCII range: tab to carriage
    return, the four separators 28 to 31, and the space. *)
Definition is_space (c : ascii) : bool :=
  let n := nat_of_ascii c in
  ((9 <=? n) && (n <=? 13) || (28 <=? n) && (n <=? 31) || (n =? 32))%nat.

(** [s.split()]: the maximal runs of characters that are not whitespace.
    [cur] is the run being read. *)
Fixpoint split_from (cur : option string) (s : string) : list string :=
  match s with
  | "" => match cur with Some w => [w] | None => [] end
  | String c rest =>
      if is_space c then
        match cur with
        | Some w => w :: split_from None rest
        | None => split_from None rest
        end
      else
        split_from (Some (default "" cur +:+ String c "")) rest
  end.

Definition split (s : string) : list string := split_from None s.

(** [s.replace(":", "")]. *)
Fixpoint remove_colons (s : string) : string :=
  match s with
  | "" => ""
  | String c rest =>
      if Ascii.eqb c ":" then remove_colons rest
      else String c (remove_colons rest)
  end.

(** [v.split()]: only strings have the method. *)
Definition str_split (v : pyval) : result (list string) :=
  match v with
  | VStr s => Done (split s)
  | _ => Raised AttributeError
  end.

(** The nearest double of an integer, ties to even. *)
Definition float_of_Z (z : Z) : float :=
  SF2Prim (binary_normalize 53 1024 z 0 false).

(** [float(v)].  The parser of numerals in strings is a parameter. *)
Definition py_float (float_of_str : string -> option float) (v : pyval)
  : result float :=
  match v with
  | VBool b => Done (if b then 1%float else 0%float)
  | VInt z =>
      let f := float_of_Z z in
      if is_infinity f then Raised OverflowError else Done f
  | VFloat f => Done f
  | VStr s =>
      match float_of_str s with
      | Some f => Done f
      | None => Raised ValueError
      end
  | _ => Raised TypeError
  end.

(** ** Tables, arguments and the outside world *)

(** A row of the candle table, by its columns [<TICKER>], [<PER>],
    [<DATE>], [<TIME>], [<OPEN>], [<HIGH>], [<LOW>], [<CLOSE>], [<VOL>]. *)
Record row : Type := mk_row {
  TICKER : string; PER : pyval; DATE : string; TIME : string;
  OPEN : pyval; HIGH : pyval; LOW : pyval; CLOSE : pyval; VOL : pyval
}.

(** A [DataFrame] with these columns. *)
Definition table : Type := list row.

(** The objects a caller can pass. *)
Inductive pyobj : Type :=
| PyVal (v : pyval)
| PyDatetime (d : datetime)
| PyDataFrame (t : table).

(** The three endpoints, with the values formatted into the address. *)
Inductive url : Type :=
| SecuritiesUrl (ticker : string)
| CandlesUrl (engine market : pyval) (ticker : string)
| HistoryUrl (engine market : pyval) (ticker : string).

Inductive param : Type :=
| PStr (s : string)
| PVal (v : pyval).

Record request : Type := mk_request {
  req_url : url;
  req_params : list (string * param);
  req_timeout : option Z
}.

(** What [response.json()] does is part of the response: the decoded body,
    or the exception raised on a body that does not decode. *)
Record response : Type := mk_response {
  status_code : Z;
  json_body : exn + pyval
}.

(** [requests.get] raises, or returns a response. *)
Inductive http_outcome : Type :=
| Fails (e : exn)
| Responds (r : response).

(** Where [to_csv] writes: the path given, or
    [os.path.join(os.getcwd(), f"{ticker}.csv")]. *)
Inductive path : Type :=
| PathGiven (p : pyobj)
| PathDefault (cwd : string) (ticker : pyobj).

(** The lines the program prints. *)
Inductive message : Type :=
| MsgCandlesError (start_time end_time : datetime) (e : exn)
| MsgNotDataFrame (candles : pyobj)
| MsgSaved (p : path)
| MsgSaveError (e : exn)
| MsgNoHistory
| MsgNoData
| MsgRequestError (e : exn).

(** The collaborators: the service (which may answer the [n]-th request of
    a run as it likes), the clock, the working directory, the file writer
    ([None]: the write succeeds) and the numeral parser of [float]. *)
Record env : Type := mk_env {
  http : nat -> request -> http_outcome;
  now : datetime;
  getcwd : string;
  to_csv : path -> table -> option exn;
  float_of_str : string -> option float
}.

(** What a run leaves behind: the requests sent, the lines printed, the
    files written, and the list [all_data] that [get_candles] appends to. *)
Record world : Type := mk_world {
  sent : list request;
  printed : list message;
  written : list (path * table);
  all_data : list row
}.

Definition world0 : world := mk_world [] [] [] [].

(** ** The monad of the program *)

Definition M (A : Type) : Type := world -> result A * world.

Definition ret {A} (a : A) : M A := fun w => (Done a, w).

Definition bind {A B} (m : M A) (k : A -> M B) : M B :=
  fun w =>
    match m w with
    | (Done a, w') => k a w'
    | (Raised e, w') => (Raised e, w')
    | (OutOfFuel, w') => (OutOfFuel, w')
    end.

Definition raise {A} (e : exn) : M A := fun w => (Raised e, w).

Definition lift {A} (r : result A) : M A := fun w => (r, w).

(** [try: body except <classes>: handler]. *)
Definition try_except {A} (body : M A) (classes : exn -> bool)
    (handler : exn -> M A) : M A :=
  fun w =>
    match body w with
    | (Raised e, w') => if classes e then handler e w' else (Raised e, w')
    | r => r
    end.

Declare Scope monad_scope.
Delimit Scope monad_scope with monad.
Notation "x <- m ;; k" := (bind m (fun x => k))
  (at level 100, m at next level, right associativity) : monad_scope.
Notation "m ;; k" := (bind m (fun _ => k))
  (at level 100, right associativity) : monad_scope.
Local Open Scope monad_scope.

Definition print (m : message) : M unit :=
  fun w => (Done tt, mk_world (sent w) (printed w ++ [m])%list (written w)
                              (all_data w)).

Definition append_row (r : row) : M unit :=
  fun w => (Done tt, mk_world (sent w) (printed w) (written w)
                              (all_data w ++ [r])%list).

Definition reset_all_data : M unit :=
  fun w => (Done tt, mk_world (sent w) (printed w) (written w) []).

Definition read_all_data : M (list row) :=
  fun w => (Done (all_data w), w).

(** [requests.get(url, params=, timeout=)]. *)
Definition requests_get (E : env) (u : url) (ps : list (string * param))
    (timeout : option Z) : M response :=
  fun w =>
    let q := mk_request u ps timeout in
    let w' := mk_world (sent w ++ [q])%list (printed w) (written w) (all_data w) in
    match http E (length (sent w)) q with
    | Fails e => (Raised e, w')
    | Responds r => (Done r, w')
    end.

(** [response.raise_for_status()]. *)
Definition raise_for_status (r : response) : M unit :=
  if (400 <=? status_code r) && (status_code r <? 600)
  then raise HTTPError else ret tt.

(** [response.json()]. *)
Definition json (r : response) : M pyval :=
  match json_body r with
  | inl e => raise e
  | inr v => ret v
  end.

Notation "'let*' x := e 'in' k" := (rbind e (fun x => k))
  (at level 10, x name, e at level 200, k at level 200).

(** ** The program: [py_moex.py] *)

(** The dictionary returned by [get_security_info]. *)
Record security_info : Type := mk_security_info {
  secid : pyval; shortname : pyval; group : pyval;
  market : pyval; engine : pyval
}.

(** One entry of [{item[0]: item[2] for item in ...}].  The dictionary is
    read by three string keys only.  A key that is not a string is hashed
    (a list or a dictionary raises [TypeError]) and can never be equal to
    one of them, so its entry is left out of the map. *)
Definition description_entry (acc : gmap string pyval) (item : pyval)
  : result (gmap string pyval) :=
  let* k := getitem_int item 0 in
  let* v := getitem_int item 2 in
  match k with
  | VStr s => Done (<[s := v]> acc)
  | VList _ | VDict _ => Raised TypeError
  | _ => Done acc
  end.

Fixpoint description_dict (acc : gmap string pyval) (items : list pyval)
  : result (gmap string pyval) :=
  match items with
  | [] => Done acc
  | item :: rest =>
      let* acc' := description_entry acc item in
      description_dict acc' rest
  end.

(** The part of [get_security_info] after the body is decoded: it reads
    the two tables and raises [ValueError] on what it does not accept. *)
Definition parse_security_info (data : pyval) : result security_info :=
  let* missing := (let* d := contains "description" data in
                   if d then let* b := contains "boards" data in
                             Done (negb b)
                   else Done true) in
  if missing : bool then Raised ValueError
  else
    let* description := (let* d := getitem_str data "description" in
                         getitem_str d "data") in
    let* items := iterate description in
    let* description_data := description_dict ∅ items in
    let secid := default VNone (description_data !! "SECID") in
    let shortname := default VNone (description_data !! "SHORTNAME") in
    let group := default VNone (description_data !! "GROUP") in
    if negb (truthy secid && truthy shortname && truthy group)
    then Raised ValueError
    else
      let* boards_data := (let* b := getitem_str data "boards" in
                           getitem_str b "data") in
      let* short := (if negb (truthy boards_data) then Done true
                     else let* r := getitem_int boards_data 0 in
                          let* n := py_len r in
                          Done (n <? 8)) in
      if short : bool then Raised ValueError
      else
        let* first_row := getitem_int boards_data 0 in
        let* market := getitem_int first_row 5 in
        let* engine := getitem_int first_row 7 in
        Done (mk_security_info secid shortname group market engine).

Definition security_request (ticker : string) : request :=
  mk_request (SecuritiesUrl ticker) [] None.

(** The value of a triple [[field, type, value]] when its field name is
    [k], and the value of the last such triple of a list. *)
Definition field_value (k : string) (item : pyval) : option pyval :=
  match getitem_int item 0, getitem_int item 2 with
  | Done (VStr s), Done v => if String.eqb s k then Some v else None
  | _, _ => None
  end.

Definition last_field (k : string) (items : list pyval) : option pyval :=
  last (omap (field_value k) items).

Definition get_security_info (E : env) (ticker : pyobj) : M security_info :=
  match ticker with
  | PyVal (VStr t) =>
      response <-
        try_except
          (r <- requests_get E (SecuritiesUrl t) [] None ;;
           raise_for_status r ;;
           ret r)
          is_RequestException (fun _ => raise RuntimeError) ;;
      data <- try_except (json response) is_ValueError
                (fun _ => raise ValueError) ;;
      lift (parse_security_info data)
  | _ => raise ValueError
  end.

Definition date_format : string := "%Y-%m-%d %H:%M:%S".

(** A request window: [start_time] and [end_time] of one pass of the hour
    loop, from [current_start] and the hour. *)
Definition window_of (current_start : datetime) (hour : Z)
  : result (datetime * datetime) :=
  let* start_time := replace_hms current_start hour 0 0 in
  let* t := datetime_add start_time (timedelta_new 0 0 0 0 1) in
  let* end_time := datetime_sub t (timedelta_new 0 1 0 0 0) in
  Done (start_time, end_time).

(** The row appended for one candle of a window. *)
Definition candle_row (ticker : string) (interval : pyval)
    (start_time : datetime) (candle : pyval) : result row :=
  let date := strftime "%y%m%d" start_time in
  let* begin := getitem_int candle 6 in
  let* parts := str_split begin in
  let* t := index_seq parts 1 in
  let time := remove_colons t in
  let* c0 := getitem_int candle 0 in
  let* c2 := getitem_int candle 2 in
  let* c3 := getitem_int candle 3 in
  let* c1 := getitem_int candle 1 in
  let* c5 := getitem_int candle 5 in
  Done (mk_row ticker interval date time c0 c2 c3 c1 c5).

(** [for candle in data: all_data.append([...])]. *)
Fixpoint append_candles (ticker : string) (interval : pyval)
    (start_time : datetime) (data : list pyval) : M unit :=
  match data with
  | [] => ret tt
  | candle :: rest =>
      r <- lift (candle_row ticker interval start_time candle) ;;
      append_row r ;;
      append_candles ticker interval start_time rest
  end.

Definition candle_params (start_time end_time : datetime) (interval : pyval)
  : list (string * param) :=
  [("from", PStr (strftime date_format start_time));
   ("till", PStr (strftime date_format end_time));
   ("interval", PVal interval)].

(** The body of the [try] statement of one window. *)
Definition window_body (E : env) (base_url : url) (ticker : string)
    (interval : pyval) (start_time end_time : datetime) : M unit :=
  response <- requests_get E base_url
                (candle_params start_time end_time interval) (Some 2) ;;
  raise_for_status response ;;
  body <- json response ;;
  candles <- lift (let* c := dict_get body "candles" (VDict []) in
                   dict_get c "data" (VList [])) ;;
  data <- lift (iterate candles) ;;
  append_candles ticker interval start_time data.

(** The [try] statement of one window. *)
Definition fetch_window (E : env) (base_url : url) (ticker : string)
    (interval : pyval) (start_time end_time : datetime) : M unit :=
  try_except
    (window_body E base_url ticker interval start_time end_time)
    is_RequestException
    (fun e => print (MsgCandlesError start_time end_time e)).

(** [for hour in range(10, 24)], with its [break]. *)
Fixpoint hours_loop (E : env) (base_url : url) (ticker : string)
    (interval : pyval) (current_start end_date : datetime)
    (hours : list Z) : M unit :=
  match hours with
  | [] => ret tt
  | hour :: rest =>
      w <- lift (window_of current_start hour) ;;
      let '(start_time, end_time) := w in
      if datetime_gt start_time end_date then ret tt
      else
        fetch_window E base_url ticker interval start_time end_time ;;
        hours_loop E base_url ticker interval current_start end_date rest
  end.

(** [while current_start <= end_date]: one unit of fuel per test. *)
Fixpoint days_loop (fuel : nat) (E : env) (base_url : url) (ticker : string)
    (interval : pyval) (current_start end_date : datetime) : M unit :=
  match fuel with
  | O => lift OutOfFuel
  | S fuel' =>
      if datetime_le current_start end_date then
        hours_loop E base_url ticker interval current_start end_date
                   (seqZ 10 14) ;;
        next <- lift (datetime_add current_start (timedelta_new 1 0 0 0 0)) ;;
        days_loop fuel' E base_url ticker interval next end_date
      else ret tt
  end.

(** Fuel for the day loop: a test per day from [start_date] to [end_date]
    and the one that ends the loop. *)
Definition loop_fuel (start_date end_date : datetime) : nat :=
  S (Z.to_nat (toordinal end_date - toordinal start_date + 1)).

Definition get_candles (E : env) (ticker start_date end_date : pyobj)
    (interval : pyval) : M table :=
  match ticker, start_date, end_date with
  | PyVal (VStr t), PyDatetime sd, PyDatetime ed =>
      ticker_info <- get_security_info E ticker ;;
      let base_url :=
        CandlesUrl (engine ticker_info) (market ticker_info) t in
      reset_all_data ;;
      days_loop (loop_fuel sd ed) E base_url t interval sd ed ;;
      read_all_data
  | _, _, _ => raise TypeError
  end.

(** The windows the loops of [get_candles] visit, in order: the planner. *)
Fixpoint plan_hours (current_start end_date : datetime) (hours : list Z)
  : result (list (datetime * datetime)) :=
  match hours with
  | [] => Done []
  | hour :: rest =>
      let* w := window_of current_start hour in
      if datetime_gt (fst w) end_date then Done []
      else
        let* ws := plan_hours current_start end_date rest in
        Done (w :: ws)
  end.

Fixpoint plan_days (fuel : nat) (current_start end_date : datetime)
  : result (list (datetime * datetime)) :=
  match fuel with
  | O => OutOfFuel
  | S fuel' =>
      if datetime_le current_start end_date then
        let* today := plan_hours current_start end_date (seqZ 10 14) in
        let* next := datetime_add current_start (timedelta_new 1 0 0 0 0) in
        let* later := plan_days fuel' next end_date in
        Done (today ++ later)%list
      else Done []
  end.

Definition plan (start_date end_date : datetime)
  : result (list (datetime * datetime)) :=
  plan_days (loop_fuel start_date end_date) start_date end_date.

(** The window of hour [h] on the day of [c], and the hours of a day that
    the loop reaches before its [break]. *)
Definition hour_window (c : datetime) (h : Z) : datetime * datetime :=
  (at_hms c h 0 0, at_hms c h 59 59).

Fixpoint open_hours (c end_date : datetime) (hours : list Z) : list Z :=
  match hours with
  | [] => []
  | h :: rest =>
      if datetime_gt (at_hms c h 0 0) end_date then []
      else h :: open_hours c end_date rest
  end.

(** The request of a window. *)
Definition window_request (base_url : url) (interval : pyval)
    (w : datetime * datetime) : request :=
  mk_request base_url (candle_params (fst w) (snd w) interval) (Some 2).

(** The error of a request, when it is one the program treats as such: the
    exception of class [RequestException] raised on a transport failure,
    on a status from 400 to 599, or by the library on a body that does not
    decode. *)
Definition request_error (o : http_outcome) : option exn :=
  match o with
  | Fails e => if is_RequestException e then Some e else None
  | Responds r =>
      if (400 <=? status_code r) && (status_code r <? 600)
      then Some HTTPError
      else match json_body r with
           | inl e => if is_RequestException e then Some e else None
           | inr _ => None
           end
  end.

(** The candles of a decoded body: [body.get("candles", {}).get("data", [])],
    as the loop runs over them. *)
Definition body_data (body : pyval) : result (list pyval) :=
  let* c := dict_get body "candles" (VDict []) in
  let* d := dict_get c "data" (VList []) in
  iterate d.

Fixpoint candle_rows (ticker : string) (interval : pyval)
    (start_time : datetime) (data : list pyval) : result (list row) :=
  match data with
  | [] => Done []
  | candle :: rest =>
      let* r := candle_row ticker interval start_time candle in
      let* rs := candle_rows ticker interval start_time rest in
      Done (r :: rs)
  end.

(** What a window adds to the table and to the output when it does not
    end the fetch: nothing and a line for a request error, the rows of its
    candles otherwise.  [None]: an exception leaves the fetch. *)
Definition window_result (E : env) (base_url : url) (ticker : string)
    (interval : pyval) (n : nat) (w : datetime * datetime)
  : option (list row * list message) :=
  let o := http E n (window_request base_url interval w) in
  match request_error o with
  | Some x => Some ([], [MsgCandlesError (fst w) (snd w) x])
  | None =>
      match o with
      | Responds r =>
          match json_body r with
          | inr body =>
              match (let* data := body_data body in
                     candle_rows ticker interval (fst w) data) with
              | Done rows => Some (rows, [])
              | _ => None
              end
          | inl _ => None
          end
      | Fails _ => None
      end
  end.

(** The same for a list of windows requested one after the other, the
    first as the [n]-th request of the run. *)
Fixpoint run_windows (E : env) (base_url : url) (ticker : string)
    (interval : pyval) (n : nat) (ws : list (datetime * datetime))
  : option (list row * list message) :=
  match ws with
  | [] => Some ([], [])
  | w :: rest =>
      match window_result E base_url ticker interval n w with
      | Some (rows, msgs) =>
          match run_windows E base_url ticker interval (S n) rest with
          | Some (rows', msgs') => Some (rows ++ rows', msgs ++ msgs')%list
          | None => None
          end
      | None => None
      end
  end.

(** A word: a string that is not empty and has no whitespace. *)
Fixpoint no_space (s : string) : bool :=
  match s with
  | "" => true
  | String c rest => negb (is_space c) && no_space rest
  end.

Definition word (s : string) : Prop := s <> "" /\ no_space s = true.

(** The row of a candle in the words of the specification: ticker and
    interval as given, the date of the window start as [yymmdd], the time
    of the candle's own begin stamp (index 6) without the date and without
    colons, and the fields 0, 2, 3, 1, 5 of the candle as open, high, low,
    close and volume. *)
Definition canonical (ticker : string) (interval : pyval)
    (start_time : datetime) (candle : pyval) (r : row) : Prop :=
  TICKER r = ticker
  /\ PER r = interval
  /\ DATE r = strftime "%y%m%d" start_time
  /\ (exists begin tm,
        getitem_int candle 6 = Done (VStr begin)
        /\ index_seq (split begin) 1 = Done tm
        /\ TIME r = remove_colons tm
        /\ forall date time,
             begin = date +:+ " " +:+ time -> word date -> word time ->
             TIME r = remove_colons time)
  /\ getitem_int candle 0 = Done (OPEN r)
  /\ getitem_int candle 2 = Done (HIGH r)
  /\ getitem_int candle 3 = Done (LOW r)
  /\ getitem_int candle 1 = Done (CLOSE r)
  /\ getitem_int candle 5 = Done (VOL r).


(** The three fields read from the description table are the values of
    the last triples under their names. *)
Definition description_fields_are_last (E : env) (t : string) (w : world)
    (info : security_info) : Prop :=
  exists resp data d description items,
    http E (length (sent w)) (security_request t) = Responds resp
    /\ json_body resp = inr data
    /\ getitem_str data "description" = Done d
    /\ getitem_str d "data" = Done description
    /\ iterate description = Done items
    /\ last_field "SECID" items = Some (secid info)
    /\ last_field "SHORTNAME" items = Some (shortname info)
    /\ last_field "GROUP" items = Some (group info).

(** A world after more requests, lines and rows. *)
Definition extend (w : world) (reqs : list request) (msgs : list message)
    (rows : list row) : world :=
  mk_world (sent w ++ reqs) (printed w ++ msgs) (written w)
           (all_data w ++ rows).





(** The dictionary of a bar: [open], [close], [high], [low], [value],
    [volume]. *)
Record bar : Type := mk_bar {
  open : float; close : float; high : float; low : float;
  value : float; volume : float
}.

(** [float(data[i][j])]. *)
Definition float_at (E : env) (data : pyval) (i j : Z) : result float :=
  let* r := getitem_int data i in
  let* x := getitem_int r j in
  py_float (float_of_str E) x.

Definition history_params : list (string * param) :=
  [("sort_order", PStr "desc"); ("limit", PVal (VInt 1))].

Definition history_request (info : security_info) (ticker : string)
  : request :=
  mk_request (HistoryUrl (engine info) (market info) ticker)
             history_params (Some 2).

Definition get_last_history_candle (E : env) (ticker : pyobj)
  : M (option bar) :=
  match ticker with
  | PyVal (VStr t) =>
      ticker_info <- get_security_info E ticker ;;
      let base_url :=
        HistoryUrl (engine ticker_info) (market ticker_info) t in
      let params := history_params in
      try_except
        (response <- requests_get E base_url params (Some 2) ;;
         raise_for_status response ;;
         body <- json response ;;
         data <- lift (let* h := dict_get body "history" (VDict []) in
                       dict_get h "data" (VList [])) ;;
         if truthy data then
           result <- lift (let* o := float_at E data 0 6 in
                           let* c := float_at E data 0 11 in
                           let* h := float_at E data 0 8 in
                           let* l := float_at E data 0 7 in
                           let* v := float_at E data 0 5 in
                           let* vol := float_at E data 0 12 in
                           Done (mk_bar o c h l v vol)) ;;
           ret (Some result)
         else
           print MsgNoHistory ;;
           ret None)
        is_RequestException
        (fun e => print (MsgRequestError e) ;; ret None)
  | _ => raise TypeError
  end.

(** [t.strftime(fmt)]: only a datetime has the method. *)
Definition obj_strftime (fmt : string) (t : pyobj) : result string :=
  match t with
  | PyDatetime d => Done (strftime fmt d)
  | _ => Raised AttributeError
  end.

(** [float(last_candle[j])]. *)
Definition float_field (E : env) (r : pyval) (j : Z) : result float :=
  let* x := getitem_int r j in
  py_float (float_of_str E) x.

Definition get_last_candle (E : env) (ticker start_time end_time : pyobj)
    (interval : pyval) : M (option bar) :=
  match ticker with
  | PyVal (VStr t) =>
      ticker_info <- get_security_info E ticker ;;
      let base_url :=
        CandlesUrl (engine ticker_info) (market ticker_info) t in
      params <- lift (let* f := obj_strftime date_format start_time in
                      let* u := obj_strftime date_format end_time in
                      Done [("from", PStr f); ("till", PStr u);
                            ("interval", PVal interval)]) ;;
      try_except
        (response <- requests_get E base_url params (Some 2) ;;
         raise_for_status response ;;
         body <- json response ;;
         data <- lift (let* c := dict_get body "candles" (VDict []) in
                       dict_get c "data" (VList [])) ;;
         if truthy data then
           result <- lift (let* last_candle := getitem_int data (-1) in
                           let* o := float_field E last_candle 0 in
                           let* c := float_field E last_candle 1 in
                           let* h := float_field E last_candle 2 in
                           let* l := float_field E last_candle 3 in
                           let* v := float_field E last_candle 4 in
                           let* vol := float_field E last_candle 5 in
                           Done (mk_bar o c h l v vol)) ;;
           ret (Some result)
         else
           print MsgNoData ;;
           ret None)
        is_RequestException
        (fun e => print (MsgRequestError e) ;; ret None)
  | _ => raise TypeError
  end.

Definition get_last_price (E : env) (ticker : pyobj) : M (option float) :=
  match ticker with
  | PyVal (VStr _) =>
      let interval := VInt 1 in
      start_time <- lift (datetime_sub (now E) (timedelta_new 0 0 0 15 0)) ;;
      let end_time := now E in
      last_candle <- get_last_candle E ticker (PyDatetime start_time)
                       (PyDatetime end_time) interval ;;
      match last_candle with
      | Some c => ret (Some (close c))
      | None =>
          last_candle <- get_last_history_candle E ticker ;;
          match last_candle with
          | Some c => ret (Some (close c))
          | None => ret None
          end
      end
  | _ => raise TypeError
  end.

(** ** The price of a given day: [get_last_price_for_date] *)

(** [datetime(year, month, day, hour, minute, second)]: the constructor,
    with its range checks. *)
Definition datetime_new (y m d h mi s : Z) : result datetime :=
  let r := mk_datetime y m d h mi s 0 in
  if valid_datetime r then Done r else Raised ValueError.

(** [datetime.strptime(s, "%Y-%m-%d")].  The format is turned into the
    regular expression
    [(?P<Y>\d\d\d\d)-(?P<m>1[0-2]|0[1-9]|[1-9])-(?P<d>3[0-1]|[1-2]\d|0[1-9]|[1-9]| [1-9])]
    and matched at the start of the string.  A piece of the expression is
    modelled by the list of the ways it matches a prefix, in the order the
    matcher tries them: its value and the rest of the string.  Digits are
    those of the ASCII range. *)
Definition is_digit (c : ascii) : bool :=
  let n := nat_of_ascii c in ((48 <=? n) && (n <=? 57))%nat.

Definition digit_value (c : ascii) : Z := Z.of_nat (nat_of_ascii c) - 48.

(** One digit of the class [[lo-hi]]. *)
Definition re_digit (lo hi : Z) (s : string) : list (Z * string) :=
  match s with
  | String c rest =>
      if is_digit c && (lo <=? digit_value c) && (digit_value c <=? hi)
      then [(digit_value c, rest)] else []
  | "" => []
  end.

(** Two digits, of the classes [[lo1-hi1]] and [[lo2-hi2]]. *)
Definition re_pair (lo1 hi1 lo2 hi2 : Z) (s : string) : list (Z * string) :=
  flat_map (fun a => map (fun b => (10 * fst a + fst b, snd b))
                       (re_digit lo2 hi2 (snd a)))
           (re_digit lo1 hi1 s).

(** A literal character. *)
Definition re_lit (c : ascii) (s : string) : list string :=
  match s with
  | String c' rest => if Ascii.eqb c c' then [rest] else []
  | "" => []
  end.

(** The groups of [%Y], [%m] and [%d]. *)
Definition re_Y (s : string) : list (Z * string) :=
  flat_map (fun a => map (fun b => (100 * fst a + fst b, snd b))
                       (re_pair 0 9 0 9 (snd a)))
           (re_pair 0 9 0 9 s).

Definition re_m (s : string) : list (Z * string) :=
  re_pair 1 1 0 2 s ++ re_pair 0 0 1 9 s ++ re_digit 1 9 s.

Definition re_d (s : string) : list (Z * string) :=
  re_pair 3 3 0 1 s ++ re_pair 1 2 0 9 s ++ re_pair 0 0 1 9 s ++ re_digit 1 9 s
  ++ flat_map (re_digit 1 9) (re_lit " " s).

(** The matches of [-(?P<m>...)-(?P<d>...)], what follows the year, and
    of the whole expression: year, month, day and what is left of the
    string. *)
Definition re_month_day (s : string) : list (Z * Z * string) :=
  flat_map (fun s2 =>
    flat_map (fun m =>
      flat_map (fun s4 =>
        map (fun d => (fst m, fst d, snd d)) (re_d s4))
        (re_lit "-" (snd m)))
      (re_m s2))
    (re_lit "-" s).

Definition re_date (s : string) : list (Z * Z * Z * string) :=
  flat_map (fun y =>
    map (fun r => (fst y, fst (fst r), snd (fst r), snd r))
        (re_month_day (snd y)))
    (re_Y s).

(** The first match counts; [ValueError] when there is none, when it
    leaves a part of the string unread, and when the date does not
    exist. *)
Definition strptime_date (s : string) : result datetime :=
  match re_date s with
  | [] => Raised ValueError
  | (y, m, d, rest) :: _ =>
      if String.eqb rest "" then datetime_new y m d 0 0 0
      else Raised ValueError
  end.

(** [datetime(date.year, date.month, date.day, h, mi, s)]: only a
    datetime has the three attributes. *)
Definition session_time (date : pyobj) (h mi s : Z) : result datetime :=
  match date with
  | PyDatetime d => datetime_new (year d) (month d) (day d) h mi s
  | _ => Raised AttributeError
  end.

Definition get_last_price_for_date (E : env) (ticker date : pyobj)
  : M (option float) :=
  date <- lift (match date with
                | PyVal (VStr s) =>
                    let* d := strptime_date s in Done (PyDatetime d)
                | _ => Done date
                end) ;;
  evening_start <- lift (session_time date 23 0 0) ;;
  evening_end <- lift (session_time date 23 59 59) ;;
  last_candle <- get_last_candle E ticker (PyDatetime evening_start)
                   (PyDatetime evening_end) (VInt 1) ;;
  match last_candle with
  | Some c => ret (Some (close c))
  | None =>
      main_start <- lift (session_time date 18 0 0) ;;
      main_end <- lift (session_time date 18 59 59) ;;
      last_candle <- get_last_candle E ticker (PyDatetime main_start)
                       (PyDatetime main_end) (VInt 1) ;;
      match last_candle with
      | Some c => ret (Some (close c))
      | None => print MsgNoData ;; ret None
      end
  end.

(** ** The list of assets: [get_list_assets] *)

(** The dictionary [urls]. *)
Definition urls : gmap string string :=
  list_to_map
    [("shares", "https://iss.moex.com/iss/engines/stock/markets/shares/boards/TQBR/securities.json");
     ("otc", "https://iss.moex.com/iss/engines/otc/markets/shares/boards/MTQR/securities.json");
     ("etf", "https://iss.moex.com/iss/engines/stock/markets/shares/boards/TQTF/securities.json");
     ("futures", "https://iss.moex.com/iss/engines/futures/markets/forts/boards/RFUD/securities.json")].

(** The function calls no other function of the module.  Its
    collaborators are the service behind an address and the two operations
    of the table library: [pd.DataFrame(rows, columns=columns)] and the
    selection of columns [df[[...]]], over tables of a type [frame]. *)
Record assets_env (frame : Type) : Type := mk_assets_env {
  http_get : string -> http_outcome;
  DataFrame : pyval -> pyval -> result frame;
  select_columns : frame -> list string -> result frame
}.
Arguments http_get {frame} a url.
Arguments DataFrame {frame} a rows columns.
Arguments select_columns {frame} a df names.

(** What follows the request: the status check, the decoded body, its two
    lists and the table. *)
Definition assets_of_response {frame} (A : assets_env frame) (o : http_outcome)
  : result frame :=
  match o with
  | Fails e => Raised e
  | Responds response =>
      if (400 <=? status_code response) && (status_code response <? 600)
      then Raised HTTPError
      else
        match json_body response with
        | inl e => Raised e
        | inr data =>
            let* columns := (let* s := getitem_str data "securities" in
                             getitem_str s "columns") in
            let* rows := (let* s := getitem_str data "securities" in
                          getitem_str s "data") in
            let* df := DataFrame A rows columns in
            select_columns A df ["SECID"; "SHORTNAME"]
        end
  end.

(** The result, and the addresses requested.  A list or a dictionary
    cannot be looked up in [urls] (it is not hashable); any other object
    that is not one of the four names is not a key. *)
Definition get_list_assets {frame} (A : assets_env frame) (asset_type : pyval)
  : result frame * list string :=
  match asset_type with
  | VList _ | VDict _ => (Raised TypeError, [])
  | VStr s =>
      match urls !! s with
      | None => (Raised ValueError, [])
      | Some url => (assets_of_response A (http_get A url), [url])
      end
  | _ => (Raised ValueError, [])
  end.

(** ** Auxiliary definitions and sample data *)

Definition in_range (n : Z) : Prop :=
  86400000000 <= n < (MAXORDINAL + 1) * 86400000000.

Definition day_hours (hs : list Z) : Prop := Forall (fun h => 0 <= h < 24) hs.

(** A midnight datetime, as [datetime(2024, 12, 18)] builds it, and an
    end-of-day one. *)
Definition dec18 (h m s : Z) : datetime := mk_datetime 2024 12 18 h m s 0.

(** A result that is not an exception of class [RequestException] (and
    not a loop out of fuel): what the reading of a decoded body gives. *)
Definition local {A} (r : result A) : Prop :=
  match r with
  | Done _ => True
  | Raised e => is_RequestException e = false
  | OutOfFuel => False
  end.

Definition with_rows (w : world) (rows : list row) : world :=
  mk_world (sent w) (printed w) (written w) (all_data w ++ rows).

Definition after_request (w : world) (q : request) : world :=
  mk_world (sent w ++ [q]) (printed w) (written w) (all_data w).

(** A run that does not return. *)
Definition fails {A} (p : result A * world) : Prop :=
  match fst p with Done _ => False | _ => True end.

(** Date arithmetic and planning never run out of fuel by themselves. *)
Definition fueled {A} (r : result A) : Prop := r <> OutOfFuel.

(** A metadata body, the candle of the source's comment, a candle that is
    too short, and services that answer the requests of a run from a
    list. *)
Definition lkoh_info : pyval :=
  VDict [("description", VDict [("data", VList [
            VList [VStr "SECID"; VStr "string"; VStr "LKOH"];
            VList [VStr "SHORTNAME"; VStr "string"; VStr "LUKOIL"];
            VList [VStr "GROUP"; VStr "string"; VStr "stock_shares"]])]);
         ("boards", VDict [("data", VList [
            VList [VStr "LKOH"; VStr "TQBR"; VStr "T+"; VInt 129; VInt 1;
                   VStr "shares"; VInt 1; VStr "stock"]])])].

Definition lkoh_candle : pyval :=
  VList [VInt 6962; VInt 6963; VInt 6963; VFloat 6961.5; VFloat 487339.5;
         VInt 70; VStr "2024-12-27 18:18:00"; VStr "2024-12-27 18:18:59"].

Definition candles_body (data : list pyval) : pyval :=
  VDict [("candles", VDict [("data", VList data)])].

Definition ok (body : pyval) : http_outcome :=
  Responds (mk_response 200 (inr body)).

Definition service (answers : list http_outcome) (n : nat) (q : request)
  : http_outcome :=
  default (ok (VDict [])) (answers !! n).

Definition sample_env (answers : list http_outcome) : env :=
  mk_env (service answers) (mk_datetime 2024 12 27 18 30 0 0) "/home/user"
         (fun _ _ => None) (fun _ => None).

Definition lkoh : pyobj := PyVal (VStr "LKOH").

Definition lkoh_row : row :=
  mk_row "LKOH" (VInt 1) "241218" "181800" (VInt 6962) (VInt 6963)
         (VFloat 6961.5) (VInt 6963) (VInt 70).

Definition lkoh_info_result : security_info :=
  mk_security_info (VStr "LKOH") (VStr "LUKOIL") (VStr "stock_shares")
                   (VStr "shares") (VStr "stock").

Definition after_info : world :=
  mk_world [mk_request (SecuritiesUrl "LKOH") [] None] [] [] [].

(** The row of the source's comment, in a history body. *)
Definition lkoh_history_row : pyval :=
  VList [VStr "TQBR"; VStr "2024-12-30"; VStr "ЛУКОЙЛ"; VStr "LKOH";
         VInt 53942; VFloat 5560649924.5; VInt 7011; VInt 7003; VInt 7260;
         VFloat 7240.5; VInt 7176; VInt 7235; VInt 774886; VInt 7170;
         VInt 7170; VNone; VInt 4876615920; VInt 4876615920; VNone; VInt 0;
         VInt 3; VStr "SUR"; VFloat 0x1.b1eb851eb851fp+1 (* 3.39 *)].

Definition history_body (data : list pyval) : pyval :=
  VDict [("history", VDict [("data", VList data)])].

Definition intraday_env : env :=
  sample_env [ok lkoh_info; ok (candles_body [lkoh_candle])].

Definition fallback_env : env :=
  sample_env [ok lkoh_info; ok (candles_body []);
              ok lkoh_info; ok (history_body [lkoh_history_row])].

(** A metadata body whose description names [SECID] and [GROUP] twice. *)
Definition twice_info : pyval :=
  VDict [("description", VDict [("data", VList [
            VList [VStr "SECID"; VStr "string"; VStr "OLD"];
            VList [VStr "GROUP"; VStr "string"; VStr "stock_bonds"];
            VList [VStr "SECID"; VStr "string"; VStr "LKOH"];
            VList [VStr "SHORTNAME"; VStr "string"; VStr "LUKOIL"];
            VList [VStr "GROUP"; VStr "string"; VStr "stock_shares"]])]);
         ("boards", VDict [("data", VList [
            VList [VStr "LKOH"; VStr "TQBR"; VStr "T+"; VInt 129; VInt 1;
                   VStr "shares"; VInt 1; VStr "stock"]])])].



(** A request that fails inside the [try] statement of the resolver: the
    transport raises an exception of class [RequestException], or the
    status is from 400 to 599. *)
Definition request_failure (o : http_outcome) : bool :=
  match o with
  | Fails e => is_RequestException e
  | Responds r => (400 <=? status_code r) && (status_code r <? 600)
  end.

(** The time of day of a datetime, in microseconds, and the datetime of a
    day given by its ordinal. *)
Definition time_of_day (d : datetime) : Z :=
  ((hour d * 60 + minute d) * 60 + second d) * 1000000 + microsecond d.

Definition on_day (o h m s us : Z) : datetime :=
  let '(y, mo, dd) := ord2ymd o in mk_datetime y mo dd h m s us.

(** The windows of the hours [hs] on the day of ordinal [o]. *)
Definition day_windows (us : Z) (hs : list Z) (o : Z)
  : list (datetime * datetime) :=
  map (fun h => (on_day o h 0 0 us, on_day o h 59 59 us)) hs.

(** The number of hours from 10 on whose start, on the day of [end_date]
    and with the microsecond of [start_date], is not after [end_date]. *)
Definition last_day_hours (start_date end_date : datetime) : Z :=
  Z.max 0 (Z.min 14 ((time_of_day end_date - microsecond start_date)
                     / 3600000000 - 9)).

(** The windows of a fetch, day by day: fourteen for every day from the
    day of [start_date] to the day before that of [end_date], and on the
    day of [end_date] those of the hours that start in time - when the day
    is reached at all, which takes a [start_date] whose time of day is not
    after that of [end_date]. *)
Definition windows (start_date end_date : datetime)
  : list (datetime * datetime) :=
  if datetime_le start_date end_date then
    flat_map (day_windows (microsecond start_date) (seqZ 10 14))
      (seqZ (toordinal start_date)
            (toordinal end_date - toordinal start_date))
    ++ (if time_of_day start_date <=? time_of_day end_date
        then day_windows (microsecond start_date)
               (seqZ 10 (last_day_hours start_date end_date))
               (toordinal end_date)
        else [])
  else [].

(** Windows in the order of time, none reaching into the next. *)
Definition chronological (ws : list (datetime * datetime)) : Prop :=
  forall i j w w', (i < j)%nat -> ws !! i = Some w -> ws !! j = Some w' ->
    stamp (snd w) < stamp (fst w').


(** The string [-mm-dd] of a month and a day, and the check that the
    expression reads it back. *)
Definition month_day_string (m d : Z) : string :=
  "-" +:+ zero_padded 2 m +:+ "-" +:+ zero_padded 2 d +:+ "".

Definition reads_back (m d : Z) : bool :=
  match re_month_day (month_day_string m d) with
  | (m', d', rest) :: _ => (m' =? m) && (d' =? d) && String.eqb rest ""
  | [] => false
  end.

(** The datetimes of a session of the day of [d], as the constructor
    builds them. *)
Definition session (d : datetime) (h mi s : Z) : pyobj :=
  PyDatetime (mk_datetime (year d) (month d) (day d) h mi s 0).

(** The outcome of [get_last_price_for_date] after its lookups: the close
    of the bar of the evening session, or else of the main session, or
    else a line and [None]. *)
Definition price_of_sessions (evening : result (option bar) * world)
    (main : world -> result (option bar) * world)
  : result (option float) * world :=
  match evening with
  | (Done (Some b), w1) => (Done (Some (close b)), w1)
  | (Done None, w1) =>
      match main w1 with
      | (Done (Some b), w2) => (Done (Some (close b)), w2)
      | (Done None, w2) =>
          (Done None,
           mk_world (sent w2) (printed w2 ++ [MsgNoData]) (written w2)
                    (all_data w2))
      | (Raised e, w2) => (Raised e, w2)
      | (OutOfFuel, w2) => (OutOfFuel, w2)
      end
  | (Raised e, w1) => (Raised e, w1)
  | (OutOfFuel, w1) => (OutOfFuel, w1)
  end.

(** A string all of whose characters satisfy a test. *)
Fixpoint all_chars (p : ascii -> bool) (s : string) : bool :=
  match s with
  | "" => true
  | String c rest => p c && all_chars p rest
  end.

Definition not_colon (c : ascii) : bool := negb (Ascii.eqb c ":").

(** A row with a null price, a table library that keeps what it is given,
    and a service that cannot be reached. *)
Definition null_open_row : pyval :=
  VList [VStr "TQBR"; VStr "2024-12-30"; VStr "LUKOIL"; VStr "LKOH";
         VInt 0; VInt 0; VNone; VNone; VNone; VNone; VNone; VNone; VInt 0].

Definition unreachable : assets_env (pyval * pyval) :=
  mk_assets_env (pyval * pyval) (fun _ => Fails ConnectionError)
    (fun rows columns => Done (rows, columns)) (fun df _ => Done df).

(** ** Calendar facts *)

Section CalendarFacts.

Local Lemma forallb_seqZ (f : Z -> bool) (a len x : Z) :
  forallb f (seqZ a len) = true -> a <= x < a + len -> f x = true.
Proof.
  intros H Hx. rewrite forallb_forall in H. apply H.
  apply list_elem_of_In, elem_of_seqZ. lia.
Qed.

Lemma days_in_month_leap y m : days_in_month y m = dim_l (is_leap y) m.
Proof. reflexivity. Qed.

Lemma days_before_month_leap y m :
  days_before_month y m = dbm_l (is_leap y) m.
Proof. reflexivity. Qed.

Lemma month_day_spec leap n :
  0 <= n < year_len leap ->
  let '(m, d) := month_day leap n in
  1 <= m <= 12 /\ 1 <= d <= dim_l leap m /\ dbm_l leap m + d = n + 1.
Proof.
  intros Hn.
  assert (Hall : forallb (fun n =>
            let '(m, d) := month_day leap n in
            (1 <=? m) && (m <=? 12) && (1 <=? d) && (d <=? dim_l leap m)
            && (dbm_l leap m + d =? n + 1)) (seqZ 0 (year_len leap)) = true)
    by (destruct leap; vm_compute; reflexivity).
  pose proof (forallb_seqZ _ _ _ n Hall ltac:(lia)) as H. cbv beta in H.
  destruct (month_day leap n) as [m d].
  repeat (apply andb_prop in H; destruct H as [H ?]). lia.
Qed.

Lemma month_day_inv leap m d :
  1 <= m <= 12 -> 1 <= d <= dim_l leap m ->
  month_day leap (dbm_l leap m + d - 1) = (m, d).
Proof.
  intros Hm Hd.
  assert (Hall : forallb (fun m => forallb (fun d =>
            negb (d <=? dim_l leap m)
            || (let '(m', d') := month_day leap (dbm_l leap m + d - 1) in
                (m' =? m) && (d' =? d))) (seqZ 1 31)) (seqZ 1 12) = true)
    by (destruct leap; vm_compute; reflexivity).
  pose proof (forallb_seqZ _ _ _ m Hall ltac:(lia)) as H. cbv beta in H.
  assert (d <= 31).
  { revert Hd. unfold dim_l, tbl.
    assert (Hm' : m = 1 \/ m = 2 \/ m = 3 \/ m = 4 \/ m = 5 \/ m = 6 \/ m = 7
                  \/ m = 8 \/ m = 9 \/ m = 10 \/ m = 11 \/ m = 12) by lia.
    destruct leap; repeat (destruct Hm' as [-> | Hm']); try subst m;
      simpl; lia. }
  pose proof (forallb_seqZ _ _ _ d H ltac:(lia)) as H'. cbv beta in H'.
  destruct (month_day leap _) as [m' d'].
  apply orb_prop in H' as [H' | H'].
  - apply negb_true_iff in H'. lia.
  - apply andb_prop in H' as [? ?]. f_equal; lia.
Qed.

Lemma dbm_l_bounds leap m d :
  1 <= m <= 12 -> 1 <= d <= dim_l leap m ->
  0 <= dbm_l leap m + d - 1 < year_len leap.
Proof.
  intros Hm. unfold dim_l, dbm_l, tbl, year_len.
  assert (Hm' : m = 1 \/ m = 2 \/ m = 3 \/ m = 4 \/ m = 5 \/ m = 6 \/ m = 7
                \/ m = 8 \/ m = 9 \/ m = 10 \/ m = 11 \/ m = 12) by lia.
  destruct leap; repeat (destruct Hm' as [-> | Hm']); try subst m;
    simpl; lia.
Qed.

End CalendarFacts.

Section YearFacts.

Lemma days_before_year_split a b c e :
  0 <= b <= 3 -> 0 <= c <= 24 -> 0 <= e <= 3 ->
  days_before_year (400 * a + 100 * b + 4 * c + e + 1)
  = 146097 * a + 36524 * b + 1461 * c + 365 * e.
Proof. intros. unfold days_before_year. lia. Qed.

Lemma is_leap_split a b c e :
  0 <= b <= 3 -> 0 <= c <= 24 -> 0 <= e <= 3 ->
  is_leap (400 * a + 100 * b + 4 * c + e + 1)
  = (e =? 3) && (negb (c =? 24) || (b =? 3)).
Proof.
  intros. unfold is_leap.
  destruct (Z.eqb_spec e 3), (Z.eqb_spec c 24), (Z.eqb_spec b 3); simpl;
    repeat match goal with
           | |- context [?x =? ?y] => destruct (Z.eqb_spec x y); simpl
           end; try reflexivity; lia.
Qed.

Lemma year_split y :
  exists a b c e,
    0 <= b <= 3 /\ 0 <= c <= 24 /\ 0 <= e <= 3
    /\ y = 400 * a + 100 * b + 4 * c + e + 1.
Proof.
  exists ((y - 1) / 400), ((y - 1) mod 400 / 100),
    ((y - 1) mod 100 / 4), ((y - 1) mod 4). lia.
Qed.

End YearFacts.

Section OrdinalRoundTrip.

Lemma div_mod_known n k q r :
  0 <= r < k -> n = k * q + r -> n / k = q /\ n mod k = r.
Proof.
  intros Hr Hn. split; symmetry.
  - apply (Z.div_unique n k q r); auto.
  - apply (Z.mod_unique n k q r); auto.
Qed.

Ltac known_div n k q r :=
  let H := fresh "Hdm" in
  destruct (div_mod_known n k q r) as [H ?];
  [lia | lia | rewrite ?H in *].

Lemma ord2ymd_split a b c e yd :
  0 <= b <= 3 -> 0 <= c <= 24 -> 0 <= e <= 3 ->
  0 <= yd < year_len (leap_of b c e) ->
  ord2ymd (146097 * a + 36524 * b + 1461 * c + 365 * e + yd + 1)
  = let '(m, d) := month_day (leap_of b c e) yd in
    (400 * a + 100 * b + 4 * c + e + 1, m, d).
Proof.
  intros Hb Hc He Hyd. unfold ord2ymd, DI400Y, DI100Y, DI4Y.
  replace (146097 * a + 36524 * b + 1461 * c + 365 * e + yd + 1 - 1)
    with (146097 * a + (36524 * b + 1461 * c + 365 * e + yd)) by lia.
  set (r1 := 36524 * b + 1461 * c + 365 * e + yd).
  destruct (Z.eq_dec yd 365) as [-> | Hne].
  - (* the last day of a leap year *)
    assert (Hl : leap_of b c e = true)
      by (destruct (leap_of b c e); [reflexivity | simpl in Hyd; lia]).
    rewrite Hl. change (month_day true 365) with (12, 31).
    unfold leap_of in Hl. apply andb_prop in Hl as [He3 Hcb].
    assert (e = 3) as -> by lia.
    destruct (Z.eq_dec c 24) as [-> | Hc24].
    + assert (b = 3) as -> by lia. subst r1.
      change (36524 * 3 + 1461 * 24 + 365 * 3 + 365) with 146096.
      destruct (div_mod_known (146097 * a + 146096) 146097 a 146096)
        as [-> ->]; [lia | lia |].
      change (146096 / 36524) with 4. simpl (4 =? 4).
      rewrite orb_true_r. do 2 f_equal. lia.
    + destruct (div_mod_known (146097 * a + r1) 146097 a r1)
        as [-> ->]; [subst r1; lia | lia |].
      destruct (div_mod_known r1 36524 b (1461 * c + 1460))
        as [-> ->]; [lia | subst r1; lia |].
      destruct (div_mod_known (1461 * c + 1460) 1461 c 1460)
        as [-> ->]; [lia | lia |].
      change (1460 / 365) with 4. simpl (4 =? 4). simpl orb.
      do 2 f_equal. lia.
  - assert (Hyd' : 0 <= yd <= 364)
      by (destruct (leap_of b c e); simpl in Hyd; lia).
    destruct (div_mod_known (146097 * a + r1) 146097 a r1)
      as [-> ->]; [subst r1; lia | lia |].
    destruct (div_mod_known r1 36524 b (1461 * c + 365 * e + yd))
      as [-> ->]; [lia | subst r1; lia |].
    destruct (div_mod_known (1461 * c + 365 * e + yd) 1461 c (365 * e + yd))
      as [-> ->]; [lia | lia |].
    destruct (div_mod_known (365 * e + yd) 365 e yd)
      as [-> ->]; [lia | lia |].
    assert ((e =? 4) || (b =? 4) = false) as -> by lia.
    fold (leap_of b c e). destruct (month_day _ yd). do 2 f_equal. lia.
Qed.

Lemma ord2ymd_ymd2ord y m d :
  1 <= m <= 12 -> 1 <= d <= days_in_month y m ->
  ord2ymd (ymd2ord y m d) = (y, m, d).
Proof.
  intros Hm Hd. destruct (year_split y) as (a & b & c & e & Hb & Hc & He & ->).
  unfold ymd2ord. rewrite days_before_year_split by assumption.
  rewrite days_before_month_leap. rewrite days_in_month_leap in Hd.
  rewrite is_leap_split in * by assumption. fold (leap_of b c e) in *.
  pose proof (dbm_l_bounds _ _ _ Hm Hd) as Hyd.
  replace (146097 * a + 36524 * b + 1461 * c + 365 * e
           + dbm_l (leap_of b c e) m + d)
    with (146097 * a + 36524 * b + 1461 * c + 365 * e
          + (dbm_l (leap_of b c e) m + d - 1) + 1) by lia.
  rewrite ord2ymd_split by assumption.
  rewrite month_day_inv by assumption. reflexivity.
Qed.

Lemma ymd2ord_ord2ymd n :
  let '(y, m, d) := ord2ymd n in
  ymd2ord y m d = n /\ 1 <= m <= 12 /\ 1 <= d <= days_in_month y m.
Proof.
  set (n0 := n - 1).
  set (a := n0 / 146097). set (r1 := n0 mod 146097).
  set (b' := r1 / 36524). set (r2 := r1 mod 36524).
  set (c' := r2 / 1461). set (r3 := r2 mod 1461).
  set (e' := r3 / 365). set (r4 := r3 mod 365).
  assert (Hr1 : n0 = 146097 * a + r1 /\ 0 <= r1 < 146097) by (subst a r1; lia).
  assert (Hr2 : r1 = 36524 * b' + r2 /\ 0 <= r2 < 36524) by (subst b' r2; lia).
  assert (Hr3 : r2 = 1461 * c' + r3 /\ 0 <= r3 < 1461) by (subst c' r3; lia).
  assert (Hr4 : r3 = 365 * e' + r4 /\ 0 <= r4 < 365) by (subst e' r4; lia).
  clearbody a r1 b' r2 c' r3 e' r4.
  assert (Hsplit : exists b c e yd,
    0 <= b <= 3 /\ 0 <= c <= 24 /\ 0 <= e <= 3
    /\ 0 <= yd < year_len (leap_of b c e)
    /\ n = 146097 * a + 36524 * b + 1461 * c + 365 * e + yd + 1).
  { destruct (Z.eq_dec b' 4) as [Hb4 | Hb4].
    - exists 3, 24, 3, 365. simpl. subst n0. lia.
    - destruct (Z.eq_dec e' 4) as [He4 | He4].
      + exists b', c', 3, 365.
        assert (c' <> 24 \/ b' = 3) by lia.
        assert (leap_of b' c' 3 = true) as -> by (unfold leap_of; lia).
        simpl. subst n0. lia.
      + exists b', c', e', r4.
        assert (r4 < year_len (leap_of b' c' e'))
          by (destruct (leap_of b' c' e'); simpl; lia).
        subst n0. lia. }
  destruct Hsplit as (b & c & e & yd & Hb & Hc & He & Hyd & ->).
  rewrite ord2ymd_split by assumption.
  pose proof (month_day_spec _ _ Hyd) as Hmd.
  destruct (month_day _ yd) as [m d]. destruct Hmd as (Hm & Hd & Hsum).
  unfold ymd2ord. rewrite days_before_year_split by assumption.
  rewrite days_before_month_leap, days_in_month_leap.
  rewrite is_leap_split by assumption. fold (leap_of b c e).
  repeat split; lia.
Qed.

End OrdinalRoundTrip.

Section DatetimeFacts.

Lemma timedelta_new_total d s us m h :
  td_total (timedelta_new d s us m h)
  = (d * 86400 + h * 3600 + m * 60 + s) * 1000000 + us.
Proof.
  unfold td_total, timedelta_new; simpl.
  set (total := (d * 86400 + h * 3600 + m * 60 + s) * 1000000 + us).
  clearbody total. lia.
Qed.

Lemma timedelta_new_days d s us m h :
  days (timedelta_new d s us m h)
  = ((d * 86400 + h * 3600 + m * 60 + s) * 1000000 + us) / 86400000000.
Proof. reflexivity. Qed.

Lemma timedelta_new_norm d s us m h :
  let t := timedelta_new d s us m h in
  0 <= seconds t < 86400 /\ 0 <= microseconds t < 1000000.
Proof.
  unfold timedelta_new; simpl.
  set (total := (d * 86400 + h * 3600 + m * 60 + s) * 1000000 + us).
  clearbody total. lia.
Qed.

Lemma timedelta_add_total a b :
  td_total (timedelta_add a b) = td_total a + td_total b.
Proof.
  unfold timedelta_add. rewrite timedelta_new_total. unfold td_total. lia.
Qed.

Lemma timedelta_neg_total a : td_total (timedelta_neg a) = - td_total a.
Proof.
  unfold timedelta_neg. rewrite timedelta_new_total. unfold td_total. lia.
Qed.

Lemma days_before_year_succ y :
  days_before_year (y + 1) = days_before_year y + year_len (is_leap y).
Proof.
  destruct (year_split y) as (a & b & c & e & Hb & Hc & He & ->).
  rewrite is_leap_split by assumption.
  rewrite (days_before_year_split a b c e) by assumption.
  unfold days_before_year, year_len.
  destruct (Z.eqb_spec e 3), (Z.eqb_spec c 24), (Z.eqb_spec b 3);
    simpl; lia.
Qed.

Lemma days_before_year_mono y y' :
  y <= y' -> days_before_year y <= days_before_year y'.
Proof.
  intros H. replace y' with (y + Z.of_nat (Z.to_nat (y' - y))) by lia.
  induction (Z.to_nat (y' - y)) as [| k IH].
  - rewrite Z.add_0_r. lia.
  - replace (y + Z.of_nat (S k)) with (y + Z.of_nat k + 1) by lia.
    rewrite days_before_year_succ. destruct (is_leap _); simpl; lia.
Qed.

(** The ordinal is strictly monotone in the date. *)
Lemma ymd2ord_lt y m d y' m' d' :
  1 <= m <= 12 -> 1 <= d <= days_in_month y m ->
  1 <= m' <= 12 -> 1 <= d' <= days_in_month y' m' ->
  y < y' \/ (y = y' /\ (m < m' \/ (m = m' /\ d < d'))) ->
  ymd2ord y m d < ymd2ord y' m' d'.
Proof.
  intros Hm Hd Hm' Hd' Hlt. unfold ymd2ord.
  rewrite !days_before_month_leap. rewrite days_in_month_leap in Hd, Hd'.
  pose proof (dbm_l_bounds _ _ _ Hm Hd).
  pose proof (dbm_l_bounds _ _ _ Hm' Hd').
  destruct Hlt as [Hy | [-> Hmd]].
  - pose proof (days_before_year_mono (y + 1) y' ltac:(lia)) as Hmono.
    rewrite days_before_year_succ in Hmono. lia.
  - destruct Hmd as [Hlt | [-> Hlt]]; [| lia].
    assert (dbm_l (is_leap y') m + dim_l (is_leap y') m
            <= dbm_l (is_leap y') m'); [| lia].
    clear -Hm Hm' Hlt. unfold dbm_l, dim_l, tbl.
    assert (Hc : m = 1 \/ m = 2 \/ m = 3 \/ m = 4 \/ m = 5 \/ m = 6
                 \/ m = 7 \/ m = 8 \/ m = 9 \/ m = 10 \/ m = 11) by lia.
    assert (Hc' : m' = 2 \/ m' = 3 \/ m' = 4 \/ m' = 5 \/ m' = 6
                  \/ m' = 7 \/ m' = 8 \/ m' = 9 \/ m' = 10 \/ m' = 11
                  \/ m' = 12) by lia.
    destruct (is_leap y');
      repeat (destruct Hc as [-> | Hc]); try subst m;
      repeat (destruct Hc' as [-> | Hc']); try subst m';
      simpl; lia.
Qed.

Lemma valid_datetime_spec d :
  valid_datetime d = true <->
  (1 <= year d <= 9999 /\ 1 <= month d <= 12
   /\ 1 <= day d <= days_in_month (year d) (month d)
   /\ 0 <= hour d < 24 /\ 0 <= minute d < 60 /\ 0 <= second d < 60
   /\ 0 <= microsecond d < 1000000).
Proof.
  unfold valid_datetime, valid_date, MINYEAR, MAXYEAR.
  rewrite !andb_true_iff, !Z.leb_le, !Z.ltb_lt. tauto.
Qed.

(** On valid datetimes, comparing field by field is comparing stamps. *)
Lemma datetime_cmp_stamp a b :
  valid_datetime a = true -> valid_datetime b = true ->
  datetime_cmp a b = (stamp a ?= stamp b).
Proof.
  rewrite !valid_datetime_spec.
  intros (_ & Hm & Hd & ?) (_ & Hm' & Hd' & ?).
  pose proof (ymd2ord_lt (year a) (month a) (day a)
                         (year b) (month b) (day b) Hm Hd Hm' Hd') as Hab.
  pose proof (ymd2ord_lt (year b) (month b) (day b)
                         (year a) (month a) (day a) Hm' Hd' Hm Hd) as Hba.
  unfold datetime_cmp, stamp, toordinal, lex.
  destruct (Z.compare_spec (year a) (year b)) as [Ey | Ly | Ly];
    [| symmetry; first [apply Z.compare_lt_iff | apply Z.compare_gt_iff];
       lia ..].
  destruct (Z.compare_spec (month a) (month b)) as [Em | Lm | Lm];
    [| symmetry; first [apply Z.compare_lt_iff | apply Z.compare_gt_iff];
       lia ..].
  destruct (Z.compare_spec (day a) (day b)) as [Ed | Ld | Ld];
    [| symmetry; first [apply Z.compare_lt_iff | apply Z.compare_gt_iff];
       lia ..].
  rewrite Ey, Em, Ed. clear Hab Hba.
  repeat match goal with
  | |- context [match (?x ?= ?y) with _ => _ end] =>
      destruct (Z.compare_spec x y);
      [| symmetry; first [apply Z.compare_lt_iff | apply Z.compare_gt_iff];
         lia ..]
  end.
  destruct (Z.compare_spec (microsecond a) (microsecond b));
    symmetry;
    first [apply Z.compare_eq_iff | apply Z.compare_lt_iff
          | apply Z.compare_gt_iff]; lia.
Qed.

Lemma datetime_le_stamp a b :
  valid_datetime a = true -> valid_datetime b = true ->
  datetime_le a b = (stamp a <=? stamp b).
Proof.
  intros Ha Hb. unfold datetime_le, Z.leb.
  rewrite datetime_cmp_stamp by assumption. reflexivity.
Qed.

Lemma datetime_gt_stamp a b :
  valid_datetime a = true -> valid_datetime b = true ->
  datetime_gt a b = (stamp b <? stamp a).
Proof.
  intros Ha Hb. unfold datetime_gt. rewrite Z.ltb_antisym. unfold Z.leb.
  rewrite datetime_cmp_stamp by assumption.
  destruct (stamp a ?= stamp b); reflexivity.
Qed.

(** Valid datetimes with the same stamp are the same. *)
Lemma stamp_inj a b :
  valid_datetime a = true -> valid_datetime b = true ->
  stamp a = stamp b -> a = b.
Proof.
  intros Ha Hb Hs.
  pose proof (datetime_cmp_stamp a b Ha Hb) as Hc.
  rewrite Hs, Z.compare_refl in Hc. unfold datetime_cmp, lex in Hc.
  destruct a, b; simpl in *.
  repeat match type of Hc with
  | match (?x ?= ?y) with _ => _ end = Eq =>
      destruct (Z.compare_spec x y); try discriminate; subst
  end.
  apply Z.compare_eq_iff in Hc. subst. reflexivity.
Qed.

Lemma ord2ymd_valid n :
  1 <= n <= MAXORDINAL ->
  let '(y, m, d) := ord2ymd n in
  valid_date y m d = true /\ ymd2ord y m d = n.
Proof.
  intros Hn. pose proof (ymd2ord_ord2ymd n) as H.
  destruct (ord2ymd n) as [[y m] d]. destruct H as (Ho & Hm & Hd).
  split; [| exact Ho].
  assert (1 <= y <= 9999).
  { unfold ymd2ord in Ho. rewrite days_before_month_leap in Ho.
    rewrite days_in_month_leap in Hd.
    pose proof (dbm_l_bounds _ _ _ Hm Hd) as Hb.
    assert (year_len (is_leap y) <= 366) by (destruct (is_leap y); simpl; lia).
    destruct (Z_lt_le_dec y 1) as [Hlo | Hlo].
    - pose proof (days_before_year_mono y 0 ltac:(lia)) as Hmono.
      change (days_before_year 0) with (-366) in Hmono. lia.
    - destruct (Z_lt_le_dec 9999 y) as [Hhi | Hhi]; [| lia].
      pose proof (days_before_year_mono 10000 y ltac:(lia)) as Hmono.
      change (days_before_year 10000) with 3652059 in Hmono.
      unfold MAXORDINAL in Hn. lia. }
  unfold valid_date, MINYEAR, MAXYEAR.
  rewrite !andb_true_iff, !Z.leb_le. lia.
Qed.

Lemma delta_total d t :
  td_total
    (timedelta_add
       (timedelta_new (toordinal d) (second d) (microsecond d)
                      (minute d) (hour d)) t)
  = stamp d + td_total t.
Proof.
  rewrite timedelta_add_total, timedelta_new_total. unfold stamp. lia.
Qed.

Lemma hms_split s :
  0 <= s < 86400 ->
  s / 3600 * 3600 + s mod 3600 / 60 * 60 + s mod 3600 mod 60 = s
  /\ 0 <= s / 3600 < 24 /\ 0 <= s mod 3600 / 60 < 60
  /\ 0 <= s mod 3600 mod 60 < 60.
Proof. intros. lia. Qed.

Lemma stamp_mk y m dd h mi se us :
  stamp (mk_datetime y m dd h mi se us)
  = (ymd2ord y m dd * 86400 + (h * 3600 + mi * 60 + se)) * 1000000 + us.
Proof. unfold stamp, toordinal. cbn. lia. Qed.

Lemma valid_mk y m dd h mi se us :
  valid_date y m dd = true ->
  0 <= h < 24 -> 0 <= mi < 60 -> 0 <= se < 60 -> 0 <= us < 1000000 ->
  valid_datetime (mk_datetime y m dd h mi se us) = true.
Proof.
  intros Hv ? ? ? ?. unfold valid_datetime. cbn. rewrite Hv.
  rewrite !andb_true_iff, !Z.leb_le, !Z.ltb_lt. lia.
Qed.

Lemma datetime_of_delta_inv delta d' :
  0 <= seconds delta < 86400 -> 0 <= microseconds delta < 1000000 ->
  datetime_of_delta delta = Done d' ->
  stamp d' = td_total delta /\ valid_datetime d' = true.
Proof.
  intros Hs Hus. unfold datetime_of_delta.
  destruct ((0 <? days delta) && (days delta <=? MAXORDINAL)) eqn:Hr;
    [| discriminate].
  apply andb_prop in Hr as [H0 H1].
  pose proof (ord2ymd_valid (days delta) ltac:(lia)) as Hv.
  destruct (ord2ymd (days delta)) as [[y m] dd]. destruct Hv as [Hv Ho].
  destruct (hms_split _ Hs) as (Hsum & Hh & Hmi & Hse).
  intros Heq. injection Heq as <-. split.
  - rewrite stamp_mk, Ho, Hsum. reflexivity.
  - apply valid_mk; assumption.
Qed.

Lemma datetime_add_inv d t d' :
  datetime_add d t = Done d' ->
  stamp d' = stamp d + td_total t /\ valid_datetime d' = true.
Proof.
  unfold datetime_add. rewrite <- delta_total. intros H.
  apply datetime_of_delta_inv; [| | exact H];
    apply (timedelta_new_norm _ _ _ 0 0).
Qed.

Lemma delta_days d t :
  days (timedelta_add
          (timedelta_new (toordinal d) (second d) (microsecond d)
                         (minute d) (hour d)) t)
  = (stamp d + td_total t) / 86400000000.
Proof.
  pose proof (timedelta_new_total (toordinal d) (second d) (microsecond d)
                (minute d) (hour d)) as Ht.
  fold (stamp d) in Ht. revert Ht.
  generalize (timedelta_new (toordinal d) (second d) (microsecond d)
                (minute d) (hour d)) (stamp d).
  intros a n Ht. unfold timedelta_add. rewrite timedelta_new_days.
  f_equal. unfold td_total in *. lia.
Qed.

Lemma datetime_add_done d t :
  in_range (stamp d + td_total t) ->
  exists d', datetime_add d t = Done d'.
Proof.
  unfold in_range. intros Hr. unfold datetime_add, datetime_of_delta.
  rewrite delta_days.
  assert ((0 <? (stamp d + td_total t) / 86400000000)
          && ((stamp d + td_total t) / 86400000000 <=? MAXORDINAL) = true)
    as -> by (apply andb_true_iff; unfold MAXORDINAL in *; lia).
  destruct (ord2ymd _) as [[y m] dd]. eexists. reflexivity.
Qed.

Lemma datetime_add_overflow d t :
  ~ in_range (stamp d + td_total t) ->
  datetime_add d t = Raised OverflowError.
Proof.
  unfold in_range. intros Hr. unfold datetime_add, datetime_of_delta.
  rewrite delta_days.
  assert ((0 <? (stamp d + td_total t) / 86400000000)
          && ((stamp d + td_total t) / 86400000000 <=? MAXORDINAL) = false)
    as -> by (apply andb_false_iff; unfold MAXORDINAL in *; lia).
  reflexivity.
Qed.

(** The sum, when its stamp is the stamp of a valid datetime. *)
Lemma datetime_add_eq d t r :
  valid_datetime r = true -> stamp r = stamp d + td_total t ->
  datetime_add d t = Done r.
Proof.
  intros Hr Hs.
  assert (Hin : in_range (stamp d + td_total t)).
  { rewrite <- Hs. apply valid_datetime_spec in Hr.
    destruct Hr as (Hy & Hm & Hd & ?).
    unfold in_range, stamp, toordinal.
    pose proof (ymd2ord_lt 0 12 31 (year r) (month r) (day r)
                  ltac:(lia) ltac:(vm_compute; split; discriminate)
                  Hm Hd ltac:(lia)) as Hlo.
    change (ymd2ord 0 12 31) with 0 in Hlo.
    pose proof (ymd2ord_lt (year r) (month r) (day r) 10000 1 1
                  Hm Hd ltac:(lia) ltac:(vm_compute; split; discriminate)
                  ltac:(lia)) as Hhi.
    change (ymd2ord 10000 1 1) with 3652060 in Hhi.
    unfold MAXORDINAL. lia. }
  destruct (datetime_add_done d t Hin) as [d' Hd'].
  rewrite Hd'. f_equal.
  apply datetime_add_inv in Hd' as [Hs' Hv'].
  apply stamp_inj; [assumption .. | lia].
Qed.

Lemma toordinal_range d :
  valid_datetime d = true -> 1 <= toordinal d <= MAXORDINAL.
Proof.
  intros Hv. apply valid_datetime_spec in Hv.
  destruct Hv as (Hy & Hm & Hd & _). unfold toordinal.
  pose proof (ymd2ord_lt 0 12 31 (year d) (month d) (day d)
                ltac:(lia) ltac:(vm_compute; split; discriminate)
                Hm Hd ltac:(lia)) as Hlo.
  change (ymd2ord 0 12 31) with 0 in Hlo.
  pose proof (ymd2ord_lt (year d) (month d) (day d) 10000 1 1
                Hm Hd ltac:(lia) ltac:(vm_compute; split; discriminate)
                ltac:(lia)) as Hhi.
  change (ymd2ord 10000 1 1) with 3652060 in Hhi.
  unfold MAXORDINAL. lia.
Qed.

Lemma valid_at_hms d h m s :
  valid_datetime d = true ->
  0 <= h < 24 -> 0 <= m < 60 -> 0 <= s < 60 ->
  valid_datetime (at_hms d h m s) = true.
Proof.
  intros Hv. apply valid_datetime_spec in Hv. intros.
  apply valid_datetime_spec. unfold at_hms. cbn. lia.
Qed.

Lemma stamp_at_hms d h m s :
  stamp (at_hms d h m s)
  = (toordinal d * 86400 + (h * 3600 + m * 60 + s)) * 1000000
    + microsecond d.
Proof. unfold at_hms. rewrite stamp_mk. reflexivity. Qed.

Lemma stamp_split d :
  valid_datetime d = true ->
  stamp d / 86400000000 = toordinal d
  /\ 0 <= stamp d - toordinal d * 86400000000 < 86400000000.
Proof.
  intros Hv. apply valid_datetime_spec in Hv. unfold stamp.
  generalize (toordinal d). intros. lia.
Qed.

(** The window of an hour: from [h:00:00] to [h:59:59] of the day. *)
Lemma window_of_spec c h :
  valid_datetime c = true -> 0 <= h < 24 ->
  h < 23 \/ toordinal c < MAXORDINAL ->
  window_of c h = Done (at_hms c h 0 0, at_hms c h 59 59).
Proof.
  intros Hv Hh Hnot. unfold window_of, replace_hms.
  pose proof (valid_at_hms c h 0 0 Hv Hh ltac:(lia) ltac:(lia)) as Hs.
  pose proof (valid_at_hms c h 59 59 Hv Hh ltac:(lia) ltac:(lia)) as He.
  rewrite Hs. cbn [rbind].
  pose proof (toordinal_range c Hv) as Hord.
  pose proof (proj1 (valid_datetime_spec c) Hv) as Hc.
  destruct (datetime_add_done (at_hms c h 0 0) (timedelta_new 0 0 0 0 1))
    as [t Ht].
  { unfold in_range. rewrite stamp_at_hms, timedelta_new_total.
    unfold MAXORDINAL in *. lia. }
  rewrite Ht. cbn [rbind].
  apply datetime_add_inv in Ht as [Hst Hvt].
  unfold datetime_sub.
  rewrite (datetime_add_eq t _ (at_hms c h 59 59)); [reflexivity | exact He |].
  rewrite timedelta_neg_total, Hst, !stamp_at_hms, !timedelta_new_total.
  lia.
Qed.

Lemma window_of_overflow c :
  valid_datetime c = true -> toordinal c = MAXORDINAL ->
  window_of c 23 = Raised OverflowError.
Proof.
  intros Hv Hmax. unfold window_of, replace_hms.
  rewrite (valid_at_hms c 23 0 0 Hv) by lia. cbn [rbind].
  rewrite datetime_add_overflow; [reflexivity |].
  pose proof (proj1 (valid_datetime_spec c) Hv) as Hc.
  unfold in_range. rewrite stamp_at_hms, timedelta_new_total, Hmax.
  unfold MAXORDINAL. lia.
Qed.

(** The next day: same time of day, ordinal one more. *)
Lemma next_day_spec c :
  valid_datetime c = true -> toordinal c < MAXORDINAL ->
  exists next,
    datetime_add c (timedelta_new 1 0 0 0 0) = Done next
    /\ valid_datetime next = true
    /\ stamp next = stamp c + 86400000000
    /\ toordinal next = toordinal c + 1.
Proof.
  intros Hv Hlt. pose proof (toordinal_range c Hv) as Hord.
  pose proof (stamp_split c Hv) as [Hq Hr].
  destruct (datetime_add_done c (timedelta_new 1 0 0 0 0)) as [next Hn].
  { unfold in_range. rewrite timedelta_new_total.
    unfold MAXORDINAL in *. lia. }
  exists next. split; [exact Hn |].
  apply datetime_add_inv in Hn as [Hst Hvn].
  rewrite timedelta_new_total in Hst.
  pose proof (stamp_split next Hvn) as [Hq' Hr'].
  repeat split; [assumption | lia | lia].
Qed.

Lemma next_day_overflow c :
  valid_datetime c = true -> toordinal c = MAXORDINAL ->
  datetime_add c (timedelta_new 1 0 0 0 0) = Raised OverflowError.
Proof.
  intros Hv Hmax. pose proof (stamp_split c Hv) as [Hq Hr].
  apply datetime_add_overflow. unfold in_range.
  rewrite timedelta_new_total. rewrite Hmax in Hr.
  unfold MAXORDINAL in *. lia.
Qed.

End DatetimeFacts.

Example strftime_ex :
  strftime "%Y-%m-%d %H:%M:%S" (mk_datetime 2024 12 18 10 0 0 0)
  = "2024-12-18 10:00:00"
  /\ strftime "%y%m%d" (mk_datetime 2024 12 18 10 0 0 0) = "241218".
Proof. split; reflexivity. Qed.

Example add_ex :
  datetime_add (mk_datetime 2024 12 31 23 0 0 5) (timedelta_new 0 0 0 0 1)
  = Done (mk_datetime 2025 1 1 0 0 0 5)
  /\ datetime_add (mk_datetime 9999 12 31 23 0 0 5) (timedelta_new 0 0 0 0 1)
  = Raised OverflowError
  /\ datetime_sub (mk_datetime 2025 1 1 0 0 0 5) (timedelta_new 0 1 0 0 0)
  = Done (mk_datetime 2024 12 31 23 59 59 5)
  /\ datetime_sub (mk_datetime 2024 3 1 0 10 0 5) (timedelta_new 0 0 0 15 0)
  = Done (mk_datetime 2024 2 29 23 55 0 5).
Proof. repeat split; reflexivity. Qed.

(** ** The window planner *)

Section ResultFacts.

Context {A B : Type}.

Lemma rbind_Done_inv (r : result A) (k : A -> result B) b :
  rbind r k = Done b -> exists a, r = Done a /\ k a = Done b.
Proof. destruct r as [a | e |]; simpl; [eauto | discriminate ..]. Qed.

Lemma rbind_Done (a : A) (k : A -> result B) : rbind (Done a) k = k a.
Proof. reflexivity. Qed.

Lemma rbind_Raised e (k : A -> result B) : rbind (Raised e) k = Raised e.
Proof. reflexivity. Qed.

End ResultFacts.

Section PlanFacts.

Lemma datetime_le_gt a b : datetime_le a b = negb (datetime_gt a b).
Proof. unfold datetime_le, datetime_gt. destruct (datetime_cmp a b); reflexivity. Qed.

Lemma at_hms_at_hms c h m s h' m' s' :
  at_hms (at_hms c h m s) h' m' s' = at_hms c h' m' s'.
Proof. reflexivity. Qed.

Lemma day_hours_range : day_hours (seqZ 10 14).
Proof. apply Forall_forall. intros h Hh. apply elem_of_seqZ in Hh. lia. Qed.

(** When the hour loop ends normally, it has visited the windows of the
    hours before its [break]. *)
Lemma plan_hours_inv c ed hs today :
  valid_datetime c = true -> day_hours hs ->
  plan_hours c ed hs = Done today ->
  today = map (hour_window c) (open_hours c ed hs).
Proof.
  intros Hv Hhs. revert today.
  induction Hhs as [| h rest Hh Hrest IH]; intros today Hp; simpl in *.
  - congruence.
  - destruct (Z_lt_le_dec h 23) as [H23 | H23];
      [| destruct (Z_lt_le_dec (toordinal c) MAXORDINAL) as [Hmax | Hmax]].
    3: { assert (h = 23) as -> by lia.
         rewrite window_of_overflow in Hp; [discriminate | exact Hv |].
         pose proof (toordinal_range c Hv). lia. }
    all: rewrite window_of_spec in Hp by (auto; lia); cbn [rbind fst] in Hp.
    all: fold (hour_window c h) in Hp; unfold hour_window at 1 in Hp;
      cbn [fst] in Hp.
    all: destruct (datetime_gt (at_hms c h 0 0) ed);
      [injection Hp as <-; reflexivity |].
    all: destruct (plan_hours c ed rest) as [ws | |]; try discriminate.
    all: cbn [rbind] in Hp; injection Hp as <-.
    all: rewrite (IH ws eq_refl); reflexivity.
Qed.

Lemma plan_hours_done c ed hs :
  valid_datetime c = true -> day_hours hs -> toordinal c < MAXORDINAL ->
  plan_hours c ed hs = Done (map (hour_window c) (open_hours c ed hs)).
Proof.
  intros Hv Hhs Hmax.
  induction Hhs as [| h rest Hh Hrest IH]; simpl.
  - reflexivity.
  - rewrite window_of_spec by auto. cbn [rbind fst].
    destruct (datetime_gt (at_hms c h 0 0) ed); [reflexivity |].
    rewrite IH. reflexivity.
Qed.

Lemma open_hours_in c ed hs h :
  In h (open_hours c ed hs) ->
  In h hs /\ datetime_gt (at_hms c h 0 0) ed = false.
Proof.
  induction hs as [| h0 rest IH]; simpl; [tauto |].
  destruct (datetime_gt (at_hms c h0 0 0) ed) eqn:Hgt; simpl; [tauto |].
  intros [<- | Hin]; [tauto |]. destruct (IH Hin). tauto.
Qed.

Lemma plan_days_S fuel c ed :
  plan_days (S fuel) c ed
  = if datetime_le c ed then
      let* today := plan_hours c ed (seqZ 10 14) in
      let* next := datetime_add c (timedelta_new 1 0 0 0 0) in
      let* later := plan_days fuel next ed in
      Done (today ++ later)%list
    else Done [].
Proof. reflexivity. Qed.

(** Every window of a plan is the window of an hour from 10 to 23 of some
    day, and does not start after [end_date]. *)
Lemma plan_days_inv fuel c ed ws :
  valid_datetime c = true ->
  plan_days fuel c ed = Done ws ->
  forall w, In w ws ->
    exists c' h, valid_datetime c' = true /\ 10 <= h < 24
                 /\ w = hour_window c' h
                 /\ datetime_gt (at_hms c' h 0 0) ed = false.
Proof.
  revert c ws. induction fuel as [| fuel IH]; intros c ws Hv Hp;
    [discriminate | rewrite plan_days_S in Hp].
  destruct (datetime_le c ed); [| injection Hp as <-; intros w []].
  apply rbind_Done_inv in Hp as (today & Hd & Hp).
  apply rbind_Done_inv in Hp as (next & Hn & Hp).
  apply rbind_Done_inv in Hp as (later & Hl & Hp).
  injection Hp as <-.
  apply plan_hours_inv in Hd; [| exact Hv | apply day_hours_range].
  apply datetime_add_inv in Hn as [_ Hvn].
  intros w Hw. apply in_app_iff in Hw as [Hw | Hw].
  - subst today. apply in_map_iff in Hw as (h & <- & Hin).
    apply open_hours_in in Hin as [Hin Hgt].
    apply list_elem_of_In, elem_of_seqZ in Hin.
    exists c, h. repeat split; auto; lia.
  - eapply IH; eauto.
Qed.

(** The day loop ends: from a valid start, with [end_date] before the
    last day of the calendar, the plan is produced with the fuel of
    [loop_fuel] or more. *)
Lemma plan_days_done fuel c ed :
  valid_datetime c = true -> valid_datetime ed = true ->
  toordinal ed < MAXORDINAL ->
  (Z.to_nat (toordinal ed - toordinal c + 1) < fuel)%nat ->
  exists ws, plan_days fuel c ed = Done ws.
Proof.
  revert c. induction fuel as [| fuel IH]; intros c Hv Hve Hmax Hf;
    [lia |]. rewrite plan_days_S.
  rewrite datetime_le_stamp by assumption.
  destruct (Z.leb_spec (stamp c) (stamp ed)) as [Hle | Hgt];
    [| eexists; reflexivity].
  pose proof (stamp_split c Hv) as [Hqc Hrc].
  pose proof (stamp_split ed Hve) as [Hqe Hre].
  assert (Hord : toordinal c <= toordinal ed) by lia.
  rewrite plan_hours_done by (auto using day_hours_range; lia).
  cbn [rbind].
  destruct (next_day_spec c Hv ltac:(lia)) as (next & -> & Hvn & _ & Ho).
  cbn [rbind].
  destruct (IH next Hvn Hve Hmax ltac:(lia)) as [later ->].
  cbn [rbind]. eexists; reflexivity.
Qed.

Lemma plan_done sd ed :
  valid_datetime sd = true -> valid_datetime ed = true ->
  toordinal ed < MAXORDINAL ->
  exists ws, plan sd ed = Done ws.
Proof.
  intros. apply plan_days_done; auto.
Qed.

Lemma lookup_map {X Y} (f : X -> Y) (l : list X) (i : nat) :
  map f l !! i = f <$> (l !! i).
Proof.
  revert i. induction l as [| x l IH]; intros [| i]; simpl; auto.
Qed.

(** On the day of [d] itself, an hour starts after [d] exactly when it is
    later than the hour of [d]. *)
Lemma gt_same_day d h :
  valid_datetime d = true -> 0 <= h < 24 ->
  datetime_gt (at_hms d h 0 0) d = (hour d <? h).
Proof.
  intros Hv Hh.
  rewrite datetime_gt_stamp by (auto using valid_at_hms; apply valid_at_hms; auto; lia).
  rewrite stamp_at_hms. unfold stamp.
  apply valid_datetime_spec in Hv.
  generalize (toordinal d). intros o.
  destruct (Z.ltb_spec (hour d) h); [apply Z.ltb_lt | apply Z.ltb_ge]; lia.
Qed.

Lemma open_hours_same_day_from d (n : nat) a :
  valid_datetime d = true -> 0 <= a -> a + Z.of_nat n <= 24 ->
  open_hours d d (seqZ a (Z.of_nat n))
  = seqZ a (Z.max 0 (Z.min (Z.of_nat n) (hour d - a + 1))).
Proof.
  intros Hv. revert a. induction n as [| n IH]; intros a Ha Hn.
  - rewrite !seqZ_nil by lia. reflexivity.
  - rewrite (seqZ_cons a (Z.of_nat (S n))) by lia.
    replace (Z.pred (Z.of_nat (S n))) with (Z.of_nat n) by lia.
    cbn [open_hours]. rewrite gt_same_day by (auto; lia).
    destruct (Z.ltb_spec (hour d) a) as [Hlt | Hge].
    + rewrite seqZ_nil by lia. reflexivity.
    + rewrite IH by lia.
      rewrite (seqZ_cons a (Z.max _ _)) by lia.
      f_equal. f_equal. lia.
Qed.

Lemma open_hours_same_day d :
  valid_datetime d = true ->
  open_hours d d (seqZ 10 14) = seqZ 10 (Z.max 0 (hour d - 9)).
Proof.
  intros Hv. pose proof (proj1 (valid_datetime_spec d) Hv) as Hd.
  change 14 with (Z.of_nat 14).
  rewrite (open_hours_same_day_from d 14 10 Hv) by lia.
  f_equal. lia.
Qed.

Lemma plan_loop_fuel_same d : loop_fuel d d = 2%nat.
Proof. unfold loop_fuel. rewrite Z.sub_diag. reflexivity. Qed.

(** C1, as amended.  For a datetime [d] before the last day of the
    calendar, [plan d d] is the list of the windows of the hours 10 to
    [hour d] of that day: [max 0 (hour d - 9)] windows, fourteen when the
    hour of [d] is 23 and none when [d] is before 10:00; each window runs
    from [h:00:00] to [h:59:59], 3599 seconds, and the starts increase
    strictly. *)
Theorem plan_single_day d :
  valid_datetime d = true -> toordinal d < MAXORDINAL ->
  let ws := map (hour_window d) (seqZ 10 (Z.max 0 (hour d - 9))) in
  plan d d = Done ws
  /\ Z.of_nat (length ws) = Z.max 0 (hour d - 9)
  /\ (hour d = 23 -> length ws = 14%nat)
  /\ (forall w, In w ws ->
        stamp (snd w) - stamp (fst w) = 3599 * 1000000)
  /\ (forall i j w w', (i < j)%nat ->
        ws !! i = Some w -> ws !! j = Some w' ->
        datetime_gt (fst w') (fst w) = true).
Proof.
  intros Hv Hmax ws.
  pose proof (proj1 (valid_datetime_spec d) Hv) as Hd.
  assert (Hlen : Z.of_nat (length ws) = Z.max 0 (hour d - 9)).
  { subst ws. rewrite length_map, length_seqZ. lia. }
  split; [| split; [exact Hlen | split; [| split]]].
  - unfold plan. rewrite plan_loop_fuel_same, plan_days_S.
    rewrite datetime_le_stamp, Z.leb_refl by assumption.
    rewrite plan_hours_done by (auto using day_hours_range).
    rewrite open_hours_same_day by assumption. rewrite rbind_Done.
    destruct (next_day_spec d Hv Hmax) as (next & -> & Hvn & Hst & _).
    rewrite rbind_Done, plan_days_S.
    rewrite datetime_le_stamp by assumption.
    assert ((stamp next <=? stamp d) = false) as -> by (apply Z.leb_gt; lia).
    rewrite rbind_Done, app_nil_r. reflexivity.
  - intros H23. lia.
  - intros w Hw. subst ws. apply in_map_iff in Hw as (h & <- & _).
    unfold hour_window. cbn [fst snd]. rewrite !stamp_at_hms. lia.
  - intros i j w w' Hij Hi Hj. subst ws.
    rewrite lookup_map in Hi, Hj.
    destruct (seqZ 10 (Z.max 0 (hour d - 9)) !! i) as [h |] eqn:Ehi;
      [| discriminate].
    destruct (seqZ 10 (Z.max 0 (hour d - 9)) !! j) as [h' |] eqn:Ehj;
      [| discriminate].
    injection Hi as <-. injection Hj as <-.
    apply lookup_seqZ in Ehi as [-> Hi]. apply lookup_seqZ in Ehj as [-> Hj].
    unfold hour_window. cbn [fst].
    rewrite datetime_gt_stamp by (apply valid_at_hms; auto; lia).
    rewrite !stamp_at_hms. apply Z.ltb_lt. lia.
Qed.

Lemma plan_single_day_witness :
  valid_datetime (dec18 23 59 59) = true
  /\ plan (dec18 23 59 59) (dec18 23 59 59)
     = Done (map (hour_window (dec18 23 59 59)) (seqZ 10 14)).
Proof.
  split; [reflexivity |].
  apply (plan_single_day (dec18 23 59 59)); [reflexivity | vm_compute; reflexivity].
Defined.

(** C1, as stated, fails: for the day given as a midnight datetime the
    planner emits no window at all, not fourteen, and the fetch for that
    day sends the request for the instrument and nothing else. *)
Lemma plan_single_day_counterexample :
  valid_datetime (dec18 0 0 0) = true
  /\ plan (dec18 0 0 0) (dec18 0 0 0) = Done []
  /\ ~ (exists ws, plan (dec18 0 0 0) (dec18 0 0 0) = Done ws
                   /\ length ws = 14%nat)
  /\ get_candles (sample_env [ok lkoh_info]) (PyVal (VStr "LKOH"))
       (PyDatetime (dec18 0 0 0)) (PyDatetime (dec18 0 0 0)) (VInt 1) world0
     = (Done [], after_info).
Proof.
  split; [reflexivity |].
  assert (H : plan (dec18 0 0 0) (dec18 0 0 0) = Done [])
    by (vm_compute; reflexivity).
  split; [exact H |]. split; [| vm_compute; reflexivity].
  intros (ws & Hws & Hlen).
  rewrite H in Hws. injection Hws as <-. discriminate.
Qed.

(** C3.  Every window of a plan starts at or before [end_date], and on
    its day no hour from 10 to 23 whose start is after [end_date] comes at
    or before it: once an hour starts too late, the day has no further
    window.  The plan is produced whenever [end_date] is before the last
    day of the calendar (there the date arithmetic overflows).  The
    order of the two dates plays no part. *)
Theorem plan_within_end sd ed :
  valid_datetime sd = true -> valid_datetime ed = true ->
  (toordinal ed < MAXORDINAL -> exists ws, plan sd ed = Done ws)
  /\ (forall ws, plan sd ed = Done ws ->
       forall w, In w ws ->
         datetime_le (fst w) ed = true
         /\ datetime_gt (fst w) ed = false
         /\ (forall h, 10 <= h < 24 ->
               datetime_gt (at_hms (fst w) h 0 0) ed = true ->
               hour (fst w) < h)).
Proof.
  intros Hvs Hve. split; [intros Hmax; apply plan_done; assumption |].
  intros ws Hp w Hw.
  destruct (plan_days_inv _ _ _ _ Hvs Hp w Hw) as (c & h0 & Hvc & Hh0 & -> & Hgt).
  unfold hour_window. cbn [fst].
  rewrite datetime_le_gt, Hgt. repeat split.
  intros h Hh Hgt'. rewrite at_hms_at_hms in Hgt'. cbn [hour at_hms].
  rewrite datetime_gt_stamp in Hgt, Hgt'
    by (auto; apply valid_at_hms; auto; lia).
  rewrite stamp_at_hms in Hgt, Hgt'.
  apply Z.ltb_ge in Hgt. apply Z.ltb_lt in Hgt'. lia.
Qed.

Lemma plan_within_end_witness :
  valid_datetime (dec18 15 0 0) = true
  /\ valid_datetime (mk_datetime 2024 12 19 12 30 0 0) = true
  /\ exists ws, plan (dec18 15 0 0) (mk_datetime 2024 12 19 12 30 0 0)
                = Done ws.
Proof.
  split; [reflexivity | split; [reflexivity |]].
  apply (plan_within_end (dec18 15 0 0) (mk_datetime 2024 12 19 12 30 0 0));
    [reflexivity | reflexivity | vm_compute; reflexivity].
Defined.

End PlanFacts.

(** ** Running the monad *)

Section MonadFacts.

Context {A B : Type}.

Lemma bind_Done (m : M A) (k : A -> M B) w a w1 :
  m w = (Done a, w1) -> bind m k w = k a w1.
Proof. unfold bind. intros ->. reflexivity. Qed.

Lemma bind_Raised (m : M A) (k : A -> M B) w e w1 :
  m w = (Raised e, w1) -> bind m k w = (Raised e, w1).
Proof. unfold bind. intros ->. reflexivity. Qed.

Lemma bind_OutOfFuel (m : M A) (k : A -> M B) w w1 :
  m w = (OutOfFuel, w1) -> bind m k w = (OutOfFuel, w1).
Proof. unfold bind. intros ->. reflexivity. Qed.

Lemma bind_Done_inv (m : M A) (k : A -> M B) w b w' :
  bind m k w = (Done b, w') ->
  exists a w1, m w = (Done a, w1) /\ k a w1 = (Done b, w').
Proof.
  unfold bind. destruct (m w) as [[a | e |] w1]; [eauto | discriminate ..].
Qed.

Lemma lift_run (r : result A) w : lift r w = (r, w).
Proof. reflexivity. Qed.

Lemma try_except_Done (body : M A) classes handler w a w1 :
  body w = (Done a, w1) -> try_except body classes handler w = (Done a, w1).
Proof. unfold try_except. intros ->. reflexivity. Qed.

Lemma try_except_caught (body : M A) classes handler w e w1 :
  body w = (Raised e, w1) -> classes e = true ->
  try_except body classes handler w = handler e w1.
Proof. unfold try_except. intros -> ->. reflexivity. Qed.

Lemma try_except_passed (body : M A) classes handler w e w1 :
  body w = (Raised e, w1) -> classes e = false ->
  try_except body classes handler w = (Raised e, w1).
Proof. unfold try_except. intros -> ->. reflexivity. Qed.

End MonadFacts.

(** ** One window of the fetch *)

Section FetchFacts.

Lemma local_rbind {A B} (r : result A) (k : A -> result B) :
  local r -> (forall a, local (k a)) -> local (rbind r k).
Proof. destruct r; simpl; auto. Qed.

Lemma local_index_seq {A} (l : list A) i : local (index_seq l i).
Proof.
  unfold index_seq. destruct (_ && _); [| reflexivity].
  destruct (l !! _); reflexivity.
Qed.

Lemma local_getitem_int v i : local (getitem_int v i).
Proof. destruct v; simpl; auto using local_index_seq. Qed.

Lemma local_str_split v : local (str_split v).
Proof. destruct v; simpl; auto. Qed.

Lemma local_dict_get v k d : local (dict_get v k d).
Proof. destruct v; simpl; auto. Qed.

Lemma local_iterate v : local (iterate v).
Proof. destruct v; simpl; auto. Qed.

Lemma local_candle_row t i s c : local (candle_row t i s c).
Proof.
  unfold candle_row.
  repeat (apply local_rbind;
          [auto using local_getitem_int, local_str_split, local_index_seq
          | intros ?]).
  exact I.
Qed.

Lemma local_candle_rows t i s data : local (candle_rows t i s data).
Proof.
  induction data as [| c rest IH]; simpl; [exact I |].
  apply local_rbind; [apply local_candle_row | intros r].
  apply local_rbind; [exact IH | intros rs; exact I].
Qed.

Lemma local_body_data body : local (body_data body).
Proof.
  unfold body_data.
  repeat (apply local_rbind; [apply local_dict_get | intros ?]).
  apply local_iterate.
Qed.

Lemma with_rows_nil w : with_rows w [] = w.
Proof. destruct w. unfold with_rows. simpl. rewrite app_nil_r. auto. Qed.

Lemma with_rows_app w a b :
  with_rows (with_rows w a) b = with_rows w (a ++ b).
Proof. unfold with_rows. simpl. rewrite app_assoc. reflexivity. Qed.

(** The loop over the candles appends their rows; its only exceptions are
    those of [candle_row]. *)
Lemma append_candles_spec t i s data w :
  match candle_rows t i s data with
  | Done rows => append_candles t i s data w = (Done tt, with_rows w rows)
  | Raised e => exists w', append_candles t i s data w = (Raised e, w')
  | OutOfFuel => False
  end.
Proof.
  revert w. induction data as [| c rest IH]; intros w; simpl.
  - rewrite with_rows_nil. reflexivity.
  - pose proof (local_candle_row t i s c) as Hl.
    unfold bind at 1. rewrite lift_run.
    destruct (candle_row t i s c) as [r | e |]; simpl; [| eauto | exact Hl].
    unfold bind at 1. unfold append_row at 1.
    specialize (IH (with_rows w [r])). unfold with_rows at 1 in IH.
    destruct (candle_rows t i s rest) as [rs | e |]; simpl.
    + rewrite IH. rewrite with_rows_app. reflexivity.
    + destruct IH as [w' IH]. exists w'. exact IH.
    + exact IH.
Qed.

Lemma window_body_run E base t i s e w :
  window_body E base t i s e w
  = let w1 := after_request w (window_request base i (s, e)) in
    match http E (length (sent w)) (window_request base i (s, e)) with
    | Fails x => (Raised x, w1)
    | Responds r =>
        if (400 <=? status_code r) && (status_code r <? 600)
        then (Raised HTTPError, w1)
        else match json_body r with
             | inl x => (Raised x, w1)
             | inr body =>
                 match body_data body with
                 | Done data => append_candles t i s data w1
                 | Raised x => (Raised x, w1)
                 | OutOfFuel => (OutOfFuel, w1)
                 end
             end
    end.
Proof.
  unfold window_body, window_request, after_request. cbn [fst snd].
  unfold bind, requests_get, raise_for_status, json, raise, ret, lift,
    body_data, rbind.
  destruct (http E _ _) as [x | r]; [reflexivity |].
  destruct ((400 <=? _) && _); [reflexivity |].
  destruct (json_body r) as [x | body]; [reflexivity |].
  destruct (dict_get body _ _) as [c | |]; [| reflexivity ..].
  destruct (dict_get c _ _) as [d | |]; [| reflexivity ..].
  destruct (iterate d); reflexivity.
Qed.

(** A window either leaves the loop running, with its request sent and
    its rows and lines added, or ends the fetch with an exception. *)
Lemma fetch_window_spec E base t i s e w :
  match window_result E base t i (length (sent w)) (s, e) with
  | Some (rows, msgs) =>
      fetch_window E base t i s e w
      = (Done tt, extend w [window_request base i (s, e)] msgs rows)
  | None => exists x w', fetch_window E base t i s e w = (Raised x, w')
  end.
Proof.
  unfold fetch_window, try_except, window_result, request_error.
  rewrite window_body_run. cbv zeta. cbn [fst snd].
  destruct (http E _ _) as [x | r].
  - destruct (is_RequestException x); [| eauto].
    unfold print, extend, after_request. cbn. rewrite app_nil_r. reflexivity.
  - destruct ((400 <=? _) && _).
    { unfold print, extend, after_request. cbn.
      rewrite app_nil_r. reflexivity. }
    destruct (json_body r) as [x | body].
    { destruct (is_RequestException x); [| eauto].
      unfold print, extend, after_request. cbn.
      rewrite app_nil_r. reflexivity. }
    pose proof (local_body_data body) as Hb.
    destruct (body_data body) as [data | x |]; cbn [rbind].
    + pose proof (append_candles_spec t i s data
                    (after_request w (window_request base i (s, e)))) as Ha.
      pose proof (local_candle_rows t i s data) as Hl.
      destruct (candle_rows t i s data) as [rows | x |].
      * rewrite Ha. unfold with_rows, extend, after_request. cbn.
        rewrite app_nil_r. reflexivity.
      * destruct Ha as [w' ->]. simpl in Hl. rewrite Hl. eauto.
      * destruct Ha.
    + simpl in Hb. rewrite Hb. eauto.
    + destruct Hb.
Qed.

End FetchFacts.

(** ** The loops of the fetch *)

Section LoopFacts.

Lemma fails_Raised {A} e w : @fails A (Raised e, w).
Proof. exact I. Qed.

Lemma fails_not_Done {A} (p : result A * world) a w :
  fails p -> p <> (Done a, w).
Proof. intros Hf ->. exact Hf. Qed.

Lemma bind_fails {A B} (m : M A) (k : A -> M B) w :
  fails (m w) -> fails (bind m k w).
Proof. unfold bind, fails. destruct (m w) as [[a | e |] w1]; simpl; tauto. Qed.

Lemma bind_lift {A B} (r : result A) (k : A -> M B) w :
  bind (lift r) k w
  = match r with
    | Done a => k a w
    | Raised e => (Raised e, w)
    | OutOfFuel => (OutOfFuel, w)
    end.
Proof. destruct r; reflexivity. Qed.

Lemma extend_nil w : extend w [] [] [] = w.
Proof. destruct w. unfold extend. cbn. rewrite !app_nil_r. reflexivity. Qed.

Lemma extend_extend w r1 m1 d1 r2 m2 d2 :
  extend (extend w r1 m1 d1) r2 m2 d2
  = extend w (r1 ++ r2) (m1 ++ m2) (d1 ++ d2).
Proof. unfold extend. cbn. rewrite !app_assoc. reflexivity. Qed.

Lemma sent_extend w r m d : sent (extend w r m d) = (sent w ++ r)%list.
Proof. reflexivity. Qed.

Lemma fueled_rbind {A B} (r : result A) (k : A -> result B) :
  fueled r -> (forall a, fueled (k a)) -> fueled (rbind r k).
Proof. unfold fueled. destruct r; simpl; auto. Qed.

Lemma fueled_datetime_add d t : fueled (datetime_add d t).
Proof.
  unfold fueled, datetime_add, datetime_of_delta.
  destruct (_ && _); [| discriminate].
  destruct (ord2ymd _) as [[y m] dd]. discriminate.
Qed.

Lemma fueled_window_of c h : fueled (window_of c h).
Proof.
  unfold window_of, replace_hms.
  apply fueled_rbind; [destruct (valid_datetime _); discriminate |].
  intros s. apply fueled_rbind; [apply fueled_datetime_add |].
  intros u. apply fueled_rbind; [apply fueled_datetime_add |].
  intros e. discriminate.
Qed.

Lemma fueled_plan_hours c ed hs : fueled (plan_hours c ed hs).
Proof.
  induction hs as [| h rest IH]; cbn [plan_hours]; [discriminate |].
  apply fueled_rbind; [apply fueled_window_of |]. intros w.
  destruct (datetime_gt _ _); [discriminate |].
  apply fueled_rbind; [exact IH | discriminate].
Qed.

Context (E : env) (base : url) (t : string) (i : pyval).

Lemma hours_loop_cons c ed h rest w :
  hours_loop E base t i c ed (h :: rest) w
  = match window_of c h with
    | Done (s, e) =>
        if datetime_gt s ed then (Done tt, w)
        else bind (fetch_window E base t i s e)
               (fun _ => hours_loop E base t i c ed rest) w
    | Raised x => (Raised x, w)
    | OutOfFuel => (OutOfFuel, w)
    end.
Proof.
  cbn [hours_loop]. rewrite bind_lift.
  destruct (window_of c h) as [[s e] | x |]; [| reflexivity ..].
  destruct (datetime_gt s ed); reflexivity.
Qed.

Lemma plan_hours_cons c ed h rest :
  plan_hours c ed (h :: rest)
  = match window_of c h with
    | Done w =>
        if datetime_gt (fst w) ed then Done []
        else match plan_hours c ed rest with
             | Done ws => Done (w :: ws)
             | Raised x => Raised x
             | OutOfFuel => OutOfFuel
             end
    | Raised x => Raised x
    | OutOfFuel => OutOfFuel
    end.
Proof.
  cbn [plan_hours].
  destruct (window_of c h) as [w | x |]; cbn [rbind]; [| reflexivity ..].
  destruct (datetime_gt _ _); [reflexivity |].
  destruct (plan_hours c ed rest); reflexivity.
Qed.

(** The hour loop visits the windows of the planner, one request each;
    it returns when none of them ends the fetch. *)
Lemma hours_loop_spec c ed hs w :
  match plan_hours c ed hs with
  | Done today =>
      match run_windows E base t i (length (sent w)) today with
      | Some (rows, msgs) =>
          hours_loop E base t i c ed hs w
          = (Done tt, extend w (map (window_request base i) today) msgs rows)
      | None => fails (hours_loop E base t i c ed hs w)
      end
  | _ => fails (hours_loop E base t i c ed hs w)
  end.
Proof.
  revert w. induction hs as [| h rest IH]; intros w.
  - cbn. rewrite extend_nil. reflexivity.
  - rewrite hours_loop_cons, plan_hours_cons.
    destruct (window_of c h) as [[s e] | x |]; [| exact I ..].
    cbn [fst]. destruct (datetime_gt s ed).
    { cbn [run_windows map]. rewrite extend_nil. reflexivity. }
    pose proof (fetch_window_spec E base t i s e w) as Hf.
    pose proof (fueled_plan_hours c ed rest) as Hfu.
    destruct (window_result E base t i (length (sent w)) (s, e))
      as [[rows msgs] |] eqn:Hwr.
    + rewrite (bind_Done _ _ _ _ _ Hf).
      specialize (IH (extend w [window_request base i (s, e)] msgs rows)).
      rewrite sent_extend, length_app in IH. cbn [length] in IH.
      rewrite Nat.add_1_r in IH.
      destruct (plan_hours c ed rest) as [ws | x |]; [| exact IH ..].
      cbn [run_windows map]. rewrite Hwr.
      destruct (run_windows E base t i (S (length (sent w))) ws)
        as [[rows' msgs'] |]; [| exact IH].
      rewrite IH, extend_extend. reflexivity.
    + destruct Hf as (x & w' & Hf).
      assert (Hfail : fails (bind (fetch_window E base t i s e)
                (fun _ => hours_loop E base t i c ed rest) w))
        by (rewrite (bind_Raised _ _ _ _ _ Hf); exact I).
      destruct (plan_hours c ed rest) as [ws | x' |]; [| exact Hfail ..].
      cbn [run_windows]. rewrite Hwr. exact Hfail.
Qed.

Lemma bind_fails_k {A B} (m : M A) (k : A -> M B) w :
  (forall a w1, m w = (Done a, w1) -> fails (k a w1)) ->
  fails (bind m k w).
Proof.
  unfold bind. intros H. destruct (m w) as [[a | e |] w1]; [| exact I ..].
  apply H. reflexivity.
Qed.

Lemma run_windows_app n a b :
  run_windows E base t i n (a ++ b)
  = match run_windows E base t i n a with
    | Some (r1, m1) =>
        match run_windows E base t i (n + length a) b with
        | Some (r2, m2) => Some ((r1 ++ r2)%list, (m1 ++ m2)%list)
        | None => None
        end
    | None => None
    end.
Proof.
  revert n. induction a as [| w a IH]; intros n.
  - cbn. rewrite Nat.add_0_r.
    destruct (run_windows E base t i n b) as [[r2 m2] |]; reflexivity.
  - cbn [app run_windows length].
    destruct (window_result E base t i n w) as [[r m] |]; [| reflexivity].
    rewrite IH. replace (S n + length a)%nat with (n + S (length a))%nat by lia.
    destruct (run_windows E base t i (S n) a) as [[r1 m1] |];
      [| reflexivity].
    destruct (run_windows E base t i (n + S (length a)) b) as [[r2 m2] |];
      [| reflexivity].
    rewrite !app_assoc. reflexivity.
Qed.

Lemma days_loop_S fuel c ed w :
  days_loop (S fuel) E base t i c ed w
  = if datetime_le c ed then
      bind (hours_loop E base t i c ed (seqZ 10 14))
        (fun _ =>
           bind (lift (datetime_add c (timedelta_new 1 0 0 0 0)))
             (fun next => days_loop fuel E base t i next ed)) w
    else (Done tt, w).
Proof. cbn [days_loop]. destruct (datetime_le c ed); reflexivity. Qed.

(** The day loop visits the windows of the planner, one request each;
    it returns when the planner does and no window ends the fetch. *)
Lemma days_loop_spec fuel c ed w :
  match plan_days fuel c ed with
  | Done ws =>
      match run_windows E base t i (length (sent w)) ws with
      | Some (rows, msgs) =>
          days_loop fuel E base t i c ed w
          = (Done tt, extend w (map (window_request base i) ws) msgs rows)
      | None => fails (days_loop fuel E base t i c ed w)
      end
  | _ => fails (days_loop fuel E base t i c ed w)
  end.
Proof.
  revert c w. induction fuel as [| fuel IH]; intros c w; [exact I |].
  rewrite plan_days_S, days_loop_S.
  destruct (datetime_le c ed);
    [| cbn [run_windows map]; rewrite extend_nil; reflexivity].
  pose proof (hours_loop_spec c ed (seqZ 10 14) w) as Hh.
  destruct (plan_hours c ed (seqZ 10 14)) as [today | x |];
    [| apply bind_fails; exact Hh ..].
  rewrite rbind_Done. cbv beta.
  destruct (datetime_add c (timedelta_new 1 0 0 0 0)) as [next | x |].
  2, 3: apply bind_fails_k; intros; exact I.
  rewrite rbind_Done. cbv beta.
  destruct (run_windows E base t i (length (sent w)) today)
    as [[r1 m1] |] eqn:Hr1.
  - rewrite (bind_Done _ _ _ _ _ Hh). rewrite bind_lift.
    specialize (IH next
      (extend w (map (window_request base i) today) m1 r1)).
    rewrite sent_extend, length_app, length_map in IH.
    destruct (plan_days fuel next ed) as [later | x |]; [| exact IH ..].
    rewrite rbind_Done. cbv beta iota.
    rewrite run_windows_app, Hr1.
    destruct (run_windows E base t i (length (sent w) + length today) later)
      as [[r2 m2] |]; [| exact IH].
    rewrite IH, extend_extend, map_app. reflexivity.
  - pose proof (bind_fails _
      (fun _ => bind (lift (Done next))
                  (fun next => days_loop fuel E base t i next ed)) _ Hh)
      as Hfail.
    clear Hh IH.
    destruct (plan_days fuel next ed) as [later | x |]; [| exact Hfail ..].
    rewrite rbind_Done. cbv beta iota.
    rewrite run_windows_app, Hr1. exact Hfail.
Qed.

End LoopFacts.

(** ** Rows of the table *)

Section RowFacts.

Lemma append_nil_r s : s +:+ "" = s.
Proof.
  induction s as [| c s IH]; [reflexivity |].
  change (String c (s +:+ "") = String c s). f_equal. exact IH.
Qed.

Lemma append_cons x a b : String x a +:+ b = String x (a +:+ b).
Proof. reflexivity. Qed.

Lemma append_assoc a b c : (a +:+ b) +:+ c = a +:+ (b +:+ c).
Proof.
  induction a as [| x a IH]; [reflexivity |].
  rewrite !append_cons. f_equal. exact IH.
Qed.

Lemma split_from_word w s :
  no_space s = true -> split_from (Some w) s = [w +:+ s].
Proof.
  revert w. induction s as [| c s IH]; intros w Hs; simpl in *.
  - rewrite append_nil_r. reflexivity.
  - apply andb_prop in Hs as [Hc Hs]. apply negb_true_iff in Hc.
    rewrite Hc. rewrite IH by assumption. rewrite append_assoc. reflexivity.
Qed.

Lemma split_from_word_space w a rest :
  no_space a = true ->
  split_from (Some w) (a +:+ String " " rest)
  = (w +:+ a) :: split_from None rest.
Proof.
  revert w. induction a as [| c a IH]; intros w Ha; simpl in *.
  - rewrite append_nil_r. reflexivity.
  - apply andb_prop in Ha as [Hc Ha]. apply negb_true_iff in Hc.
    rewrite Hc. rewrite IH by assumption. rewrite append_assoc. reflexivity.
Qed.

(** A begin stamp made of a date, a space and a time splits in two. *)
Lemma split_date_time date time :
  word date -> word time -> split (date +:+ " " +:+ time) = [date; time].
Proof.
  intros [Hd Hnd] [Ht Hnt]. unfold split.
  destruct date as [| c date]; [congruence |].
  destruct time as [| c' time]; [congruence |].
  simpl in Hnd, Hnt.
  apply andb_prop in Hnd as [Hc Hnd]. apply negb_true_iff in Hc.
  apply andb_prop in Hnt as [Hc' Hnt]. apply negb_true_iff in Hc'.
  rewrite append_cons. cbn [split_from]. rewrite Hc. cbn [default].
  change (" " +:+ String c' time) with (String " " (String c' time)).
  rewrite split_from_word_space by assumption.
  cbn [split_from]. rewrite Hc'. cbn [default].
  rewrite split_from_word by assumption. reflexivity.
Qed.

Lemma candle_row_canonical t i s candle r :
  candle_row t i s candle = Done r -> canonical t i s candle r.
Proof.
  unfold candle_row. intros H.
  apply rbind_Done_inv in H as (begin & H6 & H).
  apply rbind_Done_inv in H as (parts & Hp & H).
  apply rbind_Done_inv in H as (tm & Ht & H).
  apply rbind_Done_inv in H as (c0 & H0 & H).
  apply rbind_Done_inv in H as (c2 & H2 & H).
  apply rbind_Done_inv in H as (c3 & H3 & H).
  apply rbind_Done_inv in H as (c1 & H1 & H).
  apply rbind_Done_inv in H as (c5 & H5 & H).
  injection H as <-. cbn [TICKER PER DATE TIME OPEN HIGH LOW CLOSE VOL].
  destruct begin as [| | | | b | |]; try discriminate.
  injection Hp as <-.
  repeat split; auto.
  exists b, tm. repeat split; auto.
  intros date time -> Hd Hw.
  rewrite split_date_time in Ht by assumption.
  injection Ht as <-. reflexivity.
Qed.

Lemma candle_rows_in t i s data rows :
  candle_rows t i s data = Done rows ->
  (forall candle, In candle data ->
     exists r, In r rows /\ candle_row t i s candle = Done r)
  /\ (forall r, In r rows ->
       exists candle, In candle data /\ candle_row t i s candle = Done r).
Proof.
  revert rows. induction data as [| c rest IH]; intros rows H; simpl in H.
  - injection H as <-. split; intros ? [].
  - apply rbind_Done_inv in H as (r & Hr & H).
    apply rbind_Done_inv in H as (rs & Hrs & H). injection H as <-.
    destruct (IH rs Hrs) as [IH1 IH2]. split.
    + intros candle [<- | Hin]; [exists r; simpl; auto |].
      destruct (IH1 candle Hin) as (r' & ? & ?). exists r'. simpl. auto.
    + intros r' [<- | Hin]; [exists c; simpl; auto |].
      destruct (IH2 r' Hin) as (c' & ? & ?). exists c'. simpl. auto.
Qed.

End RowFacts.

(** ** The fetch as a whole *)

Section CandlesFacts.

Context (E : env) (i : pyval).

Lemma bind_reset {B} (k : unit -> M B) w :
  bind reset_all_data k w
  = k tt (mk_world (sent w) (printed w) (written w) []).
Proof. reflexivity. Qed.

Lemma bind_read (m : M unit) w :
  bind m (fun _ => read_all_data) w
  = match m w with
    | (Done _, w') => (Done (all_data w'), w')
    | (Raised e, w') => (Raised e, w')
    | (OutOfFuel, w') => (OutOfFuel, w')
    end.
Proof. unfold bind. destruct (m w) as [[a | e |] w']; reflexivity. Qed.

Lemma get_candles_str t sd ed w0 :
  get_candles E (PyVal (VStr t)) (PyDatetime sd) (PyDatetime ed) i w0
  = bind (get_security_info E (PyVal (VStr t)))
      (fun ticker_info =>
         bind reset_all_data
           (fun _ =>
              bind (days_loop (loop_fuel sd ed) E
                      (CandlesUrl (engine ticker_info) (market ticker_info) t)
                      t i sd ed)
                (fun _ => read_all_data))) w0.
Proof. reflexivity. Qed.

(** The table of a fetch: after the instrument is resolved, the rows of
    the planned windows in order; the fetch returns when the planner
    does and no window ends it. *)
Lemma get_candles_spec t sd ed w0 info w1 :
  get_security_info E (PyVal (VStr t)) w0 = (Done info, w1) ->
  match plan sd ed with
  | Done ws =>
      match run_windows E (CandlesUrl (engine info) (market info) t) t i
              (length (sent w1)) ws with
      | Some (rows, msgs) =>
          get_candles E (PyVal (VStr t)) (PyDatetime sd) (PyDatetime ed) i w0
          = (Done rows,
             mk_world
               (sent w1
                ++ map (window_request
                          (CandlesUrl (engine info) (market info) t) i) ws)
               (printed w1 ++ msgs) (written w1) rows)
      | None =>
          fails (get_candles E (PyVal (VStr t)) (PyDatetime sd)
                   (PyDatetime ed) i w0)
      end
  | _ =>
      fails (get_candles E (PyVal (VStr t)) (PyDatetime sd)
               (PyDatetime ed) i w0)
  end.
Proof.
  intros Hinfo. rewrite get_candles_str.
  rewrite (bind_Done _ _ _ _ _ Hinfo), bind_reset, bind_read.
  pose proof (days_loop_spec E (CandlesUrl (engine info) (market info) t)
                t i (loop_fuel sd ed) sd ed
                (mk_world (sent w1) (printed w1) (written w1) [])) as Hd.
  unfold plan. cbn [sent] in Hd.
  destruct (plan_days (loop_fuel sd ed) sd ed) as [ws | x |].
  - destruct (run_windows E _ t i (length (sent w1)) ws) as [[rows msgs] |].
    + rewrite Hd. reflexivity.
    + revert Hd. unfold fails.
      destruct (days_loop _ _ _ _ _ _ _ _) as [[a | e |] w']; simpl; auto.
  - revert Hd. unfold fails.
    destruct (days_loop _ _ _ _ _ _ _ _) as [[a | e |] w']; simpl; auto.
  - revert Hd. unfold fails.
    destruct (days_loop _ _ _ _ _ _ _ _) as [[a | e |] w']; simpl; auto.
Qed.

Lemma get_candles_inv ticker start_date end_date w0 tbl wf :
  get_candles E ticker start_date end_date i w0 = (Done tbl, wf) ->
  exists t sd ed info w1 ws msgs,
    ticker = PyVal (VStr t) /\ start_date = PyDatetime sd
    /\ end_date = PyDatetime ed
    /\ get_security_info E ticker w0 = (Done info, w1)
    /\ plan sd ed = Done ws
    /\ run_windows E (CandlesUrl (engine info) (market info) t) t i
         (length (sent w1)) ws = Some (tbl, msgs)
    /\ wf = mk_world
              (sent w1
               ++ map (window_request
                         (CandlesUrl (engine info) (market info) t) i) ws)
              (printed w1 ++ msgs) (written w1) tbl.
Proof.
  intros H.
  destruct ticker as [[| | | | t | |] | |],
    start_date as [| sd |], end_date as [| ed |]; try discriminate.
  pose proof H as H'. rewrite get_candles_str in H'.
  apply bind_Done_inv in H' as (info & w1 & Hinfo & _).
  pose proof (get_candles_spec t sd ed w0 info w1 Hinfo) as Hs.
  destruct (plan sd ed) as [ws | x |] eqn:Hp;
    [| exfalso; eapply fails_not_Done; eauto ..].
  destruct (run_windows E _ t i (length (sent w1)) ws) as [[rows msgs] |]
    eqn:Hr; [| exfalso; eapply fails_not_Done; eauto].
  rewrite Hs in H. injection H as <- <-.
  exists t, sd, ed, info, w1, ws, msgs. repeat split; auto.
Qed.

End CandlesFacts.

Section WindowRows.

Context (E : env) (base : url) (t : string) (i : pyval).

Lemma window_result_inv n w rk mk :
  window_result E base t i n w = Some (rk, mk) ->
  (exists x, request_error (http E n (window_request base i w)) = Some x
             /\ rk = [] /\ mk = [MsgCandlesError (fst w) (snd w) x])
  \/ (exists resp body data,
        http E n (window_request base i w) = Responds resp
        /\ request_error (Responds resp) = None
        /\ json_body resp = inr body
        /\ body_data body = Done data
        /\ candle_rows t i (fst w) data = Done rk /\ mk = []).
Proof.
  unfold window_result. cbv zeta.
  destruct (request_error (http E n (window_request base i w)))
    as [x |] eqn:Hx.
  - intros [= <- <-]. left. exists x. auto.
  - destruct (http E n (window_request base i w)) as [x | resp] eqn:Ho;
      [discriminate |].
    destruct (json_body resp) as [x | body] eqn:Hj; [discriminate |].
    destruct (body_data body) as [data | x |] eqn:Hb; cbn [rbind];
      try discriminate.
    destruct (candle_rows t i (fst w) data) as [rows | x |] eqn:Hc;
      try discriminate.
    intros [= <- <-]. right. exists resp, body, data. repeat split; auto.
Qed.



Lemma run_windows_in n ws rows msgs :
  run_windows E base t i n ws = Some (rows, msgs) ->
  forall r, In r rows ->
    exists k w rk mk, ws !! k = Some w
      /\ window_result E base t i (n + k) w = Some (rk, mk) /\ In r rk.
Proof.
  revert n rows msgs. induction ws as [| w0 ws IH]; intros n rows msgs H r Hr.
  - injection H as <- <-. destruct Hr.
  - cbn [run_windows] in H.
    destruct (window_result E base t i n w0) as [[r0 m0] |] eqn:H0;
      [| discriminate].
    destruct (run_windows E base t i (S n) ws) as [[rs ms] |] eqn:Hs;
      [| discriminate].
    injection H as <- <-. apply in_app_iff in Hr as [Hr | Hr].
    + exists 0%nat, w0, r0, m0. rewrite Nat.add_0_r. auto.
    + destruct (IH (S n) rs ms Hs r Hr) as (k & w & rk & mk & Hk & Hw & Hin).
      exists (S k), w, rk, mk.
      replace (n + S k)%nat with (S n + k)%nat by lia. auto.
Qed.

End WindowRows.

(** ** The fetch: tolerated and fatal errors, rows *)

Section CandlesTheorems.

(** C2.  A window whose request raises an exception of class
    [RequestException] - a transport failure, a status from 400 to 599,
    or the library's own error on a body that does not decode - is
    caught and logged: the window adds a line to the output and no row,
    and the fetch goes on with the windows after it, so that the table
    holds the rows of the windows before and after.  (The other windows
    are assumed not to end the fetch.  A body of an unexpected shape is
    not caught: see the counterexample.) *)
Theorem request_error_tolerated E i t sd ed w0 info w1
    ws1 s e ws2 x rows1 msgs1 rows2 msgs2 :
  get_security_info E (PyVal (VStr t)) w0 = (Done info, w1) ->
  plan sd ed = Done (ws1 ++ (s, e) :: ws2) ->
  run_windows E (CandlesUrl (engine info) (market info) t) t i
    (length (sent w1)) ws1 = Some (rows1, msgs1) ->
  request_error
    (http E (length (sent w1) + length ws1)
       (window_request (CandlesUrl (engine info) (market info) t) i (s, e)))
  = Some x ->
  run_windows E (CandlesUrl (engine info) (market info) t) t i
    (S (length (sent w1) + length ws1)) ws2 = Some (rows2, msgs2) ->
  get_candles E (PyVal (VStr t)) (PyDatetime sd) (PyDatetime ed) i w0
  = (Done (rows1 ++ rows2),
     mk_world
       (sent w1
        ++ map (window_request (CandlesUrl (engine info) (market info) t) i)
             (ws1 ++ (s, e) :: ws2))
       (printed w1 ++ msgs1 ++ MsgCandlesError s e x :: msgs2)
       (written w1) (rows1 ++ rows2)).
Proof.
  intros Hinfo Hplan Hr1 Hx Hr2.
  pose proof (get_candles_spec E i t sd ed w0 info w1 Hinfo) as Hs.
  rewrite Hplan, run_windows_app, Hr1 in Hs.
  cbn [run_windows] in Hs. unfold window_result in Hs. cbv zeta in Hs.
  rewrite Hx, Hr2 in Hs. cbn [fst snd app] in Hs. exact Hs.
Qed.

Lemma request_error_tolerated_witness :
  fst (get_candles
         (sample_env [ok lkoh_info; ok (candles_body [lkoh_candle]);
                      Fails Timeout; ok (candles_body [lkoh_candle])])
         (PyVal (VStr "LKOH")) (PyDatetime (dec18 0 0 0))
         (PyDatetime (dec18 12 30 0)) (VInt 1) world0)
  = Done [lkoh_row; lkoh_row].
Proof.
  rewrite (request_error_tolerated _ (VInt 1) "LKOH" (dec18 0 0 0)
             (dec18 12 30 0) world0 lkoh_info_result after_info
             [hour_window (dec18 0 0 0) 10]
             (at_hms (dec18 0 0 0) 11 0 0) (at_hms (dec18 0 0 0) 11 59 59)
             [hour_window (dec18 0 0 0) 12] Timeout
             [lkoh_row] [] [lkoh_row] []);
    [reflexivity | vm_compute; reflexivity ..].
Defined.

(** C2, as stated, fails for a body of an unexpected shape: with three
    windows planned and a candle of three fields in the answer to the
    second, the fetch ends with [IndexError]; nothing is logged, the
    third window is never requested, and no table is returned. *)
Lemma shape_error_aborts_fetch :
  let run :=
    get_candles
      (sample_env [ok lkoh_info; ok (candles_body [lkoh_candle]);
                   ok (candles_body [VList [VInt 1; VInt 2; VInt 3]]);
                   ok (candles_body [lkoh_candle])])
      (PyVal (VStr "LKOH")) (PyDatetime (dec18 0 0 0))
      (PyDatetime (dec18 12 30 0)) (VInt 1) world0 in
  fst run = Raised IndexError
  /\ printed (snd run) = []
  /\ length (sent (snd run)) = 3%nat
  /\ exists ws, plan (dec18 0 0 0) (dec18 12 30 0) = Done ws
                /\ length ws = 3%nat.
Proof.
  cbv zeta. repeat split; try (vm_compute; reflexivity).
  eexists. split; vm_compute; reflexivity.
Qed.



End CandlesTheorems.

(** ** The single-request lookups *)

Section LookupFacts.

Context (E : env).

(** A request, the check of its status and the decoding of its body,
    followed by [k] on the decoded body. *)
Lemma request_json_run {A} u ps tmo (k : pyval -> M A) w :
  bind (requests_get E u ps tmo)
    (fun response =>
       bind (raise_for_status response) (fun _ => bind (json response) k)) w
  = let q := mk_request u ps tmo in
    match http E (length (sent w)) q with
    | Fails x => (Raised x, after_request w q)
    | Responds r =>
        if (400 <=? status_code r) && (status_code r <? 600)
        then (Raised HTTPError, after_request w q)
        else match json_body r with
             | inl x => (Raised x, after_request w q)
             | inr body => k body (after_request w q)
             end
    end.
Proof.
  unfold bind, requests_get, raise_for_status, json, raise, ret, after_request.
  cbv zeta.
  destruct (http E _ _) as [x | r]; [reflexivity |].
  destruct ((400 <=? _) && _); [reflexivity |].
  destruct (json_body r) as [x | body]; reflexivity.
Qed.

Lemma try_request_error {A} u ps tmo (k : pyval -> M A) h w x :
  request_error (http E (length (sent w)) (mk_request u ps tmo)) = Some x ->
  try_except
    (bind (requests_get E u ps tmo)
       (fun response =>
          bind (raise_for_status response) (fun _ => bind (json response) k)))
    is_RequestException h w
  = h x (after_request w (mk_request u ps tmo)).
Proof.
  unfold try_except, request_error. rewrite request_json_run. cbv zeta.
  destruct (http E _ _) as [y | r].
  - destruct (is_RequestException y); [| discriminate].
    intros [= <-]. reflexivity.
  - destruct ((400 <=? _) && _); [intros [= <-]; reflexivity |].
    destruct (json_body r) as [y | body]; [| discriminate].
    destruct (is_RequestException y); [| discriminate].
    intros [= <-]. reflexivity.
Qed.

Lemma try_request_ok {A} u ps tmo (k : pyval -> M A) h w r body a w2 :
  http E (length (sent w)) (mk_request u ps tmo) = Responds r ->
  request_error (Responds r) = None ->
  json_body r = inr body ->
  k body (after_request w (mk_request u ps tmo)) = (Done a, w2) ->
  try_except
    (bind (requests_get E u ps tmo)
       (fun response =>
          bind (raise_for_status response) (fun _ => bind (json response) k)))
    is_RequestException h w
  = (Done a, w2).
Proof.
  intros Ho Hx Hj Hk. unfold try_except, request_error in *.
  rewrite request_json_run. cbv zeta. rewrite Ho.
  destruct ((400 <=? _) && _); [discriminate |].
  rewrite Hj, Hk. reflexivity.
Qed.

Lemma float_at_row data i j row :
  getitem_int data i = Done row ->
  float_at E data i j = float_field E row j.
Proof. unfold float_at, float_field. intros ->. reflexivity. Qed.

Lemma get_last_history_candle_str t w0 :
  get_last_history_candle E (PyVal (VStr t)) w0
  = bind (get_security_info E (PyVal (VStr t)))
      (fun ticker_info =>
         try_except
           (bind (requests_get E
                    (HistoryUrl (engine ticker_info) (market ticker_info) t)
                    history_params (Some 2))
              (fun response =>
                 bind (raise_for_status response)
                   (fun _ =>
                      bind (json response)
                        (fun body =>
                           data <- lift (let* h := dict_get body "history"
                                                     (VDict []) in
                                         dict_get h "data" (VList [])) ;;
                           if truthy data then
                             result <-
                               lift (let* o := float_at E data 0 6 in
                                     let* c := float_at E data 0 11 in
                                     let* h := float_at E data 0 8 in
                                     let* l := float_at E data 0 7 in
                                     let* v := float_at E data 0 5 in
                                     let* vol := float_at E data 0 12 in
                                     Done (mk_bar o c h l v vol)) ;;
                             ret (Some result)
                           else
                             print MsgNoHistory ;;
                             ret None))))
           is_RequestException
           (fun e => print (MsgRequestError e) ;; ret None)) w0.
Proof. reflexivity. Qed.

Lemma get_last_candle_str t st et i w0 :
  get_last_candle E (PyVal (VStr t)) (PyDatetime st) (PyDatetime et) i w0
  = bind (get_security_info E (PyVal (VStr t)))
      (fun ticker_info =>
         try_except
           (bind (requests_get E
                    (CandlesUrl (engine ticker_info) (market ticker_info) t)
                    (candle_params st et i) (Some 2))
              (fun response =>
                 bind (raise_for_status response)
                   (fun _ =>
                      bind (json response)
                        (fun body =>
                           data <- lift (let* c := dict_get body "candles"
                                                     (VDict []) in
                                         dict_get c "data" (VList [])) ;;
                           if truthy data then
                             result <-
                               lift (let* last_candle :=
                                       getitem_int data (-1) in
                                     let* o := float_field E last_candle 0 in
                                     let* c := float_field E last_candle 1 in
                                     let* h := float_field E last_candle 2 in
                                     let* l := float_field E last_candle 3 in
                                     let* v := float_field E last_candle 4 in
                                     let* vol := float_field E last_candle 5 in
                                     Done (mk_bar o c h l v vol)) ;;
                             ret (Some result)
                           else
                             print MsgNoData ;;
                             ret None))))
           is_RequestException
           (fun e => print (MsgRequestError e) ;; ret None)) w0.
Proof. reflexivity. Qed.

Lemma extend_request w q msgs :
  mk_world (sent (after_request w q)) (printed (after_request w q) ++ msgs)
           (written (after_request w q)) (all_data (after_request w q))
  = extend w [q] msgs [].
Proof. unfold extend, after_request. cbn. rewrite app_nil_r. reflexivity. Qed.

End LookupFacts.

Section LookupTheorems.






Lemma get_last_price_str E t w0 :
  get_last_price E (PyVal (VStr t)) w0
  = bind (lift (datetime_sub (now E) (timedelta_new 0 0 0 15 0)))
      (fun start_time =>
         bind (get_last_candle E (PyVal (VStr t)) (PyDatetime start_time)
                 (PyDatetime (now E)) (VInt 1))
           (fun last_candle =>
              match last_candle with
              | Some c => ret (Some (close c))
              | None =>
                  bind (get_last_history_candle E (PyVal (VStr t)))
                    (fun last_candle =>
                       match last_candle with
                       | Some c => ret (Some (close c))
                       | None => ret None
                       end)
              end)) w0.
Proof. reflexivity. Qed.



End LookupTheorems.

(** ** The resolver and the file writer *)

Section ResolverFacts.

Lemma get_security_info_run E t w :
  get_security_info E (PyVal (VStr t)) w
  = let w1 := after_request w (security_request t) in
    match http E (length (sent w)) (security_request t) with
    | Fails x =>
        if is_RequestException x then (Raised RuntimeError, w1)
        else (Raised x, w1)
    | Responds r =>
        if (400 <=? status_code r) && (status_code r <? 600)
        then (Raised RuntimeError, w1)
        else match json_body r with
             | inl x =>
                 if is_ValueError x then (Raised ValueError, w1)
                 else (Raised x, w1)
             | inr data => (parse_security_info data, w1)
             end
    end.
Proof.
  unfold get_security_info, try_except, bind, requests_get, raise_for_status,
    json, raise, ret, lift, security_request, after_request.
  cbv zeta.
  destruct (http E _ _) as [x | r].
  - destruct (is_RequestException x); reflexivity.
  - destruct ((400 <=? _) && _); [reflexivity |].
    destruct (json_body r) as [x | data].
    + destruct (is_ValueError x); reflexivity.
    + destruct (parse_security_info data); reflexivity.
Qed.

Lemma description_dict_lookup acc items d k :
  description_dict acc items = Done d ->
  d !! k = match last_field k items with
           | Some v => Some v
           | None => acc !! k
           end.
Proof.
  unfold last_field. revert acc.
  induction items as [| item rest IH]; intros acc H; cbn in H.
  - injection H as <-. reflexivity.
  - apply rbind_Done_inv in H as (acc' & He & H).
    rewrite (IH acc' H). cbn [omap list_omap].
    unfold description_entry in He. unfold field_value.
    apply rbind_Done_inv in He as (key & H0 & He).
    apply rbind_Done_inv in He as (v & H2 & He).
    rewrite H0, H2.
    destruct key as [| b | z | f | s | l | kvs]; try discriminate;
      injection He as <-; try reflexivity.
    destruct (String.eqb_spec s k) as [-> | Hne].
    + rewrite last_cons.
      destruct (last (omap _ rest)); [reflexivity |].
      rewrite lookup_insert_eq. reflexivity.
    + destruct (last (omap _ rest)); [reflexivity |].
      rewrite lookup_insert_ne by assumption. reflexivity.
Qed.

Lemma parse_security_info_inv data info :
  parse_security_info data = Done info ->
  exists d description items,
    getitem_str data "description" = Done d
    /\ getitem_str d "data" = Done description
    /\ iterate description = Done items
    /\ last_field "SECID" items = Some (secid info)
    /\ last_field "SHORTNAME" items = Some (shortname info)
    /\ last_field "GROUP" items = Some (group info).
Proof.
  unfold parse_security_info. intros H.
  apply rbind_Done_inv in H as (missing & _ & H).
  destruct missing; [discriminate |].
  apply rbind_Done_inv in H as (description & Hdesc & H).
  apply rbind_Done_inv in Hdesc as (d & Hd & Hdesc).
  apply rbind_Done_inv in H as (items & Hitems & H).
  apply rbind_Done_inv in H as (dd & Hdd & H).
  cbv zeta in H.
  destruct (truthy (default VNone (dd !! "SECID"))) eqn:H1;
    [| discriminate].
  destruct (truthy (default VNone (dd !! "SHORTNAME"))) eqn:H2;
    [| discriminate].
  destruct (truthy (default VNone (dd !! "GROUP"))) eqn:H3;
    [| discriminate].
  cbn [andb negb] in H.
  apply rbind_Done_inv in H as (boards_data & _ & H).
  apply rbind_Done_inv in H as (short & _ & H).
  destruct short; [discriminate |].
  apply rbind_Done_inv in H as (first_row & _ & H).
  apply rbind_Done_inv in H as (mkt & _ & H).
  apply rbind_Done_inv in H as (eng & _ & H).
  injection H as <-. cbn [secid shortname group].
  exists d, description, items.
  rewrite (description_dict_lookup _ _ _ "SECID" Hdd) in H1 |- *.
  rewrite (description_dict_lookup _ _ _ "SHORTNAME" Hdd) in H2 |- *.
  rewrite (description_dict_lookup _ _ _ "GROUP" Hdd) in H3 |- *.
  rewrite lookup_empty in H1, H2, H3 |- *.
  split; [exact Hd | split; [exact Hdesc | split; [exact Hitems |]]].
  destruct (last_field "SECID" items); [| discriminate].
  destruct (last_field "SHORTNAME" items); [| discriminate].
  destruct (last_field "GROUP" items); [| discriminate].
  repeat split.
Qed.

(** C10.  When the resolver returns, the [secid], [shortname] and [group]
    it returns are the values of the last triples named [SECID],
    [SHORTNAME] and [GROUP] in the description data of the response: a
    later triple under a name overwrites the earlier ones. *)
Theorem description_last_wins E t w info w' :
  get_security_info E (PyVal (VStr t)) w = (Done info, w') ->
  description_fields_are_last E t w info.
Proof.
  rewrite get_security_info_run. cbv zeta. intros H.
  destruct (http E (length (sent w)) (security_request t)) as [x | r] eqn:Ho.
  { destruct (is_RequestException x); discriminate. }
  destruct ((400 <=? status_code r) && (status_code r <? 600));
    [discriminate |].
  destruct (json_body r) as [x | data] eqn:Hj.
  { destruct (is_ValueError x); discriminate. }
  injection H as Hp _.
  destruct (parse_security_info_inv data info Hp)
    as (d & description & items & Hd & Hdesc & Hit & H1 & H2 & H3).
  exists r, data, d, description, items. repeat split; assumption.
Qed.

Lemma description_last_wins_witness :
  parse_security_info twice_info = Done lkoh_info_result
  /\ description_fields_are_last (sample_env [ok twice_info]) "LKOH" world0
       lkoh_info_result.
Proof.
  split; [vm_compute; reflexivity |].
  eapply description_last_wins. vm_compute. reflexivity.
Defined.

(** C6, as amended.  The resolver raises [ValueError] for every ticker
    that is not a string, before any request is sent.  Every string passes
    the check, the empty one included: the request is sent, and when the
    service answers with a body that decodes the outcome is the one the
    body determines. *)
Theorem resolve_input_check E w :
  (forall ticker, (forall s, ticker <> PyVal (VStr s)) ->
     get_security_info E ticker w = (Raised ValueError, w))
  /\ (forall s,
        sent (snd (get_security_info E (PyVal (VStr s)) w))
        = sent w ++ [security_request s])
  /\ (forall s r data,
        http E (length (sent w)) (security_request s) = Responds r ->
        (400 <=? status_code r) && (status_code r <? 600) = false ->
        json_body r = inr data ->
        get_security_info E (PyVal (VStr s)) w
        = (parse_security_info data, after_request w (security_request s))).
Proof.
  split; [| split].
  - intros ticker Hns.
    destruct ticker as [[| | | | s | |] | |]; try reflexivity.
    destruct (Hns s eq_refl).
  - intros s. rewrite get_security_info_run. cbv zeta.
    destruct (http E _ _) as [x | r].
    + destruct (is_RequestException x); reflexivity.
    + destruct ((400 <=? _) && _); [reflexivity |].
      destruct (json_body r) as [x | data]; [| reflexivity].
      destruct (is_ValueError x); reflexivity.
  - intros s r data Ho Hst Hj. rewrite get_security_info_run. cbv zeta.
    rewrite Ho, Hst, Hj. reflexivity.
Qed.

(** C6, as stated, fails: the empty string is not rejected.  With a
    service that answers it, the resolver returns the coordinates. *)
Lemma empty_ticker_accepted :
  fst (get_security_info (sample_env [ok lkoh_info]) (PyVal (VStr "")) world0)
  = Done lkoh_info_result
  /\ sent (snd (get_security_info (sample_env [ok lkoh_info])
                  (PyVal (VStr "")) world0))
     = [security_request ""].
Proof. split; vm_compute; reflexivity. Qed.


End ResolverFacts.

(** ** The windows of a fetch, day by day *)

Section WindowFacts.

Lemma stamp_time_of_day d :
  stamp d = toordinal d * 86400000000 + time_of_day d.
Proof. unfold stamp, time_of_day. lia. Qed.

Lemma time_of_day_range d :
  valid_datetime d = true -> 0 <= time_of_day d < 86400000000.
Proof.
  intros Hv. apply valid_datetime_spec in Hv. unfold time_of_day. lia.
Qed.

Lemma microsecond_time_of_day d :
  valid_datetime d = true -> microsecond d = time_of_day d mod 1000000.
Proof.
  intros Hv. apply valid_datetime_spec in Hv. unfold time_of_day.
  generalize ((hour d * 60 + minute d) * 60 + second d). intros. lia.
Qed.

Lemma at_hms_on_day c h m s :
  valid_datetime c = true ->
  at_hms c h m s = on_day (toordinal c) h m s (microsecond c).
Proof.
  intros Hv. apply valid_datetime_spec in Hv.
  unfold on_day, toordinal, at_hms.
  rewrite ord2ymd_ymd2ord by lia. reflexivity.
Qed.

Lemma hour_window_on_day c hs :
  valid_datetime c = true ->
  map (hour_window c) hs = day_windows (microsecond c) hs (toordinal c).
Proof.
  intros Hv. unfold day_windows, hour_window. apply map_ext. intros h.
  rewrite !at_hms_on_day by assumption. reflexivity.
Qed.

(** The hours the loop reaches on the day of [c]: those whose start is
    not after [ed]. *)
Lemma open_hours_seq c ed (n : nat) a :
  valid_datetime c = true -> valid_datetime ed = true ->
  0 <= a -> a + Z.of_nat n <= 24 ->
  open_hours c ed (seqZ a (Z.of_nat n))
  = seqZ a (Z.max 0 (Z.min (Z.of_nat n)
       ((stamp ed - toordinal c * 86400000000 - microsecond c)
        / 3600000000 - a + 1))).
Proof.
  intros Hv Hve. revert a. induction n as [| n IH]; intros a Ha Hn.
  - rewrite !seqZ_nil by lia. reflexivity.
  - rewrite (seqZ_cons a (Z.of_nat (S n))) by lia.
    replace (Z.pred (Z.of_nat (S n))) with (Z.of_nat n) by lia.
    cbn [open_hours].
    rewrite datetime_gt_stamp by (auto; apply valid_at_hms; auto; lia).
    rewrite stamp_at_hms.
    set (x := stamp ed - toordinal c * 86400000000 - microsecond c).
    assert (Hx : stamp ed = x + toordinal c * 86400000000 + microsecond c)
      by (subst x; lia).
    rewrite Hx. clearbody x.
    destruct (Z.ltb_spec (x + toordinal c * 86400000000 + microsecond c)
                ((toordinal c * 86400 + (a * 3600 + 0 * 60 + 0)) * 1000000
                 + microsecond c)) as [Hlt | Hge].
    + rewrite seqZ_nil; [reflexivity |].
      assert (x / 3600000000 < a) by lia. lia.
    + rewrite IH by lia.
      assert (a <= x / 3600000000) by lia.
      rewrite (seqZ_cons a (Z.max _ _)) by lia.
      f_equal. f_equal. lia.
Qed.

End WindowFacts.

Section PlanWindows.

Lemma windows_later c ed :
  datetime_le c ed = false -> windows c ed = [].
Proof. unfold windows. intros ->. reflexivity. Qed.

Lemma last_day_hours_eq c c' ed :
  microsecond c' = microsecond c -> last_day_hours c' ed = last_day_hours c ed.
Proof. unfold last_day_hours. intros ->. reflexivity. Qed.

Lemma plan_days_windows fuel c ed :
  valid_datetime c = true -> valid_datetime ed = true ->
  toordinal ed < MAXORDINAL ->
  (Z.to_nat (toordinal ed - toordinal c + 1) < fuel)%nat ->
  plan_days fuel c ed = Done (windows c ed).
Proof.
  revert c. induction fuel as [| fuel IH]; intros c Hv Hve Hmax Hf; [lia |].
  rewrite plan_days_S.
  destruct (datetime_le c ed) eqn:Hle;
    [| rewrite windows_later by assumption; reflexivity].
  pose proof Hle as Hle'.
  rewrite datetime_le_stamp in Hle' by assumption. apply Z.leb_le in Hle'.
  pose proof (stamp_split c Hv) as [Hqc Hrc].
  pose proof (stamp_split ed Hve) as [Hqe Hre].
  assert (Hord : toordinal c <= toordinal ed) by lia.
  rewrite plan_hours_done by (auto using day_hours_range; lia).
  rewrite rbind_Done.
  destruct (next_day_spec c Hv ltac:(lia)) as (next & -> & Hvn & Hsn & Hon).
  rewrite rbind_Done.
  rewrite (IH next Hvn Hve Hmax ltac:(lia)). rewrite rbind_Done.
  f_equal.
  pose proof (stamp_time_of_day c) as Htc.
  pose proof (stamp_time_of_day ed) as Hte.
  pose proof (stamp_time_of_day next) as Htn.
  assert (Htod : time_of_day next = time_of_day c) by lia.
  assert (Hus : microsecond next = microsecond c).
  { rewrite (microsecond_time_of_day c), (microsecond_time_of_day next)
      by assumption. rewrite Htod. reflexivity. }
  pose proof (time_of_day_range c Hv) as Hrtc.
  pose proof (time_of_day_range ed Hve) as Hrte.
  pose proof (proj1 (valid_datetime_spec c) Hv) as Hc.
  change 14 with (Z.of_nat 14) at 1.
  rewrite (open_hours_seq c ed 14 10 Hv Hve) by lia.
  rewrite hour_window_on_day by assumption.
  unfold windows at 2. rewrite Hle.
  unfold windows. rewrite datetime_le_stamp by assumption.
  rewrite Hus, Htod, (last_day_hours_eq c next ed Hus), Hon.
  destruct (Z_lt_le_dec (toordinal c) (toordinal ed)) as [Hlt | Hge].
  - (* a day before that of [ed]: all fourteen hours *)
    assert (Hfull : 23 <= (stamp ed - toordinal c * 86400000000
                           - microsecond c) / 3600000000).
    { apply Z.div_le_lower_bound; lia. }
    revert Hfull.
    generalize ((stamp ed - toordinal c * 86400000000 - microsecond c)
                / 3600000000).
    intros F HF.
    replace (Z.max 0 (Z.min (Z.of_nat 14) (F - 10 + 1))) with 14
      by (clear - HF; lia).
    rewrite (seqZ_cons (toordinal c)) by lia.
    cbn [flat_map].
    replace (Z.succ (toordinal c)) with (toordinal c + 1) by lia.
    replace (Z.pred (toordinal ed - toordinal c))
      with (toordinal ed - (toordinal c + 1)) by lia.
    rewrite <- app_assoc. f_equal.
    destruct (Z.leb_spec (stamp next) (stamp ed)) as [Hn | Hn].
    + reflexivity.
    + assert (toordinal ed = toordinal c + 1) as -> by lia.
      rewrite Z.sub_diag, (seqZ_nil (toordinal c + 1) 0) by lia.
      replace (toordinal c + 1 - toordinal c) with 1 by lia.
      cbn [flat_map app].
      assert ((time_of_day c <=? time_of_day ed) = false) as ->
        by (apply Z.leb_gt; lia).
      reflexivity.
  - (* the day of [ed] *)
    assert (Heq : toordinal c = toordinal ed) by lia.
    rewrite Heq, Z.sub_diag, (seqZ_nil (toordinal ed) 0) by lia.
    cbn [flat_map app].
    assert ((stamp next <=? stamp ed) = false) as ->
      by (apply Z.leb_gt; lia).
    assert ((time_of_day c <=? time_of_day ed) = true) as ->
      by (apply Z.leb_le; lia).
    rewrite app_nil_r. unfold last_day_hours.
    replace (stamp ed - toordinal ed * 86400000000 - microsecond c)
      with (time_of_day ed - microsecond c) by lia.
    f_equal. f_equal. change (Z.of_nat 14) with 14. lia.
Qed.

Lemma length_day_windows_flat us hs os :
  length (flat_map (day_windows us hs) os) = (length os * length hs)%nat.
Proof.
  induction os as [| o os IH]; [reflexivity |].
  cbn [flat_map length]. rewrite length_app, IH.
  unfold day_windows. rewrite length_map. lia.
Qed.

Lemma windows_length sd ed :
  valid_datetime sd = true -> valid_datetime ed = true ->
  Z.of_nat (length (windows sd ed))
  = (if datetime_le sd ed then
       14 * (toordinal ed - toordinal sd)
       + (if time_of_day sd <=? time_of_day ed
          then last_day_hours sd ed else 0)
     else 0).
Proof.
  intros Hvs Hve. unfold windows.
  destruct (datetime_le sd ed) eqn:Hle; [| reflexivity].
  rewrite datetime_le_stamp in Hle by assumption. apply Z.leb_le in Hle.
  pose proof (stamp_split sd Hvs) as [Hqs Hrs].
  pose proof (stamp_split ed Hve) as [Hqe Hre].
  rewrite length_app, length_day_windows_flat, !length_seqZ.
  destruct (time_of_day sd <=? time_of_day ed).
  - unfold day_windows. rewrite length_map, length_seqZ.
    unfold last_day_hours. lia.
  - cbn [length]. lia.
Qed.

End PlanWindows.

Section PlanTheorems.

(** X6.  For two datetimes, with the end before the last day of the
    calendar, the windows the loops visit are those of [windows]: the
    fourteen hours 10 to 23 of every day from the day of the start to the
    day before that of the end, then - only when the time of day of the
    start is not after that of the end - the hours of the day of the end
    whose start, taken with the microsecond of the start, is not after the
    end.  Their number is fourteen for each of these whole days plus the
    hours of the last day; it is zero when the start is after the end. *)
Theorem plan_by_days sd ed :
  valid_datetime sd = true -> valid_datetime ed = true ->
  toordinal ed < MAXORDINAL ->
  plan sd ed = Done (windows sd ed)
  /\ Z.of_nat (length (windows sd ed))
     = (if datetime_le sd ed then
          14 * (toordinal ed - toordinal sd)
          + (if time_of_day sd <=? time_of_day ed
             then last_day_hours sd ed else 0)
        else 0).
Proof.
  intros Hvs Hve Hmax. split.
  - unfold plan, loop_fuel. apply plan_days_windows; auto; lia.
  - apply windows_length; assumption.
Qed.

Lemma plan_by_days_witness :
  plan (dec18 0 0 0) (mk_datetime 2024 12 25 23 59 59 0)
  = Done (windows (dec18 0 0 0) (mk_datetime 2024 12 25 23 59 59 0))
  /\ length (windows (dec18 0 0 0) (mk_datetime 2024 12 25 23 59 59 0))
     = 112%nat.
Proof.
  split; [| vm_compute; reflexivity].
  apply (plan_by_days (dec18 0 0 0) (mk_datetime 2024 12 25 23 59 59 0));
    vm_compute; reflexivity.
Defined.

(** Every window of a plan is the window of an hour from 10 to 23 on the
    day of some [current_start]: a datetime at a whole number of days from
    the start, with its time of day, and not after [end_date]. *)
Lemma plan_days_inv_day fuel c ed ws :
  valid_datetime c = true ->
  plan_days fuel c ed = Done ws ->
  forall w, In w ws ->
    exists c' h, valid_datetime c' = true /\ 10 <= h < 24
                 /\ w = hour_window c' h
                 /\ datetime_gt (at_hms c' h 0 0) ed = false
                 /\ datetime_le c' ed = true
                 /\ time_of_day c' = time_of_day c
                 /\ toordinal c <= toordinal c'.
Proof.
  revert c ws. induction fuel as [| fuel IH]; intros c ws Hv Hp;
    [discriminate | rewrite plan_days_S in Hp].
  destruct (datetime_le c ed) eqn:Hle; [| injection Hp as <-; intros w []].
  apply rbind_Done_inv in Hp as (today & Hd & Hp).
  apply rbind_Done_inv in Hp as (next & Hn & Hp).
  apply rbind_Done_inv in Hp as (later & Hl & Hp).
  injection Hp as <-.
  apply plan_hours_inv in Hd; [| exact Hv | apply day_hours_range].
  apply datetime_add_inv in Hn as [Hsn Hvn].
  rewrite timedelta_new_total in Hsn.
  intros w Hw. apply in_app_iff in Hw as [Hw | Hw].
  - subst today. apply in_map_iff in Hw as (h & <- & Hin).
    apply open_hours_in in Hin as [Hin Hgt].
    apply list_elem_of_In, elem_of_seqZ in Hin.
    exists c, h. repeat split; auto; lia.
  - destruct (IH next later Hvn Hl w Hw)
      as (c' & h & Hvc' & Hh & -> & Hgt & Hle' & Htod & Hord).
    pose proof (stamp_split c Hv) as [Hqc Hrc].
    pose proof (stamp_split next Hvn) as [Hqn Hrn].
    pose proof (stamp_time_of_day c) as Htc.
    pose proof (stamp_time_of_day next) as Htn.
    exists c', h. repeat split; auto; lia.
Qed.

(** X8.  When the time of day of the start is later than that of the
    end, no window of the plan lies on the day of the end: the day loop
    compares [current_start] with its time of day, so the last day is never
    entered. *)
Theorem end_day_skipped sd ed ws :
  valid_datetime sd = true -> valid_datetime ed = true ->
  time_of_day ed < time_of_day sd ->
  plan sd ed = Done ws ->
  forall w, In w ws ->
    toordinal (fst w) < toordinal ed /\ toordinal (snd w) < toordinal ed.
Proof.
  intros Hvs Hve Hlate Hp w Hw.
  destruct (plan_days_inv_day _ _ _ _ Hvs Hp w Hw)
    as (c & h & Hvc & Hh & -> & _ & Hle & Htod & _).
  rewrite datetime_le_stamp in Hle by assumption. apply Z.leb_le in Hle.
  rewrite (stamp_time_of_day c), (stamp_time_of_day ed) in Hle.
  pose proof (time_of_day_range sd Hvs). pose proof (time_of_day_range ed Hve).
  unfold hour_window. cbn [fst snd].
  change (toordinal (at_hms c h 0 0)) with (toordinal c).
  change (toordinal (at_hms c h 59 59)) with (toordinal c). lia.
Qed.

Lemma end_day_skipped_witness :
  plan (dec18 15 0 0) (mk_datetime 2024 12 19 12 30 0 0)
  = Done (map (hour_window (dec18 15 0 0)) (seqZ 10 14))
  /\ forall w, In w (map (hour_window (dec18 15 0 0)) (seqZ 10 14)) ->
       toordinal (fst w) < toordinal (mk_datetime 2024 12 19 12 30 0 0)
       /\ toordinal (snd w) < toordinal (mk_datetime 2024 12 19 12 30 0 0).
Proof.
  split; [vm_compute; reflexivity |].
  apply (end_day_skipped (dec18 15 0 0) (mk_datetime 2024 12 19 12 30 0 0));
    vm_compute; reflexivity.
Defined.

(** X7.  When the start is not after the end and 10:00 of the day of
    the start is not after the end either, the first window of the plan is
    that of 10:00 on the day of the start, whatever the time of day of the
    start: when the start is later than 10:00 that day, the first window
    begins before the start itself. *)
Theorem first_window_at_ten sd ed ws :
  valid_datetime sd = true ->
  datetime_le sd ed = true ->
  datetime_le (at_hms sd 10 0 0) ed = true ->
  plan sd ed = Done ws ->
  (exists rest, ws = hour_window sd 10 :: rest)
  /\ (36000000000 + microsecond sd < time_of_day sd ->
      datetime_gt sd (fst (hour_window sd 10)) = true).
Proof.
  intros Hvs Hle Hten Hp. split.
  - unfold plan, loop_fuel in Hp. rewrite plan_days_S, Hle in Hp.
    apply rbind_Done_inv in Hp as (today & Hd & Hp).
    apply rbind_Done_inv in Hp as (next & Hn & Hp).
    apply rbind_Done_inv in Hp as (later & Hl & Hp).
    injection Hp as <-.
    apply plan_hours_inv in Hd; [| exact Hvs | apply day_hours_range].
    subst today. rewrite (seqZ_cons 10 14) by lia. cbn [open_hours].
    rewrite datetime_le_gt in Hten. apply negb_true_iff in Hten.
    rewrite Hten. cbn [map app]. eexists. reflexivity.
  - intros Hlate. unfold hour_window. cbn [fst].
    rewrite datetime_gt_stamp
      by (auto; apply valid_at_hms; auto; lia).
    rewrite stamp_at_hms, (stamp_time_of_day sd). apply Z.ltb_lt. lia.
Qed.

Lemma first_window_at_ten_witness :
  exists rest,
    plan (dec18 15 0 0) (mk_datetime 2024 12 19 12 30 0 0)
    = Done (hour_window (dec18 15 0 0) 10 :: rest)
    /\ datetime_gt (dec18 15 0 0) (fst (hour_window (dec18 15 0 0) 10)) = true.
Proof.
  destruct (first_window_at_ten (dec18 15 0 0)
              (mk_datetime 2024 12 19 12 30 0 0)
              (map (hour_window (dec18 15 0 0)) (seqZ 10 14))
              ltac:(vm_compute; reflexivity) ltac:(vm_compute; reflexivity)
              ltac:(vm_compute; reflexivity) ltac:(vm_compute; reflexivity))
    as [[rest Hrest] Hgt].
  exists rest. split.
  - rewrite <- Hrest. vm_compute. reflexivity.
  - apply Hgt. vm_compute. reflexivity.
Defined.

End PlanTheorems.

(** ** The order of the windows *)

Section Chronology.

Lemma chronological_app a b :
  chronological a -> chronological b ->
  (forall x y, In x a -> In y b -> stamp (snd x) < stamp (fst y)) ->
  chronological (a ++ b).
Proof.
  intros Ha Hb Hab i j w w' Hij Hi Hj.
  apply lookup_app_Some in Hi as [Hi | [Hla Hi]];
    apply lookup_app_Some in Hj as [Hj | [Hlb Hj]].
  - eapply Ha; eauto.
  - apply Hab; apply list_elem_of_In; eapply list_elem_of_lookup_2; eauto.
  - apply lookup_lt_Some in Hj. lia.
  - eapply (Hb (i - length a)%nat (j - length a)%nat); eauto. lia.
Qed.

Lemma chronological_day c n :
  chronological (map (hour_window c) (seqZ 10 n)).
Proof.
  intros i j w w' Hij Hi Hj. rewrite lookup_map in Hi, Hj.
  destruct (seqZ 10 n !! i) as [h |] eqn:Ehi; [| discriminate].
  destruct (seqZ 10 n !! j) as [h' |] eqn:Ehj; [| discriminate].
  injection Hi as <-. injection Hj as <-.
  apply lookup_seqZ in Ehi as [-> _]. apply lookup_seqZ in Ehj as [-> _].
  unfold hour_window. cbn [fst snd]. rewrite !stamp_at_hms. lia.
Qed.

Lemma plan_days_chronological fuel c ed ws :
  valid_datetime c = true -> valid_datetime ed = true ->
  plan_days fuel c ed = Done ws ->
  chronological ws
  /\ forall w, In w ws -> toordinal c * 86400000000 <= stamp (fst w).
Proof.
  intros Hv Hve. revert c ws Hv.
  induction fuel as [| fuel IH]; intros c ws Hv Hp;
    [discriminate | rewrite plan_days_S in Hp].
  destruct (datetime_le c ed) eqn:Hle.
  2: { injection Hp as <-. split; [| intros w []].
       intros i j w w' _ Hi. destruct i; discriminate. }
  apply rbind_Done_inv in Hp as (today & Hd & Hp).
  apply rbind_Done_inv in Hp as (next & Hn & Hp).
  apply rbind_Done_inv in Hp as (later & Hl & Hp).
  injection Hp as <-.
  apply plan_hours_inv in Hd; [| exact Hv | apply day_hours_range].
  change 14 with (Z.of_nat 14) in Hd.
  rewrite (open_hours_seq c ed 14 10 Hv Hve) in Hd by lia.
  apply datetime_add_inv in Hn as [Hsn Hvn].
  rewrite timedelta_new_total in Hsn.
  destruct (IH next later Hvn Hl) as [Hchr Hlow].
  pose proof (stamp_split c Hv) as [Hqc Hrc].
  pose proof (stamp_split next Hvn) as [Hqn Hrn].
  pose proof (proj1 (valid_datetime_spec c) Hv) as Hc.
  assert (Htoday : forall w, In w today ->
            toordinal c * 86400000000 <= stamp (fst w)
            /\ stamp (snd w) < (toordinal c + 1) * 86400000000).
  { intros w Hw. subst today. apply in_map_iff in Hw as (h & <- & Hin).
    apply list_elem_of_In, elem_of_seqZ in Hin.
    unfold hour_window. cbn [fst snd]. rewrite !stamp_at_hms. lia. }
  split.
  - apply chronological_app; [subst today; apply chronological_day | exact Hchr |].
    intros x y Hx Hy. specialize (Htoday x Hx). specialize (Hlow y Hy). lia.
  - intros w Hw. apply in_app_iff in Hw as [Hw | Hw].
    + apply Htoday; exact Hw.
    + specialize (Hlow w Hw). lia.
Qed.

(** X9.  The windows of a plan come in the order of time and never
    overlap: each ends before the next begins.  Each lies within one hour
    of one day, from 10 to 23, begins at minute 0, second 0 and ends 3599
    seconds later. *)
Theorem plan_chronological sd ed ws :
  valid_datetime sd = true -> valid_datetime ed = true ->
  plan sd ed = Done ws ->
  chronological ws
  /\ forall w, In w ws ->
       stamp (snd w) - stamp (fst w) = 3599 * 1000000
       /\ toordinal (snd w) = toordinal (fst w)
       /\ hour (snd w) = hour (fst w) /\ 10 <= hour (fst w) < 24
       /\ minute (fst w) = 0 /\ second (fst w) = 0.
Proof.
  intros Hvs Hve Hp. split.
  - apply (plan_days_chronological _ _ _ _ Hvs Hve Hp).
  - intros w Hw.
    destruct (plan_days_inv _ _ _ _ Hvs Hp w Hw) as (c & h & _ & Hh & -> & _).
    unfold hour_window. cbn [fst snd]. rewrite !stamp_at_hms.
    cbn [at_hms hour minute second]. repeat split; try reflexivity; lia.
Qed.

Lemma plan_chronological_witness :
  chronological (windows (dec18 0 0 0) (mk_datetime 2024 12 25 23 59 59 0)).
Proof.
  apply (plan_chronological (dec18 0 0 0)
           (mk_datetime 2024 12 25 23 59 59 0));
    vm_compute; reflexivity.
Defined.

End Chronology.

(** ** Termination and the number of requests *)

Section FetchTermination.

Context (E : env) (base : url) (t : string) (i : pyval).

Lemma bind_fueled {A B} (m : M A) (k : A -> M B) w :
  fueled (fst (m w)) ->
  (forall a w1, m w = (Done a, w1) -> fueled (fst (k a w1))) ->
  fueled (fst (bind m k w)).
Proof.
  unfold bind, fueled. intros Hm Hk.
  destruct (m w) as [[a | e |] w1]; cbn [fst] in *;
    [apply Hk; reflexivity | discriminate | congruence].
Qed.

Lemma fetch_window_fueled s e w :
  fueled (fst (fetch_window E base t i s e w)).
Proof.
  pose proof (fetch_window_spec E base t i s e w) as H. unfold fueled.
  destruct (window_result E base t i (length (sent w)) (s, e))
    as [[rows msgs] |].
  - rewrite H. discriminate.
  - destruct H as (x & w' & ->). discriminate.
Qed.

Lemma hours_loop_fueled c ed hs w :
  fueled (fst (hours_loop E base t i c ed hs w)).
Proof.
  revert w. induction hs as [| h rest IH]; intros w; [discriminate |].
  rewrite hours_loop_cons. pose proof (fueled_window_of c h) as Hw.
  destruct (window_of c h) as [[s e] | x |];
    [| discriminate | destruct Hw; reflexivity].
  destruct (datetime_gt s ed); [discriminate |].
  apply bind_fueled; [apply fetch_window_fueled | intros; apply IH].
Qed.

(** The day loop ends with the fuel of [loop_fuel] or more: it returns or
    raises. *)
Lemma days_loop_fueled fuel c ed w :
  valid_datetime c = true -> valid_datetime ed = true ->
  (Z.to_nat (toordinal ed - toordinal c + 1) < fuel)%nat ->
  fueled (fst (days_loop fuel E base t i c ed w)).
Proof.
  intros Hv Hve. revert c w Hv.
  induction fuel as [| fuel IH]; intros c w Hv Hf; [lia |].
  rewrite days_loop_S.
  destruct (datetime_le c ed) eqn:Hle; [| discriminate].
  rewrite datetime_le_stamp in Hle by assumption. apply Z.leb_le in Hle.
  apply bind_fueled; [apply hours_loop_fueled |].
  intros _ w1 _. rewrite bind_lift.
  pose proof (fueled_datetime_add c (timedelta_new 1 0 0 0 0)) as Hfa.
  destruct (datetime_add c (timedelta_new 1 0 0 0 0)) as [next | x |] eqn:Hn;
    [| discriminate | destruct Hfa; reflexivity].
  apply datetime_add_inv in Hn as [Hsn Hvn].
  rewrite timedelta_new_total in Hsn.
  pose proof (stamp_split c Hv) as [Hqc Hrc].
  pose proof (stamp_split next Hvn) as [Hqn Hrn].
  pose proof (stamp_split ed Hve) as [Hqe Hre].
  apply IH; [exact Hvn | lia].
Qed.

(** No part of the fetch sends more than one request per window. *)
Lemma bind_sent_le {A B} (m : M A) (k : A -> M B) w (n1 n2 : nat) :
  (length (sent (snd (m w))) <= length (sent w) + n1)%nat ->
  (forall a w1, m w = (Done a, w1) ->
     (length (sent (snd (k a w1))) <= length (sent w1) + n2)%nat) ->
  (length (sent (snd (bind m k w))) <= length (sent w) + n1 + n2)%nat.
Proof.
  unfold bind. intros Hm Hk.
  destruct (m w) as [[a | e |] w1]; cbn [snd] in *; [| lia ..].
  specialize (Hk a w1 eq_refl). lia.
Qed.

Lemma append_candles_sent s data w :
  sent (snd (append_candles t i s data w)) = sent w.
Proof.
  revert w. induction data as [| c rest IH]; intros w; [reflexivity |].
  cbn [append_candles]. rewrite bind_lift.
  destruct (candle_row t i s c) as [r | x |]; [| reflexivity ..].
  unfold bind at 1. unfold append_row at 1. rewrite IH. reflexivity.
Qed.

Lemma fetch_window_sent s e w :
  sent (snd (fetch_window E base t i s e w))
  = sent w ++ [window_request base i (s, e)].
Proof.
  unfold fetch_window, try_except. rewrite window_body_run. cbv zeta.
  destruct (http E _ _) as [x | r].
  { destruct (is_RequestException x); reflexivity. }
  destruct ((400 <=? _) && _); [reflexivity |].
  destruct (json_body r) as [x | body].
  { destruct (is_RequestException x); reflexivity. }
  destruct (body_data body) as [data | x |].
  - pose proof (append_candles_sent s data
                  (after_request w (window_request base i (s, e)))) as Hs.
    destruct (append_candles t i s data _) as [[u | x |] w']; cbn [snd] in *.
    + exact Hs.
    + destruct (is_RequestException x); [| exact Hs].
      unfold print. cbn [snd sent]. exact Hs.
    + exact Hs.
  - destruct (is_RequestException x); reflexivity.
  - reflexivity.
Qed.

Lemma hours_loop_sent_le c ed hs w :
  (length (sent (snd (hours_loop E base t i c ed hs w)))
   <= length (sent w) + length hs)%nat.
Proof.
  revert w. induction hs as [| h rest IH]; intros w; [cbn; lia |].
  rewrite hours_loop_cons.
  destruct (window_of c h) as [[s e] | x |]; [| cbn; lia ..].
  destruct (datetime_gt s ed); [cbn; lia |].
  pose proof (bind_sent_le (fetch_window E base t i s e)
                (fun _ => hours_loop E base t i c ed rest) w 1 (length rest))
    as Hb.
  cbn [length]. etransitivity; [apply Hb |]; [| intros; apply IH | lia].
  rewrite fetch_window_sent, length_app. cbn [length]. lia.
Qed.

Lemma days_loop_sent_le fuel c ed w :
  valid_datetime c = true -> valid_datetime ed = true ->
  (length (sent (snd (days_loop fuel E base t i c ed w)))
   <= length (sent w) + 14 * Z.to_nat (toordinal ed - toordinal c + 1))%nat.
Proof.
  intros Hv Hve. revert c w Hv.
  induction fuel as [| fuel IH]; intros c w Hv; [cbn; lia |].
  rewrite days_loop_S.
  destruct (datetime_le c ed) eqn:Hle; [| cbn [snd]; lia].
  rewrite datetime_le_stamp in Hle by assumption. apply Z.leb_le in Hle.
  pose proof (stamp_split c Hv) as [Hqc Hrc].
  pose proof (stamp_split ed Hve) as [Hqe Hre].
  pose proof (bind_sent_le (hours_loop E base t i c ed (seqZ 10 14))
    (fun _ => bind (lift (datetime_add c (timedelta_new 1 0 0 0 0)))
                (fun next => days_loop fuel E base t i next ed)) w 14
    (14 * Z.to_nat (toordinal ed - toordinal c))) as Hb.
  etransitivity; [apply Hb |]; [| | lia].
  - etransitivity; [apply hours_loop_sent_le |].
    rewrite length_seqZ. lia.
  - intros _ w1 _. rewrite bind_lift.
    destruct (datetime_add c (timedelta_new 1 0 0 0 0)) as [next | x |] eqn:Hn;
      [| cbn [snd]; lia ..].
    apply datetime_add_inv in Hn as [Hsn Hvn].
    rewrite timedelta_new_total in Hsn.
    pose proof (stamp_split next Hvn) as [Hqn Hrn].
    etransitivity; [apply (IH next w1 Hvn) |].
    replace (toordinal ed - toordinal next + 1)
      with (toordinal ed - toordinal c) by lia.
    lia.
Qed.

End FetchTermination.

Section ResolverLocal.

Lemma local_fueled {A} (r : result A) : local r -> fueled r.
Proof. destruct r; simpl; [discriminate | discriminate | tauto]. Qed.

Lemma local_getitem_str v k : local (getitem_str v k).
Proof.
  destruct v; simpl; auto. destruct (assoc k kvs); simpl; auto.
Qed.

Lemma local_contains k v : local (contains k v).
Proof. destruct v; simpl; auto. Qed.

Lemma local_py_len v : local (py_len v).
Proof. destruct v; simpl; auto. Qed.

Lemma local_description_dict acc items : local (description_dict acc items).
Proof.
  revert acc. induction items as [| item rest IH]; intros acc; simpl; [exact I |].
  apply local_rbind; [| intros; apply IH].
  unfold description_entry.
  apply local_rbind; [apply local_getitem_int | intros k].
  apply local_rbind; [apply local_getitem_int | intros v].
  destruct k; simpl; auto.
Qed.

(** Reading the decoded body raises no exception of class
    [RequestException]. *)
Lemma local_parse_security_info data : local (parse_security_info data).
Proof.
  unfold parse_security_info.
  apply local_rbind.
  { apply local_rbind; [apply local_contains | intros d].
    destruct d; [| exact I].
    apply local_rbind; [apply local_contains | intros; exact I]. }
  intros missing. destruct missing; [reflexivity |].
  apply local_rbind.
  { apply local_rbind; [apply local_getitem_str | intros; apply local_getitem_str]. }
  intros description.
  apply local_rbind; [apply local_iterate | intros items].
  apply local_rbind; [apply local_description_dict | intros dd]. cbv zeta.
  destruct (negb _); [reflexivity |].
  apply local_rbind.
  { apply local_rbind; [apply local_getitem_str | intros; apply local_getitem_str]. }
  intros boards_data.
  apply local_rbind.
  { destruct (negb _); [exact I |].
    apply local_rbind; [apply local_getitem_int | intros r].
    apply local_rbind; [apply local_py_len | intros; exact I]. }
  intros short. destruct short; [reflexivity |].
  apply local_rbind; [apply local_getitem_int | intros first_row].
  apply local_rbind; [apply local_getitem_int | intros mkt].
  apply local_rbind; [apply local_getitem_int | intros eng]. exact I.
Qed.

Lemma get_security_info_fueled E t w :
  fueled (fst (get_security_info E (PyVal (VStr t)) w)).
Proof.
  rewrite get_security_info_run. cbv zeta. unfold fueled.
  destruct (http E _ _) as [x | r].
  - destruct (is_RequestException x); discriminate.
  - destruct ((400 <=? _) && _); [discriminate |].
    destruct (json_body r) as [x | data].
    + destruct (is_ValueError x); discriminate.
    + cbn [fst]. apply local_fueled, local_parse_security_info.
Qed.

Lemma get_security_info_sent E t w :
  sent (snd (get_security_info E (PyVal (VStr t)) w))
  = sent w ++ [security_request t].
Proof.
  rewrite get_security_info_run. cbv zeta.
  destruct (http E _ _) as [x | r].
  - destruct (is_RequestException x); reflexivity.
  - destruct ((400 <=? _) && _); [reflexivity |].
    destruct (json_body r) as [x | data]; [| reflexivity].
    destruct (is_ValueError x); reflexivity.
Qed.

End ResolverLocal.

Section FetchBounds.

Lemma get_candles_fueled E t sd ed i w0 :
  valid_datetime sd = true -> valid_datetime ed = true ->
  fueled (fst (get_candles E (PyVal (VStr t)) (PyDatetime sd)
                 (PyDatetime ed) i w0)).
Proof.
  intros Hvs Hve. rewrite get_candles_str.
  apply bind_fueled; [apply get_security_info_fueled |].
  intros info w1 _. rewrite bind_reset, bind_read.
  pose proof (days_loop_fueled E
                (CandlesUrl (engine info) (market info) t) t i
                (loop_fuel sd ed) sd ed
                (mk_world (sent w1) (printed w1) (written w1) [])
                Hvs Hve ltac:(unfold loop_fuel; lia)) as Hd.
  revert Hd. unfold fueled.
  destruct (days_loop _ _ _ _ _ _ _ _) as [[a | e |] w']; cbn [fst];
    [discriminate | discriminate | tauto].
Qed.

Lemma get_candles_sent_le E t sd ed i w0 :
  valid_datetime sd = true -> valid_datetime ed = true ->
  (length (sent (snd (get_candles E (PyVal (VStr t)) (PyDatetime sd)
                        (PyDatetime ed) i w0)))
   <= length (sent w0) + 1
      + 14 * Z.to_nat (toordinal ed - toordinal sd + 1))%nat.
Proof.
  intros Hvs Hve. rewrite get_candles_str.
  apply bind_sent_le.
  - rewrite get_security_info_sent, length_app. cbn [length]. lia.
  - intros info w1 _. rewrite bind_reset, bind_read.
    pose proof (days_loop_sent_le E
                  (CandlesUrl (engine info) (market info) t) t i
                  (loop_fuel sd ed) sd ed
                  (mk_world (sent w1) (printed w1) (written w1) [])
                  Hvs Hve) as Hd.
    cbn [sent] in Hd.
    destruct (days_loop _ _ _ _ _ _ _ _) as [[a | e |] w']; cbn [snd] in *;
      exact Hd.
Qed.

(** X13.  The fetch ends.  For a string ticker and two datetimes the
    day loop stops within a test per day from the day of the start to that
    of the end and one more: the call returns a table or raises.  Whatever
    happens, it has sent no more than the request for the instrument and
    fourteen requests for each of these days. *)
Theorem fetch_terminates E t sd ed i w0 :
  valid_datetime sd = true -> valid_datetime ed = true ->
  exists w,
    ((exists tbl, get_candles E (PyVal (VStr t)) (PyDatetime sd)
                    (PyDatetime ed) i w0 = (Done tbl, w))
     \/ (exists e, get_candles E (PyVal (VStr t)) (PyDatetime sd)
                     (PyDatetime ed) i w0 = (Raised e, w)))
    /\ (length (sent w)
        <= length (sent w0) + 1
           + 14 * Z.to_nat (toordinal ed - toordinal sd + 1))%nat.
Proof.
  intros Hvs Hve.
  pose proof (get_candles_fueled E t sd ed i w0 Hvs Hve) as Hf.
  pose proof (get_candles_sent_le E t sd ed i w0 Hvs Hve) as Hs.
  revert Hf Hs. unfold fueled.
  destruct (get_candles _ _ _ _ _ _) as [[tbl | e |] w]; cbn [fst snd];
    intros Hf Hs.
  - exists w. split; [left; eauto | exact Hs].
  - exists w. split; [right; eauto | exact Hs].
  - destruct Hf. reflexivity.
Qed.

Lemma fetch_terminates_witness :
  exists w,
    ((exists tbl, get_candles (sample_env [ok lkoh_info]) (PyVal (VStr "LKOH"))
                    (PyDatetime (dec18 0 0 0)) (PyDatetime (dec18 12 30 0))
                    (VInt 1) world0 = (Done tbl, w))
     \/ (exists e, get_candles (sample_env [ok lkoh_info]) (PyVal (VStr "LKOH"))
                     (PyDatetime (dec18 0 0 0)) (PyDatetime (dec18 12 30 0))
                     (VInt 1) world0 = (Raised e, w)))
    /\ (length (sent w) <= 15)%nat.
Proof.
  apply (fetch_terminates (sample_env [ok lkoh_info]) "LKOH" (dec18 0 0 0)
           (dec18 12 30 0) (VInt 1) world0); reflexivity.
Defined.

End FetchBounds.

(** ** The end of the calendar *)

Section CalendarEnd.

Lemma plan_hours_last_day c ed hs :
  valid_datetime c = true -> toordinal c = MAXORDINAL -> day_hours hs ->
  (exists today, plan_hours c ed hs = Done today)
  \/ plan_hours c ed hs = Raised OverflowError.
Proof.
  intros Hv Hmax Hhs.
  induction Hhs as [| h rest Hh Hrest IH]; [left; eexists; reflexivity |].
  rewrite plan_hours_cons.
  destruct (Z_lt_le_dec h 23) as [H23 | H23].
  - rewrite window_of_spec by (auto; lia). cbn [fst].
    destruct (datetime_gt (at_hms c h 0 0) ed); [left; eexists; reflexivity |].
    destruct IH as [[today ->] | ->]; [left; eexists; reflexivity | right; reflexivity].
  - assert (h = 23) as -> by lia.
    rewrite window_of_overflow by assumption. right. reflexivity.
Qed.

Lemma plan_days_overflow fuel c ed :
  valid_datetime c = true -> valid_datetime ed = true ->
  toordinal ed = MAXORDINAL ->
  datetime_le c ed = true -> time_of_day c <= time_of_day ed ->
  (Z.to_nat (toordinal ed - toordinal c + 1) < fuel)%nat ->
  plan_days fuel c ed = Raised OverflowError.
Proof.
  intros Hv Hve Hmax. revert c Hv.
  induction fuel as [| fuel IH]; intros c Hv Hle Htod Hf; [lia |].
  rewrite plan_days_S, Hle.
  rewrite datetime_le_stamp in Hle by assumption. apply Z.leb_le in Hle.
  pose proof (stamp_split c Hv) as [Hqc Hrc].
  pose proof (stamp_split ed Hve) as [Hqe Hre].
  destruct (Z_lt_le_dec (toordinal c) MAXORDINAL) as [Hlt | Hge].
  - rewrite plan_hours_done by (auto using day_hours_range).
    rewrite rbind_Done.
    destruct (next_day_spec c Hv Hlt) as (next & -> & Hvn & Hsn & Hon).
    rewrite rbind_Done.
    pose proof (stamp_time_of_day c) as Htc.
    pose proof (stamp_time_of_day ed) as Hte.
    pose proof (stamp_time_of_day next) as Htn.
    rewrite (IH next Hvn); [reflexivity | | lia | lia].
    rewrite datetime_le_stamp by assumption. apply Z.leb_le. lia.
  - assert (Heq : toordinal c = MAXORDINAL) by lia.
    destruct (plan_hours_last_day c ed (seqZ 10 14) Hv Heq day_hours_range)
      as [[today ->] | ->]; [| reflexivity].
    rewrite rbind_Done, next_day_overflow by assumption. reflexivity.
Qed.

(** X12.  The last day of the calendar cannot be fetched.  When the
    end is on 9999-12-31 and the day loop reaches that day (the start is
    not after the end, and its time of day is not after that of the end),
    the date arithmetic raises [OverflowError]: no plan is produced and
    [get_candles] raises instead of returning a table. *)
Theorem calendar_end_overflows sd ed :
  valid_datetime sd = true -> valid_datetime ed = true ->
  toordinal ed = MAXORDINAL ->
  datetime_le sd ed = true -> time_of_day sd <= time_of_day ed ->
  plan sd ed = Raised OverflowError
  /\ forall E t i w0,
       exists e w, get_candles E (PyVal (VStr t)) (PyDatetime sd)
                     (PyDatetime ed) i w0 = (Raised e, w).
Proof.
  intros Hvs Hve Hmax Hle Htod.
  assert (Hp : plan sd ed = Raised OverflowError).
  { unfold plan, loop_fuel. apply plan_days_overflow; auto; lia. }
  split; [exact Hp |]. intros E t i w0.
  pose proof (get_candles_fueled E t sd ed i w0 Hvs Hve) as Hf.
  destruct (get_candles E (PyVal (VStr t)) (PyDatetime sd) (PyDatetime ed)
              i w0) as [[tbl | e |] w] eqn:Hd;
    [| eauto | destruct Hf; reflexivity].
  apply get_candles_inv in Hd
    as (t' & sd' & ed' & info & w1 & ws & msgs
        & _ & [= <-] & [= <-] & _ & Hp' & _).
  rewrite Hp in Hp'. discriminate.
Qed.

End CalendarEnd.

Lemma calendar_end_overflows_witness :
  plan (mk_datetime 9999 12 30 0 0 0 0) (mk_datetime 9999 12 31 12 0 0 0)
  = Raised OverflowError.
Proof.
  apply (calendar_end_overflows (mk_datetime 9999 12 30 0 0 0 0)
           (mk_datetime 9999 12 31 12 0 0 0));
    vm_compute; first [reflexivity | discriminate].
Defined.

(** ** Edges of the fetch and argument checks *)

Section FetchEdges.

(** X11.  A start after the end is not an error: once the instrument
    is resolved, [get_candles] returns the empty table, having planned no
    window and sent no request for candles. *)
Theorem reversed_range_is_empty E t sd ed i w0 info w1 :
  get_security_info E (PyVal (VStr t)) w0 = (Done info, w1) ->
  datetime_gt sd ed = true ->
  plan sd ed = Done []
  /\ get_candles E (PyVal (VStr t)) (PyDatetime sd) (PyDatetime ed) i w0
     = (Done [], mk_world (sent w1) (printed w1) (written w1) []).
Proof.
  intros Hinfo Hgt.
  assert (Hp : plan sd ed = Done []).
  { unfold plan, loop_fuel. rewrite plan_days_S, datetime_le_gt, Hgt.
    reflexivity. }
  split; [exact Hp |].
  pose proof (get_candles_spec E i t sd ed w0 info w1 Hinfo) as Hs.
  rewrite Hp in Hs. cbn [run_windows map] in Hs.
  rewrite !app_nil_r in Hs. exact Hs.
Qed.

Lemma reversed_range_is_empty_witness :
  get_candles (sample_env [ok lkoh_info]) (PyVal (VStr "LKOH"))
    (PyDatetime (dec18 12 0 0)) (PyDatetime (dec18 11 0 0)) (VInt 1) world0
  = (Done [], after_info).
Proof.
  apply (reversed_range_is_empty (sample_env [ok lkoh_info]) "LKOH"
           (dec18 12 0 0) (dec18 11 0 0) (VInt 1) world0 lkoh_info_result
           after_info); vm_compute; reflexivity.
Defined.





End FetchEdges.

(** ** The resolver: exceptions and checks *)

Section ResolverTheorems.

(** X1.  The exceptions of [get_security_info].  A request that fails
    in the transport with an exception of class [RequestException], or is
    answered with a status from 400 to 599, raises [RuntimeError]; a body
    that does not decode raises [ValueError]; in both cases the request has
    been sent.  So, as long as decoding raises only decode errors, no
    exception of class [RequestException] ever leaves the resolver. *)
Theorem resolver_errors E t w :
  let o := http E (length (sent w)) (security_request t) in
  let w1 := after_request w (security_request t) in
  (request_failure o = true ->
   get_security_info E (PyVal (VStr t)) w = (Raised RuntimeError, w1))
  /\ (forall r x,
        o = Responds r -> request_failure o = false ->
        json_body r = inl x -> is_ValueError x = true ->
        get_security_info E (PyVal (VStr t)) w = (Raised ValueError, w1))
  /\ ((forall r x, o = Responds r -> json_body r = inl x ->
                   is_ValueError x = true) ->
      forall e w', get_security_info E (PyVal (VStr t)) w = (Raised e, w') ->
                   is_RequestException e = false).
Proof.
  cbv zeta. rewrite get_security_info_run. cbv zeta.
  destruct (http E (length (sent w)) (security_request t)) as [x | r];
    cbn [request_failure].
  - split; [intros ->; reflexivity | split].
    + intros r y [=].
    + intros _ e w'. destruct (is_RequestException x) eqn:Hx.
      * intros [= <- _]. reflexivity.
      * intros [= <- _]. exact Hx.
  - split; [intros ->; reflexivity | split].
    + intros r' x [= <-] -> -> ->. reflexivity.
    + intros Hjson e w'.
      destruct ((400 <=? _) && _); [intros [= <- _]; reflexivity |].
      destruct (json_body r) as [x | data] eqn:Hj.
      * rewrite (Hjson r x eq_refl Hj). intros [= <- _]. reflexivity.
      * pose proof (local_parse_security_info data) as Hl.
        destruct (parse_security_info data) as [info | y |];
          intros [= <- _]. exact Hl.
Qed.

Lemma resolver_errors_witness :
  get_security_info (sample_env [Fails Timeout]) (PyVal (VStr "LKOH")) world0
  = (Raised RuntimeError, after_info)
  /\ get_security_info
       (sample_env [Responds (mk_response 200 (inl RequestsJSONDecodeError))])
       (PyVal (VStr "LKOH")) world0
     = (Raised ValueError, after_info).
Proof.
  split.
  - apply (proj1 (resolver_errors (sample_env [Fails Timeout]) "LKOH" world0)).
    reflexivity.
  - apply (proj1 (proj2 (resolver_errors
             (sample_env [Responds (mk_response 200
                                      (inl RequestsJSONDecodeError))])
             "LKOH" world0))
             (mk_response 200 (inl RequestsJSONDecodeError))
             RequestsJSONDecodeError); reflexivity.
Defined.




End ResolverTheorems.

Section ResolverRejects.





End ResolverRejects.

(** ** The bars of the lookups *)

Section BarFacts.

Context (E : env).

Lemma local_py_float v : local (py_float (float_of_str E) v).
Proof.
  destruct v; simpl; auto.
  - destruct (is_infinity _); reflexivity.
  - destruct (float_of_str E s); reflexivity.
Qed.

Lemma local_float_field row j : local (float_field E row j).
Proof.
  unfold float_field.
  apply local_rbind; [apply local_getitem_int | intros; apply local_py_float].
Qed.

(** Six conversions in a row: when one of them raises, so does the
    whole. *)
Lemma six_floats_raise row (j0 j1 j2 j3 j4 j5 : Z) j e
    (k : float -> float -> float -> float -> float -> float -> bar) :
  In j [j0; j1; j2; j3; j4; j5] ->
  float_field E row j = Raised e ->
  exists e',
    (let* a0 := float_field E row j0 in
     let* a1 := float_field E row j1 in
     let* a2 := float_field E row j2 in
     let* a3 := float_field E row j3 in
     let* a4 := float_field E row j4 in
     let* a5 := float_field E row j5 in
     Done (k a0 a1 a2 a3 a4 a5)) = Raised e'
    /\ is_RequestException e' = false.
Proof.
  intros Hj He.
  pose proof (local_float_field row j0) as H0.
  pose proof (local_float_field row j1) as H1.
  pose proof (local_float_field row j2) as H2.
  pose proof (local_float_field row j3) as H3.
  pose proof (local_float_field row j4) as H4.
  pose proof (local_float_field row j5) as H5.
  cbn [In] in Hj.
  destruct (float_field E row j0) as [a0 | x0 |] eqn:E0; cbn [rbind];
    [| eauto | destruct H0].
  destruct (float_field E row j1) as [a1 | x1 |] eqn:E1; cbn [rbind];
    [| eauto | destruct H1].
  destruct (float_field E row j2) as [a2 | x2 |] eqn:E2; cbn [rbind];
    [| eauto | destruct H2].
  destruct (float_field E row j3) as [a3 | x3 |] eqn:E3; cbn [rbind];
    [| eauto | destruct H3].
  destruct (float_field E row j4) as [a4 | x4 |] eqn:E4; cbn [rbind];
    [| eauto | destruct H4].
  destruct (float_field E row j5) as [a5 | x5 |] eqn:E5; cbn [rbind];
    [| eauto | destruct H5].
  exfalso.
  destruct Hj as [<- | [<- | [<- | [<- | [<- | [<- | []]]]]]]; congruence.
Qed.

Lemma index_seq_last {A} (l : list A) (x : A) :
  index_seq (l ++ [x]) (-1) = Done x.
Proof.
  unfold index_seq. rewrite length_app. cbn [length].
  change (-1 <? 0) with true. cbv iota.
  replace (-1 + Z.of_nat (length l + 1)) with (Z.of_nat (length l)) by lia.
  assert ((0 <=? Z.of_nat (length l))
          && (Z.of_nat (length l) <? Z.of_nat (length l + 1)) = true) as ->
    by (apply andb_true_iff; split; [apply Z.leb_le | apply Z.ltb_lt]; lia).
  rewrite Nat2Z.id, lookup_app_r, Nat.sub_diag by lia. reflexivity.
Qed.

Lemma try_request_raised {A} u ps tmo (k : pyval -> M A) h w r body e w2 :
  http E (length (sent w)) (mk_request u ps tmo) = Responds r ->
  request_error (Responds r) = None ->
  json_body r = inr body ->
  k body (after_request w (mk_request u ps tmo)) = (Raised e, w2) ->
  is_RequestException e = false ->
  try_except
    (bind (requests_get E u ps tmo)
       (fun response =>
          bind (raise_for_status response) (fun _ => bind (json response) k)))
    is_RequestException h w
  = (Raised e, w2).
Proof.
  intros Ho Hx Hj Hk He. unfold try_except, request_error in *.
  rewrite request_json_run. cbv zeta. rewrite Ho.
  destruct ((400 <=? _) && _); [discriminate |].
  rewrite Hj, Hk, He. reflexivity.
Qed.

End BarFacts.

Section BarTheorems.

(** X17.  The bar of [get_last_candle].  For an answer whose data is
    a list that is not empty, the bar is made of the last candle of the
    list: its fields 0, 1, 2, 3, 4 and 5, each converted by [float], as
    open, close, high, low, value and volume.  Two requests have been sent
    and nothing is printed. *)
Theorem last_candle_fields E t st et i w0 info w1 resp body c rows row
    o cl hi l v vol :
  get_security_info E (PyVal (VStr t)) w0 = (Done info, w1) ->
  http E (length (sent w1))
    (window_request (CandlesUrl (engine info) (market info) t) i (st, et))
  = Responds resp ->
  request_error (Responds resp) = None ->
  json_body resp = inr body ->
  dict_get body "candles" (VDict []) = Done c ->
  dict_get c "data" (VList []) = Done (VList (rows ++ [row])) ->
  float_field E row 0 = Done o ->
  float_field E row 1 = Done cl ->
  float_field E row 2 = Done hi ->
  float_field E row 3 = Done l ->
  float_field E row 4 = Done v ->
  float_field E row 5 = Done vol ->
  get_last_candle E (PyVal (VStr t)) (PyDatetime st) (PyDatetime et) i w0
  = (Done (Some {| open := o; close := cl; high := hi; low := l;
                   value := v; volume := vol |}),
     extend w1
       [window_request (CandlesUrl (engine info) (market info) t) i (st, et)]
       [] []).
Proof.
  intros Hinfo Ho Hx Hj Hc Hd H0 H1 H2 H3 H4 H5.
  rewrite get_last_candle_str, (bind_Done _ _ _ _ _ Hinfo).
  eapply try_request_ok; [exact Ho | exact Hx | exact Hj |].
  rewrite bind_lift, Hc. cbn [rbind]. rewrite Hd.
  assert (truthy (VList (rows ++ [row])) = true) as ->
    by (destruct rows; reflexivity).
  rewrite bind_lift. cbn [getitem_int]. rewrite index_seq_last.
  cbn [rbind]. rewrite H0, H1, H2, H3, H4, H5. cbn [rbind].
  unfold ret.
  rewrite <- (extend_request w1
                (window_request (CandlesUrl (engine info) (market info) t)
                   i (st, et)) []).
  rewrite app_nil_r. reflexivity.
Qed.

Lemma last_candle_fields_witness :
  fst (get_last_candle
         (sample_env [ok lkoh_info;
                      ok (candles_body
                            [VList [VInt 1; VInt 2; VInt 3; VInt 4; VInt 5;
                                    VInt 6; VStr "2024-12-27 18:17:00";
                                    VStr "2024-12-27 18:17:59"];
                             lkoh_candle])])
         (PyVal (VStr "LKOH")) (PyDatetime (dec18 18 15 0))
         (PyDatetime (dec18 18 30 0)) (VInt 1) world0)
  = Done (Some {| open := 6962; close := 6963; high := 6963; low := 6961.5;
                  value := 487339.5; volume := 70 |}).
Proof.
  rewrite (last_candle_fields _ "LKOH" (dec18 18 15 0) (dec18 18 30 0) (VInt 1)
             world0 lkoh_info_result after_info
             (mk_response 200 (inr (candles_body
                            [VList [VInt 1; VInt 2; VInt 3; VInt 4; VInt 5;
                                    VInt 6; VStr "2024-12-27 18:17:00";
                                    VStr "2024-12-27 18:17:59"];
                             lkoh_candle])))
             (candles_body
                            [VList [VInt 1; VInt 2; VInt 3; VInt 4; VInt 5;
                                    VInt 6; VStr "2024-12-27 18:17:00";
                                    VStr "2024-12-27 18:17:59"];
                             lkoh_candle])
             (VDict [("data", VList
                            [VList [VInt 1; VInt 2; VInt 3; VInt 4; VInt 5;
                                    VInt 6; VStr "2024-12-27 18:17:00";
                                    VStr "2024-12-27 18:17:59"];
                             lkoh_candle])])
             [VList [VInt 1; VInt 2; VInt 3; VInt 4; VInt 5;
                                    VInt 6; VStr "2024-12-27 18:17:00";
                                    VStr "2024-12-27 18:17:59"]]
             lkoh_candle
             6962 6963 6963 6961.5 487339.5 70);
    [reflexivity | vm_compute; reflexivity ..].
Defined.

(** X18.  A field that does not convert.  When the answer has data but
    one of the six fields read from the row - 6, 11, 8, 7, 5, 12 of the
    first row for [get_last_history_candle], 0 to 5 of the last candle for
    [get_last_candle] - is missing or is not a number (a null price, for
    one), the lookup raises: the exception is not of class
    [RequestException], so the [except] clause lets it through, and neither
    a bar nor [None] is returned. *)
Theorem bar_conversion_errors E t w0 info w1 resp body :
  get_security_info E (PyVal (VStr t)) w0 = (Done info, w1) ->
  request_error (Responds resp) = None ->
  json_body resp = inr body ->
  (forall h data row j e,
      http E (length (sent w1)) (history_request info t) = Responds resp ->
      dict_get body "history" (VDict []) = Done h ->
      dict_get h "data" (VList []) = Done data ->
      truthy data = true ->
      getitem_int data 0 = Done row ->
      In j [6; 11; 8; 7; 5; 12] ->
      float_field E row j = Raised e ->
      exists e',
        get_last_history_candle E (PyVal (VStr t)) w0
        = (Raised e', extend w1 [history_request info t] [] [])
        /\ is_RequestException e' = false)
  /\ (forall st et i c rows row j e,
        http E (length (sent w1))
          (window_request (CandlesUrl (engine info) (market info) t) i
             (st, et))
        = Responds resp ->
        dict_get body "candles" (VDict []) = Done c ->
        dict_get c "data" (VList []) = Done (VList (rows ++ [row])) ->
        In j [0; 1; 2; 3; 4; 5] ->
        float_field E row j = Raised e ->
        exists e',
          get_last_candle E (PyVal (VStr t)) (PyDatetime st) (PyDatetime et)
            i w0
          = (Raised e',
             extend w1
               [window_request (CandlesUrl (engine info) (market info) t) i
                  (st, et)] [] [])
          /\ is_RequestException e' = false).
Proof.
  intros Hinfo Hx Hj. split.
  - intros h data row j e Ho Hh Hd Ht Hrow Hin He.
    destruct (six_floats_raise E row 6 11 8 7 5 12 j e mk_bar Hin He)
      as (e' & Hsix & Hloc).
    exists e'. split; [| exact Hloc].
    rewrite get_last_history_candle_str, (bind_Done _ _ _ _ _ Hinfo).
    eapply try_request_raised; [exact Ho | exact Hx | exact Hj | | exact Hloc].
    rewrite bind_lift, Hh. cbn [rbind]. rewrite Hd, Ht.
    rewrite bind_lift, !(float_at_row E data 0 _ row Hrow), Hsix.
    rewrite <- (extend_request w1 (history_request info t) []).
    rewrite app_nil_r. reflexivity.
  - intros st et i c rows row j e Ho Hc Hd Hin He.
    destruct (six_floats_raise E row 0 1 2 3 4 5 j e mk_bar Hin He)
      as (e' & Hsix & Hloc).
    exists e'. split; [| exact Hloc].
    rewrite get_last_candle_str, (bind_Done _ _ _ _ _ Hinfo).
    eapply try_request_raised; [exact Ho | exact Hx | exact Hj | | exact Hloc].
    rewrite bind_lift, Hc. cbn [rbind]. rewrite Hd.
    assert (truthy (VList (rows ++ [row])) = true) as ->
      by (destruct rows; reflexivity).
    rewrite bind_lift. cbn [getitem_int]. rewrite index_seq_last.
    cbn [rbind]. rewrite Hsix.
    rewrite <- (extend_request w1
                  (window_request (CandlesUrl (engine info) (market info) t)
                     i (st, et)) []).
    rewrite app_nil_r. reflexivity.
Qed.

End BarTheorems.

(** ** Date strings and the price of a given day *)

Section DateStrings.

Lemma digit_spec x :
  is_digit (digit x) = true /\ digit_value (digit x) = x mod 10.
Proof.
  unfold digit. assert (H : 0 <= x mod 10 < 10) by lia.
  revert H. generalize (x mod 10). intros k Hk.
  assert (Hc : k = 0 \/ k = 1 \/ k = 2 \/ k = 3 \/ k = 4 \/ k = 5 \/ k = 6
               \/ k = 7 \/ k = 8 \/ k = 9) by lia.
  repeat (destruct Hc as [-> | Hc]); try subst k; split; reflexivity.
Qed.

Lemma re_digit_digit lo hi x rest :
  re_digit lo hi (String (digit x) rest)
  = if (lo <=? x mod 10) && (x mod 10 <=? hi) then [(x mod 10, rest)] else [].
Proof.
  unfold re_digit. destruct (digit_spec x) as [-> ->]. reflexivity.
Qed.

Lemma re_pair_digits x y rest :
  re_pair 0 9 0 9 (String (digit x) (String (digit y) rest))
  = [(10 * (x mod 10) + y mod 10, rest)].
Proof.
  unfold re_pair. rewrite re_digit_digit.
  assert ((0 <=? x mod 10) && (x mod 10 <=? 9) = true) as ->
    by (apply andb_true_iff; split; apply Z.leb_le; lia).
  cbn [flat_map fst snd]. rewrite re_digit_digit.
  assert ((0 <=? y mod 10) && (y mod 10 <=? 9) = true) as ->
    by (apply andb_true_iff; split; apply Z.leb_le; lia).
  reflexivity.
Qed.

Lemma zero_padded_4 y s :
  zero_padded 4 y +:+ s
  = String (digit (y / 10 / 10 / 10))
      (String (digit (y / 10 / 10))
         (String (digit (y / 10)) (String (digit y) s))).
Proof. reflexivity. Qed.

Lemma re_Y_year y s :
  0 <= y <= 9999 -> re_Y (zero_padded 4 y +:+ s) = [(y, s)].
Proof.
  intros Hy. rewrite zero_padded_4. unfold re_Y.
  rewrite re_pair_digits. cbn [flat_map fst snd]. rewrite re_pair_digits.
  cbn [map app fst snd]. f_equal. f_equal. lia.
Qed.

Lemma strftime_date d :
  strftime "%Y-%m-%d" d
  = zero_padded 4 (year d) +:+ month_day_string (month d) (day d).
Proof. reflexivity. Qed.

Lemma reads_back_table :
  forallb (fun m => forallb (reads_back m) (seqZ 1 31)) (seqZ 1 12) = true.
Proof. vm_compute. reflexivity. Qed.

Lemma forallb_seqZ_elim (f : Z -> bool) (a len x : Z) :
  forallb f (seqZ a len) = true -> a <= x < a + len -> f x = true.
Proof.
  intros H Hx. rewrite forallb_forall in H. apply H.
  apply list_elem_of_In, elem_of_seqZ. lia.
Qed.

Lemma reads_back_all m d :
  1 <= m <= 12 -> 1 <= d <= 31 -> reads_back m d = true.
Proof.
  intros Hm Hd.
  apply (forallb_seqZ_elim (reads_back m) 1 31); [| lia].
  apply (forallb_seqZ_elim
           (fun m => forallb (reads_back m) (seqZ 1 31)) 1 12);
    [exact reads_back_table | lia].
Qed.

Lemma days_in_month_le y m : 1 <= m <= 12 -> days_in_month y m <= 31.
Proof.
  intros Hm. rewrite days_in_month_leap.
  assert (Hc : m = 1 \/ m = 2 \/ m = 3 \/ m = 4 \/ m = 5 \/ m = 6 \/ m = 7
               \/ m = 8 \/ m = 9 \/ m = 10 \/ m = 11 \/ m = 12) by lia.
  repeat (destruct Hc as [-> | Hc]); try subst m;
    destruct (is_leap y); vm_compute; discriminate.
Qed.

(** The date string of a datetime is read back as its day at midnight. *)
Lemma strptime_strftime d :
  valid_datetime d = true ->
  strptime_date (strftime "%Y-%m-%d" d)
  = Done (mk_datetime (year d) (month d) (day d) 0 0 0 0).
Proof.
  intros Hv. pose proof (proj1 (valid_datetime_spec d) Hv) as Hd.
  pose proof (days_in_month_le (year d) (month d) ltac:(lia)) as H31.
  pose proof (reads_back_all (month d) (day d) ltac:(lia) ltac:(lia)) as Hrb.
  unfold strptime_date, re_date. rewrite strftime_date.
  rewrite re_Y_year by lia. cbn [flat_map fst snd]. rewrite app_nil_r.
  unfold reads_back in Hrb.
  destruct (re_month_day (month_day_string (month d) (day d)))
    as [| [[m' d'] rest] tl]; [discriminate |].
  apply andb_prop in Hrb as [Hrb Hrest].
  apply andb_prop in Hrb as [Hm' Hd'].
  apply Z.eqb_eq in Hm'. apply Z.eqb_eq in Hd'. subst m' d'.
  cbn [map fst snd]. rewrite Hrest.
  unfold datetime_new. cbv zeta.
  rewrite (valid_mk (year d) (month d) (day d) 0 0 0 0); [reflexivity | | lia ..].
  unfold valid_date, MINYEAR, MAXYEAR.
  rewrite !andb_true_iff, !Z.leb_le. lia.
Qed.


End DateStrings.

Section PriceForDate.

Lemma session_time_valid d h mi s :
  valid_datetime d = true -> 0 <= h < 24 -> 0 <= mi < 60 -> 0 <= s < 60 ->
  session_time (PyDatetime d) h mi s
  = Done (mk_datetime (year d) (month d) (day d) h mi s 0).
Proof.
  intros Hv Hh Hmi Hs. apply valid_datetime_spec in Hv.
  unfold session_time, datetime_new. cbv zeta.
  rewrite valid_mk; [reflexivity | | lia ..].
  unfold valid_date, MINYEAR, MAXYEAR.
  rewrite !andb_true_iff, !Z.leb_le. lia.
Qed.

Lemma get_last_price_for_date_run E ticker d w0 :
  valid_datetime d = true ->
  get_last_price_for_date E ticker (PyDatetime d) w0
  = price_of_sessions
      (get_last_candle E ticker (session d 23 0 0) (session d 23 59 59)
         (VInt 1) w0)
      (get_last_candle E ticker (session d 18 0 0) (session d 18 59 59)
         (VInt 1)).
Proof.
  intros Hv. unfold get_last_price_for_date, price_of_sessions, session.
  rewrite bind_lift.
  rewrite bind_lift, (session_time_valid d 23 0 0) by (auto; lia).
  rewrite bind_lift, (session_time_valid d 23 59 59) by (auto; lia).
  unfold bind at 1.
  destruct (get_last_candle E ticker _ _ (VInt 1) w0)
    as [[[b |] | e |] w1]; try reflexivity.
  rewrite bind_lift, (session_time_valid d 18 0 0) by (auto; lia).
  rewrite bind_lift, (session_time_valid d 18 59 59) by (auto; lia).
  unfold bind at 1.
  destruct (get_last_candle E ticker _ _ (VInt 1) w1)
    as [[[b |] | e |] w2]; reflexivity.
Qed.

(** X19.  [get_last_price_for_date] for a datetime asks [get_last_candle]
    for the evening session of that day, 23:00:00 to 23:59:59 at interval 1,
    and returns the close of its bar; when that gives [None] it asks for the
    main session, 18:00:00 to 18:59:59, and returns the close of its bar;
    when that gives [None] too it prints a line and returns [None].  The
    time of day of the datetime plays no part, and an exception of either
    lookup is the outcome of the call. *)
Theorem price_for_date_sessions E ticker d w0 r1 w1 :
  valid_datetime d = true ->
  get_last_candle E ticker (session d 23 0 0) (session d 23 59 59) (VInt 1) w0
  = (r1, w1) ->
  get_last_price_for_date E ticker (PyDatetime d) w0
  = match r1 with
    | Done (Some b) => (Done (Some (close b)), w1)
    | Done None =>
        match get_last_candle E ticker (session d 18 0 0)
                (session d 18 59 59) (VInt 1) w1 with
        | (Done (Some b), w2) => (Done (Some (close b)), w2)
        | (Done None, w2) =>
            (Done None,
             mk_world (sent w2) (printed w2 ++ [MsgNoData]) (written w2)
                      (all_data w2))
        | (Raised e, w2) => (Raised e, w2)
        | (OutOfFuel, w2) => (OutOfFuel, w2)
        end
    | Raised e => (Raised e, w1)
    | OutOfFuel => (OutOfFuel, w1)
    end.
Proof.
  intros Hv Hc. rewrite get_last_price_for_date_run by assumption.
  rewrite Hc. unfold price_of_sessions.
  destruct r1 as [[b |] | e |]; reflexivity.
Qed.

(** X20.  A date given as a string.  For a datetime [d] of a year from
    1000 on, calling [get_last_price_for_date] with the string
    [d.strftime("%Y-%m-%d")] is the same as calling it with [d] itself: the
    string is parsed back to the day of [d], and only the day counts.
    (Below the year 1000 the width of [%Y] depends on the platform.) *)
Theorem price_for_date_string E ticker d w0 :
  valid_datetime d = true -> 1000 <= year d ->
  get_last_price_for_date E ticker (PyVal (VStr (strftime "%Y-%m-%d" d))) w0
  = get_last_price_for_date E ticker (PyDatetime d) w0.
Proof.
  intros Hv _.
  assert (Hv0 : valid_datetime (mk_datetime (year d) (month d) (day d) 0 0 0 0)
                = true).
  { apply valid_datetime_spec in Hv. apply valid_datetime_spec. cbn. lia. }
  transitivity (get_last_price_for_date E ticker
                  (PyDatetime (mk_datetime (year d) (month d) (day d) 0 0 0 0))
                  w0).
  - unfold get_last_price_for_date.
    rewrite bind_lift, strptime_strftime by assumption. cbn [rbind].
    rewrite bind_lift. reflexivity.
  - rewrite (get_last_price_for_date_run E ticker d w0 Hv).
    rewrite (get_last_price_for_date_run E ticker _ w0 Hv0). reflexivity.
Qed.


End PriceForDate.

Section Fallback.

Lemma get_last_candle_request_error E t st et i w0 info w1 x :
  get_security_info E (PyVal (VStr t)) w0 = (Done info, w1) ->
  request_error
    (http E (length (sent w1))
       (window_request (CandlesUrl (engine info) (market info) t) i (st, et)))
  = Some x ->
  get_last_candle E (PyVal (VStr t)) (PyDatetime st) (PyDatetime et) i w0
  = (Done None,
     extend w1
       [window_request (CandlesUrl (engine info) (market info) t) i (st, et)]
       [MsgRequestError x] []).
Proof.
  intros Hinfo Hx.
  rewrite get_last_candle_str, (bind_Done _ _ _ _ _ Hinfo).
  rewrite (try_request_error E _ _ _ _ _ _ x Hx).
  unfold bind, print, ret. rewrite <- extend_request. reflexivity.
Qed.

(** X22.  A failed request for the evening session.  When the request
    for the candles of the evening session raises an exception of class
    [RequestException] (a transport failure, a status from 400 to 599, a
    decode error of the library), [get_last_price_for_date] does not raise:
    a line is printed and the call goes on to the main session, as if the
    evening session had no candle. *)
Theorem evening_error_falls_back E t d w0 info w1 x :
  valid_datetime d = true ->
  get_security_info E (PyVal (VStr t)) w0 = (Done info, w1) ->
  request_error
    (http E (length (sent w1))
       (window_request (CandlesUrl (engine info) (market info) t) (VInt 1)
          (mk_datetime (year d) (month d) (day d) 23 0 0 0,
           mk_datetime (year d) (month d) (day d) 23 59 59 0)))
  = Some x ->
  get_last_price_for_date E (PyVal (VStr t)) (PyDatetime d) w0
  = price_of_sessions
      (Done None,
       extend w1
         [window_request (CandlesUrl (engine info) (market info) t) (VInt 1)
            (mk_datetime (year d) (month d) (day d) 23 0 0 0,
             mk_datetime (year d) (month d) (day d) 23 59 59 0)]
         [MsgRequestError x] [])
      (get_last_candle E (PyVal (VStr t)) (session d 18 0 0)
         (session d 18 59 59) (VInt 1)).
Proof.
  intros Hv Hinfo Hx. rewrite get_last_price_for_date_run by assumption.
  unfold session at 1 2.
  rewrite (get_last_candle_request_error E t _ _ (VInt 1) w0 info w1 x Hinfo Hx).
  reflexivity.
Qed.

Lemma evening_error_falls_back_witness :
  fst (get_last_price_for_date
         (sample_env [ok lkoh_info; Fails Timeout;
                      ok lkoh_info; ok (candles_body [lkoh_candle])])
         (PyVal (VStr "LKOH")) (PyDatetime (dec18 9 30 0)) world0)
  = Done (Some 6963%float).
Proof.
  rewrite (evening_error_falls_back _ "LKOH" (dec18 9 30 0) world0
             lkoh_info_result after_info Timeout);
    vm_compute; reflexivity.
Defined.

(** X5.  An instrument that cannot be resolved.  When
    [get_security_info] raises, [get_candles], [get_last_price] and
    [get_last_price_for_date] raise the same exception and do nothing more:
    no window is requested, nothing is printed.  Unlike the failure of a
    request for candles, the failure of the request for the instrument is
    never caught. *)
Theorem unresolved_instrument_is_fatal E t w e w1 :
  get_security_info E (PyVal (VStr t)) w = (Raised e, w1) ->
  (forall sd ed i,
      get_candles E (PyVal (VStr t)) (PyDatetime sd) (PyDatetime ed) i w
      = (Raised e, w1))
  /\ (forall st, datetime_sub (now E) (timedelta_new 0 0 0 15 0) = Done st ->
        get_last_price E (PyVal (VStr t)) w = (Raised e, w1))
  /\ (forall d, valid_datetime d = true ->
        get_last_price_for_date E (PyVal (VStr t)) (PyDatetime d) w
        = (Raised e, w1)).
Proof.
  intros Hinfo. split; [| split].
  - intros sd ed i. rewrite get_candles_str.
    apply (bind_Raised _ _ _ _ _ Hinfo).
  - intros st Hst. rewrite get_last_price_str, bind_lift, Hst.
    unfold bind at 1. rewrite get_last_candle_str.
    rewrite (bind_Raised _ _ _ _ _ Hinfo). reflexivity.
  - intros d Hv. rewrite get_last_price_for_date_run by assumption.
    unfold session. rewrite get_last_candle_str.
    rewrite (bind_Raised _ _ _ _ _ Hinfo). reflexivity.
Qed.

Lemma unresolved_instrument_is_fatal_witness :
  get_candles (sample_env [Fails ConnectionError]) (PyVal (VStr "LKOH"))
    (PyDatetime (dec18 0 0 0)) (PyDatetime (dec18 23 59 59)) (VInt 1) world0
  = (Raised RuntimeError, after_info).
Proof.
  apply (proj1 (unresolved_instrument_is_fatal
                  (sample_env [Fails ConnectionError]) "LKOH" world0
                  RuntimeError after_info ltac:(reflexivity))).
Defined.

End Fallback.

(** ** The list of assets *)

Section Assets.

Context {frame : Type} (A : assets_env frame).

Lemma urls_names s :
  urls !! s = None <-> ~ In s ["shares"; "otc"; "etf"; "futures"].
Proof.
  unfold urls. rewrite <- not_elem_of_list_to_map, <- list_elem_of_In.
  reflexivity.
Qed.

(** X23.  The asset types [get_list_assets] refuses.  For any object
    other than one of the four strings [shares], [otc], [etf], [futures]
    (the comparison is exact) the call raises before it sends anything:
    [TypeError] for a list or a dictionary, which cannot be looked up in
    the table of addresses, [ValueError] otherwise. *)
Theorem asset_type_checked asset_type :
  (forall s, asset_type = VStr s ->
             ~ In s ["shares"; "otc"; "etf"; "futures"]) ->
  get_list_assets A asset_type
  = (Raised (match asset_type with
             | VList _ | VDict _ => TypeError
             | _ => ValueError
             end), []).
Proof.
  intros H. destruct asset_type as [| b | z | f | s | l | kvs];
    try reflexivity.
  cbn [get_list_assets].
  rewrite (proj2 (urls_names s) (H s eq_refl)). reflexivity.
Qed.

(** X24.  The request of [get_list_assets].  For each of the four
    asset types exactly one address is requested, the one of the table.
    Nothing is caught: a failure of the transport, a status from 400 to
    599 ([HTTPError]) and the error of a body that does not decode reach
    the caller as they are, and a decoded object without the key
    [securities] raises [KeyError]. *)
Theorem assets_request_failures s :
  In s ["shares"; "otc"; "etf"; "futures"] ->
  exists url,
    urls !! s = Some url
    /\ snd (get_list_assets A (VStr s)) = [url]
    /\ (forall e, http_get A url = Fails e ->
                  fst (get_list_assets A (VStr s)) = Raised e)
    /\ (forall r, http_get A url = Responds r ->
                  request_failure (Responds r) = true ->
                  fst (get_list_assets A (VStr s)) = Raised HTTPError)
    /\ (forall r e, http_get A url = Responds r ->
                    request_failure (Responds r) = false ->
                    json_body r = inl e ->
                    fst (get_list_assets A (VStr s)) = Raised e)
    /\ (forall r kvs, http_get A url = Responds r ->
                      request_failure (Responds r) = false ->
                      json_body r = inr (VDict kvs) ->
                      assoc "securities" kvs = None ->
                      fst (get_list_assets A (VStr s)) = Raised KeyError).
Proof.
  intros Hs.
  destruct (urls !! s) as [url |] eqn:Hu;
    [| apply urls_names in Hu; contradiction].
  exists url. cbn [get_list_assets]. rewrite Hu. cbn [fst snd].
  repeat split.
  - intros e ->. reflexivity.
  - intros r -> Hf. cbn [request_failure] in Hf.
    cbn [assets_of_response]. rewrite Hf. reflexivity.
  - intros r e -> Hf Hj. cbn [request_failure] in Hf.
    cbn [assets_of_response]. rewrite Hf, Hj. reflexivity.
  - intros r kvs -> Hf Hj Hk. cbn [request_failure] in Hf.
    cbn [assets_of_response]. rewrite Hf, Hj.
    cbn [getitem_str]. rewrite Hk. reflexivity.
Qed.

End Assets.

(** ** The columns and the order of the table *)

Section TableFormat.

Lemma no_space_append a c :
  no_space a = true -> is_space c = false ->
  no_space (a +:+ String c "") = true.
Proof.
  intros Ha Hc. induction a as [| x a IH].
  - change (no_space (String c "") = true). cbn [no_space].
    rewrite Hc. reflexivity.
  - rewrite append_cons. cbn [no_space] in *.
    apply andb_prop in Ha as [Hx Ha]. rewrite Hx, (IH Ha). reflexivity.
Qed.

(** The words of [split] have no whitespace. *)
Lemma split_from_no_space cur s w :
  match cur with Some c => no_space c = true | None => True end ->
  In w (split_from cur s) -> no_space w = true.
Proof.
  revert cur. induction s as [| c s IH]; intros cur Hcur Hw.
  - destruct cur as [x |]; cbn in Hw; [| destruct Hw].
    destruct Hw as [<- | []]. exact Hcur.
  - cbn [split_from] in Hw. destruct (is_space c) eqn:Hc.
    + destruct cur as [x |].
      * destruct Hw as [<- | Hw]; [exact Hcur |]. apply (IH None I Hw).
      * apply (IH None I Hw).
    + refine (IH _ _ Hw).
      destruct cur as [x |]; cbn [default].
      * apply no_space_append; assumption.
      * change (no_space (String c "") = true). cbn [no_space].
        rewrite Hc. reflexivity.
Qed.

Lemma index_seq_In {A} (l : list A) i x : index_seq l i = Done x -> In x l.
Proof.
  unfold index_seq. destruct (_ && _); [| discriminate].
  destruct (l !! _) as [y |] eqn:Hy; [| discriminate].
  intros [= <-]. apply list_elem_of_In. eapply list_elem_of_lookup_2; eauto.
Qed.

Lemma remove_colons_no_space s :
  no_space s = true -> no_space (remove_colons s) = true.
Proof.
  induction s as [| c s IH]; [reflexivity |]. cbn [no_space remove_colons].
  intros H. apply andb_prop in H as [Hc Hs].
  destruct (Ascii.eqb c ":"); [auto |]. cbn [no_space]. rewrite Hc. auto.
Qed.

Lemma remove_colons_not_colon s :
  all_chars not_colon (remove_colons s) = true.
Proof.
  induction s as [| c s IH]; [reflexivity |]. cbn [remove_colons].
  destruct (Ascii.eqb c ":") eqn:Hc; [exact IH |].
  cbn [all_chars]. unfold not_colon at 1. rewrite Hc. exact IH.
Qed.

Lemma strftime_yymmdd d :
  strftime "%y%m%d" d
  = String (digit (year d mod 100 / 10))
      (String (digit (year d mod 100))
         (String (digit (month d / 10))
            (String (digit (month d))
               (String (digit (day d / 10)) (String (digit (day d)) ""))))).
Proof. reflexivity. Qed.

(** The date and the time of a row. *)
Lemma candle_row_format t i s candle r :
  candle_row t i s candle = Done r ->
  String.length (DATE r) = 6%nat /\ all_chars is_digit (DATE r) = true
  /\ no_space (TIME r) = true /\ all_chars not_colon (TIME r) = true.
Proof.
  intros H. apply candle_row_canonical in H
    as (_ & _ & Hdate & (begin & tm & _ & Htm & Htime & _) & _).
  rewrite Hdate, Htime, strftime_yymmdd.
  split; [reflexivity |]. split.
  - cbn [all_chars]. rewrite !(proj1 (digit_spec _)). reflexivity.
  - split; [| apply remove_colons_not_colon].
    apply remove_colons_no_space.
    apply index_seq_In in Htm.
    apply (split_from_no_space None begin tm I Htm).
Qed.

(** X16.  The date and time columns.  In every row of a table that
    [get_candles] returns, [<DATE>] is six decimal digits and [<TIME>]
    contains neither a colon nor whitespace. *)
Theorem table_format E ticker start_date end_date i w0 tbl wf :
  get_candles E ticker start_date end_date i w0 = (Done tbl, wf) ->
  forall r, In r tbl ->
    String.length (DATE r) = 6%nat /\ all_chars is_digit (DATE r) = true
    /\ no_space (TIME r) = true /\ all_chars not_colon (TIME r) = true.
Proof.
  intros H r Hr.
  destruct (get_candles_inv E i _ _ _ _ _ _ H)
    as (t & sd & ed & info & w1 & ws & msgs
        & -> & -> & -> & Hinfo & Hplan & Hrun & _).
  destruct (run_windows_in _ _ _ _ _ _ _ _ Hrun r Hr)
    as (k & w & rk & mk & Hk & Hwr & Hin).
  apply window_result_inv in Hwr
    as [(x & _ & -> & _)
       | (resp & body & data & Ho & Hx & Hj & Hb & Hc & _)];
    [destruct Hin |].
  destruct (candle_rows_in _ _ _ _ _ Hc) as [_ H2].
  destruct (H2 r Hin) as (candle & Hcin & Hrow).
  eapply candle_row_format; exact Hrow.
Qed.

Lemma table_format_witness :
  String.length (DATE lkoh_row) = 6%nat
  /\ all_chars is_digit (DATE lkoh_row) = true
  /\ no_space (TIME lkoh_row) = true
  /\ all_chars not_colon (TIME lkoh_row) = true.
Proof.
  apply (table_format
           (sample_env [ok lkoh_info; ok (candles_body [lkoh_candle])])
           (PyVal (VStr "LKOH")) (PyDatetime (dec18 0 0 0))
           (PyDatetime (dec18 10 30 0)) (VInt 1) world0 [lkoh_row]
           (snd (get_candles
                   (sample_env [ok lkoh_info; ok (candles_body [lkoh_candle])])
                   (PyVal (VStr "LKOH")) (PyDatetime (dec18 0 0 0))
                   (PyDatetime (dec18 10 30 0)) (VInt 1) world0)));
    [vm_compute; reflexivity | left; reflexivity].
Defined.

End TableFormat.

Section Instances.

Lemma bar_conversion_errors_witness :
  exists e',
    get_last_history_candle
      (sample_env [ok lkoh_info; ok (history_body [null_open_row])])
      (PyVal (VStr "LKOH")) world0
    = (Raised e',
       extend after_info [history_request lkoh_info_result "LKOH"] [] [])
    /\ is_RequestException e' = false.
Proof.
  destruct (bar_conversion_errors
              (sample_env [ok lkoh_info; ok (history_body [null_open_row])])
              "LKOH" world0 lkoh_info_result after_info
              (mk_response 200 (inr (history_body [null_open_row])))
              (history_body [null_open_row])
              ltac:(vm_compute; reflexivity) ltac:(reflexivity)
              ltac:(reflexivity)) as [H _].
  apply (H (VDict [("data", VList [null_open_row])])
           (VList [null_open_row]) null_open_row 6 TypeError);
    try (vm_compute; reflexivity).
  left. reflexivity.
Defined.

Lemma price_for_date_sessions_witness :
  fst (get_last_price_for_date fallback_env (PyVal (VStr "LKOH"))
         (PyDatetime (dec18 9 30 0)) world0)
  = Done None.
Proof.
  rewrite (price_for_date_sessions fallback_env (PyVal (VStr "LKOH"))
             (dec18 9 30 0) world0 (Done None)
             (snd (get_last_candle fallback_env (PyVal (VStr "LKOH"))
                     (session (dec18 9 30 0) 23 0 0)
                     (session (dec18 9 30 0) 23 59 59) (VInt 1) world0)));
    vm_compute; reflexivity.
Defined.

Lemma price_for_date_string_witness :
  get_last_price_for_date intraday_env (PyVal (VStr "LKOH"))
    (PyVal (VStr "2024-12-18")) world0
  = get_last_price_for_date intraday_env (PyVal (VStr "LKOH"))
      (PyDatetime (dec18 9 30 0)) world0.
Proof.
  apply (price_for_date_string intraday_env (PyVal (VStr "LKOH"))
           (dec18 9 30 0) world0); [reflexivity | vm_compute; discriminate].
Defined.


Lemma asset_type_checked_witness :
  get_list_assets unreachable (VStr "Shares") = (Raised ValueError, [])
  /\ get_list_assets unreachable (VList []) = (Raised TypeError, []).
Proof.
  split.
  - apply (asset_type_checked unreachable (VStr "Shares")).
    intros s [= <-]. vm_compute.
    intros [H | [H | [H | [H | []]]]]; discriminate.
  - apply (asset_type_checked unreachable (VList [])). intros s [=].
Defined.

Lemma assets_request_failures_witness :
  exists url,
    urls !! "futures" = Some url
    /\ get_list_assets unreachable (VStr "futures")
       = (Raised ConnectionError, [url]).
Proof.
  destruct (assets_request_failures unreachable "futures")
    as (url & Hu & Hs & Hf & _).
  { right. right. right. left. reflexivity. }
  exists url. split; [exact Hu |].
  rewrite (surjective_pairing (get_list_assets unreachable (VStr "futures"))).
  rewrite Hs, (Hf ConnectionError eq_refl). reflexivity.
Defined.

End Instances.

Section TableOrder.

Context (E : env) (base : url) (t : string) (i : pyval).

Lemma run_windows_results n ws rows msgs :
  run_windows E base t i n ws = Some (rows, msgs) ->
  exists results,
    length results = length ws
    /\ rows = concat (map fst results)
    /\ msgs = concat (map snd results)
    /\ forall k w res, ws !! k = Some w -> results !! k = Some res ->
         window_result E base t i (n + k) w = Some res.
Proof.
  revert n rows msgs. induction ws as [| w0 ws IH]; intros n rows msgs H.
  - injection H as <- <-. exists []. repeat split.
    intros k w res Hk. destruct k; discriminate.
  - cbn [run_windows] in H.
    destruct (window_result E base t i n w0) as [[r0 m0] |] eqn:H0;
      [| discriminate].
    destruct (run_windows E base t i (S n) ws) as [[rs ms] |] eqn:Hs;
      [| discriminate].
    injection H as <- <-.
    destruct (IH (S n) rs ms Hs) as (results & Hlen & -> & -> & Hres).
    exists ((r0, m0) :: results). cbn [length map concat fst snd].
    repeat split; [lia |].
    intros k w res Hk Hr. destruct k as [| k]; cbn in Hk, Hr.
    + injection Hk as <-. injection Hr as <-. rewrite Nat.add_0_r. exact H0.
    + replace (n + S k)%nat with (S n + k)%nat by lia. eapply Hres; eauto.
Qed.

Lemma candle_rows_Forall2 s data rows :
  candle_rows t i s data = Done rows ->
  Forall2 (fun candle r => candle_row t i s candle = Done r) data rows.
Proof.
  revert rows. induction data as [| c rest IH]; intros rows H; cbn in H.
  - injection H as <-. constructor.
  - apply rbind_Done_inv in H as (r & Hr & H).
    apply rbind_Done_inv in H as (rs & Hrs & H). injection H as <-.
    constructor; [exact Hr | apply IH; exact Hrs].
Qed.

End TableOrder.

Section TableOrderTheorem.

Lemma get_security_info_world E t w r w1 :
  get_security_info E (PyVal (VStr t)) w = (r, w1) ->
  w1 = after_request w (security_request t).
Proof.
  rewrite get_security_info_run. cbv zeta.
  destruct (http E _ _) as [x | resp].
  - destruct (is_RequestException x); intros [= _ <-]; reflexivity.
  - destruct ((400 <=? _) && _); [intros [= _ <-]; reflexivity |].
    destruct (json_body resp) as [x | data]; [| intros [= _ <-]; reflexivity].
    destruct (is_ValueError x); intros [= _ <-]; reflexivity.
Qed.

(** X15.  The order of the table.  When [get_candles] returns, its
    table is the concatenation, in the order of the planned windows, of
    what each window contributed: nothing, when its request raised an
    exception of class [RequestException], and otherwise the rows of the
    candles of its answer, in their order.  The lines printed during the
    call are, in the same order, one line for each window whose request
    failed. *)
Theorem table_in_window_order E t sd ed i w0 tbl wf :
  get_candles E (PyVal (VStr t)) (PyDatetime sd) (PyDatetime ed) i w0
  = (Done tbl, wf) ->
  exists info w1 ws results,
    get_security_info E (PyVal (VStr t)) w0 = (Done info, w1)
    /\ plan sd ed = Done ws
    /\ length results = length ws
    /\ tbl = concat (map fst results)
    /\ printed wf = printed w0 ++ concat (map snd results)
    /\ forall k w rows msgs,
         ws !! k = Some w -> results !! k = Some (rows, msgs) ->
         (exists x,
             request_error
               (http E (length (sent w1) + k)
                  (window_request
                     (CandlesUrl (engine info) (market info) t) i w))
             = Some x
             /\ rows = [] /\ msgs = [MsgCandlesError (fst w) (snd w) x])
         \/ (exists resp body data,
               http E (length (sent w1) + k)
                 (window_request
                    (CandlesUrl (engine info) (market info) t) i w)
               = Responds resp
               /\ request_error (Responds resp) = None
               /\ json_body resp = inr body
               /\ body_data body = Done data
               /\ Forall2 (fun candle r =>
                             candle_row t i (fst w) candle = Done r)
                    data rows
               /\ msgs = []).
Proof.
  intros H.
  apply get_candles_inv in H
    as (t' & sd' & ed' & info & w1 & ws & msgs
        & [= <-] & [= <-] & [= <-] & Hinfo & Hp & Hrun & ->).
  destruct (run_windows_results _ _ _ _ _ _ _ _ Hrun)
    as (results & Hlen & -> & -> & Hres).
  exists info, w1, ws, results.
  split; [exact Hinfo | split; [exact Hp | split; [exact Hlen |]]].
  split; [reflexivity | split].
  - cbn [printed]. rewrite (get_security_info_world _ _ _ _ _ Hinfo).
    reflexivity.
  - intros k w rows msgs Hk Hr. specialize (Hres k w (rows, msgs) Hk Hr).
    apply window_result_inv in Hres
      as [(x & Hx & -> & ->)
         | (resp & body & data & Ho & Hx & Hj & Hb & Hc & ->)].
    + left. exists x. auto.
    + right. exists resp, body, data. repeat split; auto.
      apply candle_rows_Forall2. exact Hc.
Qed.

Lemma table_in_window_order_witness :
  exists info w1 ws (results : list (list row * list message)),
    get_security_info
      (sample_env [ok lkoh_info; ok (candles_body [lkoh_candle]);
                   Fails Timeout; ok (candles_body [lkoh_candle])])
      (PyVal (VStr "LKOH")) world0 = (Done info, w1)
    /\ plan (dec18 0 0 0) (dec18 12 30 0) = Done ws
    /\ length results = length ws
    /\ [lkoh_row; lkoh_row] = concat (map fst results).
Proof.
  destruct (table_in_window_order
              (sample_env [ok lkoh_info; ok (candles_body [lkoh_candle]);
                           Fails Timeout; ok (candles_body [lkoh_candle])])
              "LKOH" (dec18 0 0 0) (dec18 12 30 0) (VInt 1) world0
              [lkoh_row; lkoh_row]
              (snd (get_candles
                      (sample_env [ok lkoh_info;
                                   ok (candles_body [lkoh_candle]);
                                   Fails Timeout;
                                   ok (candles_body [lkoh_candle])])
                      (PyVal (VStr "LKOH")) (PyDatetime (dec18 0 0 0))
                      (PyDatetime (dec18 12 30 0)) (VInt 1) world0))
              ltac:(vm_compute; reflexivity))
    as (info & w1 & ws & results & H1 & H2 & H3 & H4 & _).
  exists info, w1, ws, results. repeat split; assumption.
Defined.

End TableOrderTheorem.

Section RollingRange.

Lemma datetime_sub_inv d t d' :
  datetime_sub d t = Done d' ->
  stamp d' = stamp d - td_total t /\ valid_datetime d' = true.
Proof.
  unfold datetime_sub. intros H.
  pose proof (datetime_add_inv d (timedelta_neg t) d' H) as [H1 H2].
  rewrite timedelta_neg_total in H1. split; [lia | exact H2].
Qed.

(** X10.  A range that ends at the time of day at which it starts.
    For a start taken [n] days before the end ([end - timedelta(days=n)],
    as the example script does with 60 days before now), the plan has
    fourteen windows for each of the [n] days before the day of the end
    and, on that day, the windows of the hours from 10 to the hour of the
    end: [14 * n + max 0 (hour - 9)] in all. *)
Theorem rolling_range now n sd :
  valid_datetime now = true -> toordinal now < MAXORDINAL -> 0 <= n ->
  datetime_sub now (timedelta_new n 0 0 0 0) = Done sd ->
  plan sd now = Done (windows sd now)
  /\ Z.of_nat (length (windows sd now)) = 14 * n + Z.max 0 (hour now - 9).
Proof.
  intros Hv Hmax Hn Hsub.
  apply datetime_sub_inv in Hsub as [Hst Hvs].
  rewrite timedelta_new_total in Hst.
  pose proof (stamp_split now Hv) as [Hqn Hrn].
  pose proof (stamp_split sd Hvs) as [Hqs Hrs].
  pose proof (stamp_time_of_day now) as Htn.
  pose proof (stamp_time_of_day sd) as Hts.
  assert (Hord : toordinal now - toordinal sd = n) by lia.
  assert (Htod : time_of_day sd = time_of_day now) by lia.
  assert (Hus : microsecond sd = microsecond now).
  { rewrite (microsecond_time_of_day sd), (microsecond_time_of_day now)
      by assumption. rewrite Htod. reflexivity. }
  split.
  - unfold plan, loop_fuel. apply plan_days_windows; auto; lia.
  - rewrite windows_length by assumption.
    rewrite datetime_le_stamp by assumption.
    assert ((stamp sd <=? stamp now) = true) as -> by (apply Z.leb_le; lia).
    rewrite Htod, Z.leb_refl, Hord. f_equal.
    unfold last_day_hours. rewrite Hus.
    pose proof (proj1 (valid_datetime_spec now) Hv) as Hc.
    assert (Hh : (time_of_day now - microsecond now) / 3600000000 = hour now).
    { unfold time_of_day.
      replace (((hour now * 60 + minute now) * 60 + second now) * 1000000
               + microsecond now - microsecond now)
        with (hour now * 3600000000
              + (minute now * 60 + second now) * 1000000) by lia.
      rewrite Z.div_add_l by lia. rewrite Z.div_small by lia. lia. }
    rewrite Hh. lia.
Qed.

Lemma rolling_range_witness :
  Z.of_nat (length (windows (mk_datetime 2024 10 28 18 30 0 0)
                      (mk_datetime 2024 12 27 18 30 0 0)))
  = 14 * 60 + Z.max 0 (hour (mk_datetime 2024 12 27 18 30 0 0) - 9).
Proof.
  apply (rolling_range (mk_datetime 2024 12 27 18 30 0 0) 60
           (mk_datetime 2024 10 28 18 30 0 0));
    vm_compute; first [reflexivity | discriminate].
Defined.

End RollingRange.

(** ** Failed and empty answers *)

Section EmptyAnswers.

(** X25.  A failed request for the candles of the last minutes.  When the
    request of [get_last_candle] inside [get_last_price] raises an
    exception of class [RequestException], [get_last_price] does not
    raise: a line is printed and the price is taken from
    [get_last_history_candle], the close of the last trading session, as
    if there had been no candle in the last fifteen minutes. *)
Theorem last_price_error_falls_back E t w0 st info w1 x :
  datetime_sub (now E) (timedelta_new 0 0 0 15 0) = Done st ->
  get_security_info E (PyVal (VStr t)) w0 = (Done info, w1) ->
  request_error
    (http E (length (sent w1))
       (window_request (CandlesUrl (engine info) (market info) t) (VInt 1)
          (st, now E)))
  = Some x ->
  get_last_price E (PyVal (VStr t)) w0
  = match get_last_history_candle E (PyVal (VStr t))
            (extend w1
               [window_request (CandlesUrl (engine info) (market info) t)
                  (VInt 1) (st, now E)]
               [MsgRequestError x] []) with
    | (Done (Some b), w2) => (Done (Some (close b)), w2)
    | (Done None, w2) => (Done None, w2)
    | (Raised e, w2) => (Raised e, w2)
    | (OutOfFuel, w2) => (OutOfFuel, w2)
    end.
Proof.
  intros Hst Hinfo Hx. rewrite get_last_price_str, bind_lift, Hst.
  unfold bind at 1.
  rewrite (get_last_candle_request_error E t st (now E) (VInt 1) w0 info w1 x
             Hinfo Hx).
  unfold bind.
  destruct (get_last_history_candle E (PyVal (VStr t)) _)
    as [[[b |] | e |] w2]; reflexivity.
Qed.

Lemma last_price_error_falls_back_witness :
  fst (get_last_price
         (sample_env [ok lkoh_info; Fails Timeout;
                      ok lkoh_info; ok (history_body [lkoh_history_row])])
         (PyVal (VStr "LKOH")) world0)
  = Done (Some 7235%float).
Proof.
  rewrite (last_price_error_falls_back _ "LKOH" world0
             (mk_datetime 2024 12 27 18 15 0 0) lkoh_info_result after_info
             Timeout);
    vm_compute; reflexivity.
Defined.

Lemma dict_get_missing kvs k dflt :
  assoc k kvs = None -> dict_get (VDict kvs) k dflt = Done dflt.
Proof. intros H. cbn [dict_get]. rewrite H. reflexivity. Qed.

(** The data of a body that lacks the table, or whose table lacks its
    data: the defaults of the two [get] calls. *)
Lemma table_data_missing kvs table :
  assoc table kvs = None
  \/ (exists c, assoc table kvs = Some (VDict c) /\ assoc "data" c = None) ->
  (let* c := dict_get (VDict kvs) table (VDict []) in
   dict_get c "data" (VList [])) = Done (VList []).
Proof.
  intros [H | (c & Hc & Hd)].
  - rewrite (dict_get_missing _ _ _ H). reflexivity.
  - assert (H1 : dict_get (VDict kvs) table (VDict []) = Done (VDict c))
      by (cbn [dict_get]; rewrite Hc; reflexivity).
    rewrite H1. cbn [rbind].
    apply dict_get_missing. exact Hd.
Qed.

(** X26.  An answer without the table.  A decoded JSON object that has no
    [candles] (or [history]) entry, or whose entry is an object without
    [data], is read as an answer with no data, through the defaults of the
    two [get] calls: a window of [get_candles] sends its request and adds
    no row and no line, and the two lookups print their line and return
    [None].  It is not an error. *)
Theorem missing_table_is_no_data E resp kvs :
  request_error (Responds resp) = None ->
  json_body resp = inr (VDict kvs) ->
  (forall base t i s e w,
      assoc "candles" kvs = None
      \/ (exists c, assoc "candles" kvs = Some (VDict c)
                    /\ assoc "data" c = None) ->
      http E (length (sent w)) (window_request base i (s, e)) = Responds resp ->
      fetch_window E base t i s e w
      = (Done tt, extend w [window_request base i (s, e)] [] []))
  /\ (forall t st et i w0 info w1,
        assoc "candles" kvs = None
        \/ (exists c, assoc "candles" kvs = Some (VDict c)
                      /\ assoc "data" c = None) ->
        get_security_info E (PyVal (VStr t)) w0 = (Done info, w1) ->
        http E (length (sent w1))
          (window_request (CandlesUrl (engine info) (market info) t) i
             (st, et)) = Responds resp ->
        get_last_candle E (PyVal (VStr t)) (PyDatetime st) (PyDatetime et)
          i w0
        = (Done None,
           extend w1
             [window_request (CandlesUrl (engine info) (market info) t) i
                (st, et)] [MsgNoData] []))
  /\ (forall t w0 info w1,
        assoc "history" kvs = None
        \/ (exists c, assoc "history" kvs = Some (VDict c)
                      /\ assoc "data" c = None) ->
        get_security_info E (PyVal (VStr t)) w0 = (Done info, w1) ->
        http E (length (sent w1)) (history_request info t) = Responds resp ->
        get_last_history_candle E (PyVal (VStr t)) w0
        = (Done None, extend w1 [history_request info t] [MsgNoHistory] [])).
Proof.
  intros Hx Hj. split; [| split].
  - intros base t i s e w Hk Ho.
    pose proof (fetch_window_spec E base t i s e w) as Hf.
    unfold window_result in Hf. cbv zeta in Hf. cbn [fst snd] in Hf.
    rewrite Ho, Hx, Hj in Hf. unfold body_data in Hf.
    pose proof (table_data_missing kvs "candles" Hk) as Hd.
    apply rbind_Done_inv in Hd as (c & Hc & Hd).
    rewrite Hc in Hf. cbn [rbind] in Hf. rewrite Hd in Hf.
    cbn [rbind iterate candle_rows] in Hf. exact Hf.
  - intros t st et i w0 info w1 Hk Hinfo Ho.
    rewrite get_last_candle_str, (bind_Done _ _ _ _ _ Hinfo).
    eapply try_request_ok; [exact Ho | exact Hx | exact Hj |].
    rewrite bind_lift, (table_data_missing kvs "candles" Hk).
    cbn [truthy]. unfold bind, print, ret.
    rewrite <- extend_request. reflexivity.
  - intros t w0 info w1 Hk Hinfo Ho.
    rewrite get_last_history_candle_str, (bind_Done _ _ _ _ _ Hinfo).
    eapply try_request_ok; [exact Ho | exact Hx | exact Hj |].
    rewrite bind_lift, (table_data_missing kvs "history" Hk).
    cbn [truthy]. unfold bind, print, ret.
    rewrite <- extend_request. reflexivity.
Qed.

Lemma missing_table_is_no_data_witness :
  get_last_candle (sample_env [ok lkoh_info; ok (VDict [])])
    (PyVal (VStr "LKOH")) (PyDatetime (dec18 18 15 0))
    (PyDatetime (dec18 18 30 0)) (VInt 1) world0
  = (Done None,
     extend after_info
       [window_request
          (CandlesUrl (engine lkoh_info_result) (market lkoh_info_result)
             "LKOH") (VInt 1) (dec18 18 15 0, dec18 18 30 0)]
       [MsgNoData] []).
Proof.
  apply (proj1 (proj2 (missing_table_is_no_data
                         (sample_env [ok lkoh_info; ok (VDict [])])
                         (mk_response 200 (inr (VDict []))) []
                         ltac:(reflexivity) ltac:(reflexivity))));
    [left; reflexivity | vm_compute; reflexivity | vm_compute; reflexivity].
Defined.

End EmptyAnswers.
